(** * cloud_proc: projection of a point cloud onto a range image

    Shallow embedding of [include/cloud_proc/projection.h]:
    [is_point_valid], [azimuth], [elevation] and [Projection<T>::process],
    with the template parameter [T] taken at [double] (IEEE binary64, the
    kernel's primitive floats) wherever the code computes, and left
    generic for the two angle functions.

    The types the header takes from elsewhere are modelled as follows.
    - [sensor_msgs::PointCloud2]: [height], [width], [point_step] and
      [row_step] are [uint32] fields and [data] is a byte vector; a
      [uint32] is a [Z] in [0, 2^32) and arithmetic on two of them is
      written with [wrap32].
    - [size_t] is 64 bits wide ([wrap64]), [int] is 32 bits wide; a
      product of two [int]s that does not fit is taken as the two's
      complement build computes it ([to_int] of the product), the language
      leaving it undefined.
    - [assert] is enabled: a failed assertion ends the call.
    - [std::atan2] and [std::hypot] belong to the C library: they are the
      two fields of a [Libm] record that every definition takes.
    - [PointCloud2Iterator<T>(cloud, "x")] points at the field named [x]
      of the first record: its constructor looks the field up, throws when
      there is none, and takes the address of [data.front()], which is
      undefined on an empty vector. The iterator keeps [point_step] in an
      [int] member: [it[k]] reads the [k]-th [T] from its position, [++it]
      moves by that [int] and [it + n] takes [n] as an [int] and moves by
      the [int] product of the two. *)

From Stdlib Require Import Strings.Byte Strings.String.
From Stdlib Require Import ZArith List Bool Lia Floats Uint63.
Import ListNotations.
Local Open Scope Z_scope.

(** ** Machine integers *)

Definition wrap32 (z : Z) : Z := z mod 2 ^ 32.
Definition wrap64 (z : Z) : Z := z mod 2 ^ 64.

(** Conversion of a [size_t] to the [int] parameter of the iterator's
    [operator+]. *)
Definition to_int (z : Z) : Z := (z + 2 ^ 31) mod 2 ^ 32 - 2 ^ 31.

Definition is_u32 (z : Z) : Prop := 0 <= z < 2 ^ 32.
Definition is_int (z : Z) : Prop := - 2 ^ 31 <= z < 2 ^ 31.

(** ** Byte vectors *)

Definition bytes := list byte.

Definition len (b : bytes) : Z := Z.of_nat (length b).

(** [resize(n, 0)] after [clear()]. *)
Definition zeros (n : Z) : bytes := repeat x00 (Z.to_nat n).

(** The [n] bytes of [b] from [off] on; [None] when they are not all inside
    [b] (reading them is undefined behaviour). *)
Definition slice (b : bytes) (off n : Z) : option bytes :=
  if (0 <=? off) && (0 <=? n) && (off + n <=? len b)
  then Some (firstn (Z.to_nat n) (skipn (Z.to_nat off) b))
  else None.

(** [std::copy] of [src] to [dst.begin() + off]; [None] when the copy does
    not fit in [dst] (undefined behaviour). *)
Definition blit (dst : bytes) (off : Z) (src : bytes) : option bytes :=
  if (0 <=? off) && (off + len src <=? len dst)
  then Some (firstn (Z.to_nat off) dst ++ src
             ++ skipn (Z.to_nat (off + len src)) dst)
  else None.

(** ** IEEE doubles *)

Definition M_PI : float := 0x1.921fb54442d18p+1%float.

(** [std::isfinite] and [std::isnan]. *)
Definition isfinite (x : float) : bool := PrimFloat.is_finite x.
Definition isnan (x : float) : bool := PrimFloat.is_nan x.

(** [a >= b] and [a != b] on doubles. *)
Definition fge (a b : float) : bool := (b <=? a)%float.
Definition fne (a b : float) : bool := negb (a =? b)%float.

(** [T(n)] for a [uint32] [n]: every 32-bit integer is a double. *)
Definition double_of_u32 (n : Z) : float := of_uint63 (Uint63.of_Z n).

(** Conversion of a double to [size_t]: the fractional part is discarded.
    The code converts only values it has checked to lie in [0, width) or
    [0, height); on the others (where C++ leaves the conversion undefined)
    the function is completed by truncation, and by [0] on NaN and the
    infinities. *)
Definition to_size_t (u : float) : Z :=
  match Prim2SF u with
  | S754_finite s m e =>
      let a := Z.shiftl (Zpos m) e in if s then - a else a
  | _ => 0
  end.

(** The double whose IEEE binary64 encoding is the 64-bit integer [b]. *)
Definition double_of_bits (b : Z) : float :=
  let s := Z.testbit b 63 in
  let e := Z.land (Z.shiftr b 52) 2047 in
  let m := Z.land b (2 ^ 52 - 1) in
  SF2Prim
    (if e =? 2047 then (if m =? 0 then S754_infinity s else S754_nan)
     else if e =? 0 then
       match m with Zpos p => S754_finite s p (-1074) | _ => S754_zero s end
     else
       match m + 2 ^ 52 with
       | Zpos p => S754_finite s p (e - 1075)
       | _ => S754_nan
       end).

(** Little-endian value of a byte string (the host's byte order, which is
    what the iterator's [reinterpret_cast] reads). *)
Fixpoint le_value (b : bytes) : Z :=
  match b with
  | [] => 0
  | x :: r => Z.of_N (Byte.to_N x) + 256 * le_value r
  end.

Definition sizeof_T : Z := 8.

(** [*reinterpret_cast<const T*>(&data[off])]. *)
Definition read_T (data : bytes) (off : Z) : option float :=
  match slice data off sizeof_T with
  | Some b => Some (double_of_bits (le_value b))
  | None => None
  end.

Definition xyz : Type := (float * float * float)%type.

(** [it[0]], [it[1]], [it[2]] for an iterator at byte [off]. *)
Definition read_xyz (data : bytes) (off : Z) : option xyz :=
  match read_T data off, read_T data (off + sizeof_T),
        read_T data (off + 2 * sizeof_T) with
  | Some x, Some y, Some z => Some (x, y, z)
  | _, _, _ => None
  end.

(** ** The free functions of the header *)

Definition is_point_valid (x y z : float) : bool :=
  isfinite x && isfinite y && isfinite z
  && (fne x 0 || fne y 0 || fne z 0).

Record Libm (T : Type) : Type := mkLibm {
  atan2 : T -> T -> T;
  hypot : T -> T -> T
}.
Arguments atan2 {T} _ _ _.
Arguments hypot {T} _ _ _.
Arguments mkLibm {T} _ _.

Section SphericalTransform.
Context {T : Type} (lm : Libm T).

Definition azimuth (x y z : T) : T := atan2 lm y x.

Definition elevation (x y z : T) : T := atan2 lm z (hypot lm x y).
End SphericalTransform.

(** ** Messages and configuration *)

Record PointField : Type := mkField {
  name : string;
  offset : Z;
  datatype : Z;
  count : Z
}.

(** [set_field] of the iterator: the offset of the first field with that
    name, returned as an [int]; [None] stands for the [std::runtime_error]
    it throws. *)
Fixpoint field_offset (nm : string) (fs : list PointField) : option Z :=
  match fs with
  | [] => None
  | f :: r => if String.eqb (name f) nm then Some (to_int (offset f))
              else field_offset nm r
  end.

Record PointCloud2 : Type := mkCloud {
  header : Z;
  height : Z;
  width : Z;
  fields : list PointField;
  is_bigendian : bool;
  point_step : Z;
  row_step : Z;
  data : bytes;
  is_dense : bool
}.

Definition KEEP_FIRST : Z := 0.
Definition KEEP_LAST : Z := 1.
Definition KEEP_CLOSEST : Z := 2.
Definition KEEP_FARTHEST : Z := 3.

(** The data members of [Projection<double>]. *)
Record Projection : Type := mkProjection {
  height_ : Z;
  width_ : Z;
  f_azimuth_ : float;
  f_elevation_ : float;
  c_azimuth_ : float;
  c_elevation_ : float;
  keep_ : Z;
  azimuth_only_ : bool
}.

(** The members' default initialisers. *)
Definition default_projection : Projection :=
  mkProjection 0 0 nan nan nan nan KEEP_LAST false.

(** Assignments to the members of the output message. *)
Definition set_header (o : PointCloud2) (v : Z) : PointCloud2 :=
  mkCloud v (height o) (width o) (fields o) (is_bigendian o)
          (point_step o) (row_step o) (data o) (is_dense o).
Definition set_height (o : PointCloud2) (v : Z) : PointCloud2 :=
  mkCloud (header o) v (width o) (fields o) (is_bigendian o)
          (point_step o) (row_step o) (data o) (is_dense o).
Definition set_width (o : PointCloud2) (v : Z) : PointCloud2 :=
  mkCloud (header o) (height o) v (fields o) (is_bigendian o)
          (point_step o) (row_step o) (data o) (is_dense o).
Definition set_fields (o : PointCloud2) (v : list PointField) : PointCloud2 :=
  mkCloud (header o) (height o) (width o) v (is_bigendian o)
          (point_step o) (row_step o) (data o) (is_dense o).
Definition set_is_bigendian (o : PointCloud2) (v : bool) : PointCloud2 :=
  mkCloud (header o) (height o) (width o) (fields o) v
          (point_step o) (row_step o) (data o) (is_dense o).
Definition set_point_step (o : PointCloud2) (v : Z) : PointCloud2 :=
  mkCloud (header o) (height o) (width o) (fields o) (is_bigendian o)
          v (row_step o) (data o) (is_dense o).
Definition set_row_step (o : PointCloud2) (v : Z) : PointCloud2 :=
  mkCloud (header o) (height o) (width o) (fields o) (is_bigendian o)
          (point_step o) v (data o) (is_dense o).
Definition set_data (o : PointCloud2) (v : bytes) : PointCloud2 :=
  mkCloud (header o) (height o) (width o) (fields o) (is_bigendian o)
          (point_step o) (row_step o) v (is_dense o).
Definition set_is_dense (o : PointCloud2) (v : bool) : PointCloud2 :=
  mkCloud (header o) (height o) (width o) (fields o) (is_bigendian o)
          (point_step o) (row_step o) (data o) v.

(** ** [Projection<double>::process] *)

(** How a call ends. [Returned] is [return true]; [Aborted] is a failed
    [assert]; [Thrown] is the exception of an iterator whose field is
    missing; each carries the output message as the call leaves it.
    [Undefined] is an access outside a byte vector, or to the first byte
    of an empty one. *)
Inductive result : Type :=
| Returned (out : PointCloud2)
| Aborted (out : PointCloud2)
| Thrown (out : PointCloud2)
| Undefined.

(** [for (size_t i = i0; i < i0 + n; ++i) body]; [None] as soon as one
    round is undefined. *)
Fixpoint for_loop {S : Type} (n : nat) (i : Z) (body : Z -> S -> option S)
    (s : S) : option S :=
  match n with
  | O => Some s
  | Datatypes.S n' =>
      match body i s with
      | Some s' => for_loop n' (i + 1) body s'
      | None => None
      end
  end.

Section Process.
Variable lm : Libm float.
Variable cfg : Projection.
Variable input : PointCloud2.

(** Lines 56 and 58: the conditional's operands are a [uint32] and an
    [int], so the [int] is converted to [uint32]. *)
Definition resolved_height : Z :=
  if azimuth_only_ cfg || (height_ cfg =? 0) then height input
  else wrap32 (height_ cfg).

Definition resolved_width : Z :=
  if width_ cfg =? 0 then width input else wrap32 (width_ cfg).

(** Lines 69 to 72, as functions of the output's [width] and [height]. *)
Definition f_azimuth (w : Z) : float :=
  if isfinite (f_azimuth_ cfg) && fne (f_azimuth_ cfg) 0
  then f_azimuth_ cfg
  else ((- double_of_u32 w) / (2 * M_PI))%float.

Definition f_elevation (h : Z) : float :=
  if isfinite (f_elevation_ cfg) && fne (f_elevation_ cfg) 0
  then f_elevation_ cfg
  else ((- double_of_u32 h) / (M_PI / 2))%float.

Definition c_azimuth (w : Z) : float :=
  if isfinite (c_azimuth_ cfg) then c_azimuth_ cfg
  else (double_of_u32 w / 2 - 0.5)%float.

Definition c_elevation (h : Z) : float :=
  if isfinite (c_elevation_ cfg) then c_elevation_ cfg
  else (double_of_u32 h / 2 - 0.5)%float.

(** Lines 83 and 85, and 97 and 98. *)
Definition column_u (o : PointCloud2) (p : xyz) : float :=
  let '(x, y, z) := p in
  (f_azimuth (width o) * azimuth lm x y z + c_azimuth (width o) + 0.5)%float.

Definition row_v (o : PointCloud2) (p : xyz) : float :=
  let '(x, y, z) := p in
  (f_elevation (height o) * elevation lm x y z
   + c_elevation (height o) + 0.5)%float.

(** Lines 87 and 99: the test that skips a point outside the image. *)
Definition outside (u : float) (n : Z) : bool :=
  (u <? 0)%float || fge u (double_of_u32 n) || isnan u.

(** Lines 80 to 102: the output cell [(i_out, j_out)] of the point [p]
    of input row [i_in]; [None] when a [continue] skips the point. *)
Definition project (o : PointCloud2) (i_in : Z) (p : xyz)
  : option (Z * Z) :=
  let '(x, y, z) := p in
  if negb (is_point_valid x y z) then None else
  let u := column_u o p in
  if outside u (width o) then None else
  let j_out := to_size_t u in
  if azimuth_only_ cfg then Some (i_in, j_out) else
  let v := row_v o p in
  if outside v (height o) then None else
  Some (to_size_t v, j_out).

(** [std::hypot(std::hypot(x, y), z)]. *)
Definition range (p : xyz) : float :=
  let '(x, y, z) := p in hypot lm (hypot lm x y) z.

(** [it + n] of the iterator: [n] is an [int], and so is its product with
    the iterator's [point_step_]. *)
Definition iterator_plus (o : PointCloud2) (pos n : Z) : Z :=
  pos + to_int (to_int n * to_int (point_step o)).

(** Byte position of [x_out_begin + i_out * output.width + j_out]: two
    applications of the iterator's [operator+], the first to the [size_t]
    product [i_out * output.width]. *)
Definition x_out (o : PointCloud2) (xoff i_out j_out : Z) : Z :=
  iterator_plus o (iterator_plus o xoff (wrap64 (i_out * width o))) j_out.

(** Lines 104 to 118: [Some true] when the [continue] of the
    [KEEP_FIRST] or of the [KEEP_CLOSEST] branch is taken. *)
Definition first_closest_skip (o : PointCloud2) (d : bytes)
    (xoff i_out j_out : Z) (p : xyz) : option bool :=
  if keep_ cfg =? KEEP_FIRST then
    match read_xyz d (x_out o xoff i_out j_out) with
    | Some (x, y, z) => Some (is_point_valid x y z)
    | None => None
    end
  else if keep_ cfg =? KEEP_CLOSEST then
    match read_xyz d (x_out o xoff i_out j_out) with
    | Some (x, y, z) =>
        Some (is_point_valid x y z
              && (range (x, y, z) <=? range p)%float)
    | None => None
    end
  else Some false.

(** Lines 119 to 126. *)
Definition farthest_skip (o : PointCloud2) (d : bytes)
    (xoff i_out j_out : Z) (p : xyz) : option bool :=
  if keep_ cfg =? KEEP_FARTHEST then
    match read_xyz d (x_out o xoff i_out j_out) with
    | Some (x, y, z) =>
        Some (is_point_valid x y z && fge (range (x, y, z)) (range p))
    | None => None
    end
  else Some false.

(** Lines 104 to 126 together: does the point [p] leave the cell as it
    is? *)
Definition keep_skip (o : PointCloud2) (d : bytes)
    (xoff i_out j_out : Z) (p : xyz) : option bool :=
  match first_closest_skip o d xoff i_out j_out p with
  | Some true => Some true
  | Some false => farthest_skip o d xoff i_out j_out p
  | None => None
  end.

(** The record of input point [(i_in, j_in)], as line 129 and 130
    delimit it. *)
Definition input_record (i_in j_in : Z) : option bytes :=
  let first := wrap64 (i_in * row_step input + j_in * point_step input) in
  let last :=
    wrap64 (i_in * row_step input + (j_in + 1) * point_step input) in
  slice (data input) first (last - first).

(** Line 131: where the record goes. *)
Definition dest (o : PointCloud2) (i_out j_out : Z) : Z :=
  wrap64 (i_out * row_step o + j_out * point_step o).

(** Lines 129 to 131. *)
Definition copy_point (o : PointCloud2) (d : bytes)
    (i_in j_in i_out j_out : Z) : option bytes :=
  match input_record i_in j_in with
  | Some r => blit d (dest o i_out j_out) r
  | None => None
  end.

(** One round of the inner loop, [++x_in] included: the iterator moves by
    its [int] member [point_step_]. The state is the byte position of
    [x_in] and the output's [data]. *)
Definition body (o : PointCloud2) (xoff i_in j_in : Z) (s : Z * bytes)
  : option (Z * bytes) :=
  let '(x_in, d) := s in
  match read_xyz (data input) x_in with
  | None => None
  | Some p =>
      let next := x_in + to_int (point_step input) in
      match project o i_in p with
      | None => Some (next, d)
      | Some (i_out, j_out) =>
          match keep_skip o d xoff i_out j_out p with
          | None => None
          | Some true => Some (next, d)
          | Some false =>
              match copy_point o d i_in j_in i_out j_out with
              | Some d' => Some (next, d')
              | None => None
              end
          end
      end
  end.

(** Lines 76 to 133. *)
Definition scan (o : PointCloud2) (xoff : Z) (s : Z * bytes)
  : option (Z * bytes) :=
  for_loop (Z.to_nat (height input)) 0
    (fun i_in s =>
       for_loop (Z.to_nat (width input)) 0
         (fun j_in s => body o xoff i_in j_in s) s)
    s.

(** Lines 55 to 67, past the assertions: the output message before the
    first point is looked at. *)
Definition init_output (output : PointCloud2) : PointCloud2 :=
  let o := set_header output (header input) in
  let o := set_height o resolved_height in
  let o := set_width o resolved_width in
  let o := set_fields o (fields input) in
  let o := set_is_bigendian o (is_bigendian input) in
  let o := set_point_step o (point_step input) in
  let o := set_row_step o (wrap32 (width o * point_step o)) in
  let o :=
    set_data o (zeros (wrap32 (wrap32 (height o * width o) * point_step o)))
  in
  set_is_dense o (is_dense input).

Definition process (output : PointCloud2) : result :=
  if negb (1 <=? height input) then Aborted output else
  if negb (1 <=? width input) then Aborted output else
  if negb (row_step input =? wrap32 (width input * point_step input))
  then Aborted output else
  let o := set_header output (header input) in
  let o := set_height o resolved_height in
  if negb (1 <=? height o) then Aborted o else
  let o := set_width o resolved_width in
  if negb (1 <=? width o) then Aborted o else
  let o := init_output output in
  match field_offset "x"%string (fields input) with
  | None => Thrown o
  | Some xoff =>
      if (len (data input) =? 0) || (len (data o) =? 0) then Undefined else
      match scan o xoff (xoff, data o) with
      | Some (_, d) => Returned (set_data o d)
      | None => Undefined
      end
  end.
End Process.

(** ** An executable fragment of the C library

    The results that C (Annex F) fixes for [atan2] and [hypot] when an
    argument is a zero: [atan2(+-0, x) = +-0] for [x > 0] or [x = +0],
    [atan2(+-0, x) = +-pi] for [x < 0] or [x = -0],
    [atan2(y, +-0) = +-pi/2] for [y] non-zero, and
    [hypot(x, +-0) = fabs(x)]. Elsewhere the result
    depends on the library and this fragment answers NaN; it serves to run
    [process] on points that lie on a coordinate axis. *)
Definition axis_atan2 (y x : float) : float :=
  if isnan x || isnan y then nan
  else if (y =? 0)%float then
    if get_sign x then (if get_sign y then - M_PI else M_PI)%float else y
  else if (x =? 0)%float then
    (if get_sign y then - (M_PI / 2) else M_PI / 2)%float
  else nan.

Definition axis_hypot (x y : float) : float :=
  if is_infinity x || is_infinity y then infinity
  else if isnan x || isnan y then nan
  else if (y =? 0)%float then abs x
  else if (x =? 0)%float then abs y
  else nan.

Definition axis_libm : Libm float := mkLibm axis_atan2 axis_hypot.

(** Test data: the bytes of a record and small clouds. *)
Fixpoint le_bytes (n : nat) (z : Z) : bytes :=
  match n with
  | O => []
  | Datatypes.S n' =>
      match Byte.of_N (Z.to_N (z mod 256)) with
      | Some b => b
      | None => x00
      end :: le_bytes n' (z / 256)
  end.

(** A record of three doubles given by their encodings, padded with
    [pad] bytes of value [tag]. *)
Definition record3 (x y z : Z) (pad : nat) (tag : byte) : bytes :=
  le_bytes 8 x ++ le_bytes 8 y ++ le_bytes 8 z ++ repeat tag pad.

Definition xyz_fields : list PointField :=
  [mkField "x"%string 0 8 1; mkField "y"%string 8 8 1;
   mkField "z"%string 16 8 1].

(** Encodings of a few doubles. *)
Definition bits_0 : Z := 0.
Definition bits_1 : Z := 0x3FF0000000000000.
Definition bits_2 : Z := 0x4000000000000000.
Definition bits_3 : Z := 0x4008000000000000.
Definition bits_m1 : Z := 0xBFF0000000000000.
Definition bits_nan : Z := 0x7FF8000000000000.

(** ** Vocabulary of the statements *)

(** Values a configuration and a message can hold: the two sizes of the
    configuration are [int]s, the four sizes of a message are [uint32]s. *)
Definition config_typed (cfg : Projection) : Prop :=
  is_int (height_ cfg) /\ is_int (width_ cfg).

Definition cloud_typed (c : PointCloud2) : Prop :=
  is_u32 (height c) /\ is_u32 (width c) /\
  is_u32 (point_step c) /\ is_u32 (row_step c).

(** An input cloud: rows of [width] records of [point_step] bytes, a
    buffer of [height] rows, and the three coordinates inside each record
    from byte [xoff] on. *)
Definition well_formed (c : PointCloud2) (xoff : Z) : Prop :=
  cloud_typed c /\
  row_step c = width c * point_step c /\
  len (data c) = height c * row_step c /\
  field_offset "x"%string (fields c) = Some xoff /\
  0 <= xoff /\ xoff + 3 * sizeof_T <= point_step c.

(** The three assertions on the input (lines 52 to 54). *)
Definition input_checks (input : PointCloud2) : bool :=
  (1 <=? height input) && (1 <=? width input)
  && (row_step input =? wrap32 (width input * point_step input)).

(** The two assertions on the output (lines 57 and 59). *)
Definition output_checks (cfg : Projection) (input : PointCloud2) : bool :=
  (1 <=? resolved_height cfg input) && (1 <=? resolved_width cfg input).

(** The size of the output buffer, before the 32-bit product of line 66
    reduces it. *)
Definition output_size (cfg : Projection) (input : PointCloud2) : Z :=
  resolved_height cfg input * resolved_width cfg input * point_step input.

(** The record of the point in row [i], column [j] of a message. *)
Definition cell (c : PointCloud2) (i j : Z) : option bytes :=
  slice (data c) (i * row_step c + j * point_step c) (point_step c).

(** The coordinates the iterator reads at the point in row [i], column [j]. *)
Definition point_xyz (c : PointCloud2) (i j : Z) : option xyz :=
  match field_offset "x"%string (fields c) with
  | Some xoff => read_xyz (data c) (xoff + (i * width c + j) * point_step c)
  | None => None
  end.

(** Position of a point in the row-major scan. *)
Definition scan_index (c : PointCloud2) (i j : Z) : Z := i * width c + j.

(** What a message must satisfy to be a complete output for this input. *)
Definition complete_output (cfg : Projection) (input o : PointCloud2)
  : Prop :=
  header o = header input /\ fields o = fields input /\
  is_bigendian o = is_bigendian input /\ is_dense o = is_dense input /\
  point_step o = point_step input /\
  height o = resolved_height cfg input /\
  width o = resolved_width cfg input /\
  1 <= height o /\ 1 <= width o /\
  row_step o = width o * point_step o /\
  len (data o) = height o * row_step o.

Section Target.
Variable lm : Libm float.
Variable cfg : Projection.
Variable input output : PointCloud2.

(** The output cell the point [(i_in, j_in)] of the input projects to. *)
Definition target (i_in j_in : Z) : option (Z * Z) :=
  match point_xyz input i_in j_in with
  | Some p => project lm cfg (init_output cfg input output) i_in p
  | None => None
  end.

(** The tests of lines 104 to 126 on the coordinates [q] found in the
    cell and the coordinates [p] of the candidate. *)
Definition held_skip (q p : xyz) : bool :=
  let '(x, y, z) := q in
  (if keep_ cfg =? KEEP_FIRST then is_point_valid x y z
   else if keep_ cfg =? KEEP_CLOSEST then
     is_point_valid x y z && (range lm q <=? range lm p)%float
   else false)
  || (if keep_ cfg =? KEEP_FARTHEST then
        is_point_valid x y z && fge (range lm q) (range lm p)
      else false).

(** The rasterizer on a grid that records, for every output cell, the
    input point whose record it holds. *)
Definition grid : Type := Z -> Z -> option (Z * Z).

Definition empty_grid : grid := fun _ _ => None.

Definition grid_set (g : grid) (i j : Z) (q : Z * Z) : grid :=
  fun i' j' => if (i' =? i) && (j' =? j) then Some q else g i' j'.

Definition held_xyz (g : grid) (i j : Z) : xyz :=
  match g i j with
  | Some (a, b) =>
      match point_xyz input a b with
      | Some q => q
      | None => (0, 0, 0)%float
      end
  | None => (0, 0, 0)%float
  end.

Definition grid_step (g : grid) (i_in j_in : Z) : grid :=
  match point_xyz input i_in j_in, target i_in j_in with
  | Some p, Some (i_out, j_out) =>
      if held_skip (held_xyz g i_out j_out) p then g
      else grid_set g i_out j_out (i_in, j_in)
  | _, _ => g
  end.

(** The grid after the first [k] points of the scan. *)
Fixpoint grid_after (k : nat) : grid :=
  match k with
  | O => empty_grid
  | Datatypes.S k' =>
      grid_step (grid_after k')
                (Z.of_nat k' / width input) (Z.of_nat k' mod width input)
  end.

(** A byte vector that holds what a grid says: the record of the point
    recorded for a cell, zero bytes in a cell with none. *)
Definition holds (g : grid) (d : bytes) : Prop :=
  let o := init_output cfg input output in
  len d = height o * width o * point_step o /\
  forall i j, 0 <= i < height o -> 0 <= j < width o ->
    match g i j with
    | Some (a, b) =>
        0 <= a < height input /\ 0 <= b < width input /\
        target a b = Some (i, j) /\
        cell input a b = cell (set_data o d) i j
    | None => cell (set_data o d) i j = Some (zeros (point_step o))
    end.
End Target.

(** ** Classes of doubles, in the words of the specification *)

Definition is_zero_value (x : float) : Prop :=
  exists s, Prim2SF x = S754_zero s.
Definition is_nan_value (x : float) : Prop := Prim2SF x = S754_nan.
Definition is_infinite_value (x : float) : Prop :=
  exists s, Prim2SF x = S754_infinity s.
Definition is_finite_value (x : float) : Prop :=
  ~ is_nan_value x /\ ~ is_infinite_value x.

(** Floor of a double, as an integer ([0] for NaN and the infinities). *)
Definition floor_double (u : float) : Z :=
  match Prim2SF u with
  | S754_finite s m e => Z.shiftl (if s then Zneg m else Zpos m) e
  | _ => 0
  end.

(** ** What a statement may assume of the C library

    [std::atan2] and [std::hypot] are not the header's, and most statements
    hold of any two functions. The one on the range of [elevation] needs
    what C (7.12 and Annex F) says of them, for doubles:
    - [hypot] answers NaN, a positive value or [+0], never a negative value
      nor [-0];
    - [atan2 y x], for [x] positive or [+0], answers NaN or a value from
      [-M_PI/2] to [M_PI/2] (the right half-plane), and NaN when [x] is
      NaN;
    - [hypot(0, 0) = 0] and [atan2(-1, 0) = -M_PI/2]. *)
Definition positive_or_zero (x : float) : Prop :=
  (0 <? x)%float = true \/ Prim2SF x = S754_zero false.

Definition nan_or_quarter_turn (a : float) : Prop :=
  isnan a = true \/
  ((- (M_PI / 2) <=? a)%float = true /\ (a <=? M_PI / 2)%float = true).

Definition c_library (lm : Libm float) : Prop :=
  (forall x y, isnan (hypot lm x y) = true
               \/ positive_or_zero (hypot lm x y)) /\
  (forall y x, positive_or_zero x -> nan_or_quarter_turn (atan2 lm y x)) /\
  (forall y x, isnan x = true -> isnan (atan2 lm y x) = true) /\
  hypot lm 0%float 0%float = 0%float /\
  atan2 lm (-1)%float 0%float = (- (M_PI / 2))%float.

(** ** Proof vocabulary for byte vectors *)

Definition window (d : bytes) (a n : nat) : bytes := firstn n (skipn a d).

Definition patch (d : bytes) (a : nat) (r : bytes) : bytes :=
  firstn a d ++ r ++ skipn (a + length r) d.

(** ** Proof vocabulary for the order of doubles *)

(** A key of three integers for a double that is not NaN: its class (the
    infinities at the ends, the zeros in the middle), then its exponent and
    its mantissa, both negated for a negative double. The comparison of two
    doubles is the lexicographic comparison of their keys. *)
Definition order_key (f : spec_float) : Z * Z * Z :=
  match f with
  | S754_zero _ => (0, 0, 0)
  | S754_infinity s => (if s then -2 else 2, 0, 0)
  | S754_nan => (0, 0, 0)
  | S754_finite s m e => if s then (-1, - e, Zneg m) else (1, e, Zpos m)
  end.

Definition key_lt (a b : Z * Z * Z) : Prop :=
  let '(c1, e1, m1) := a in
  let '(c2, e2, m2) := b in
  c1 < c2 \/ (c1 = c2 /\ (e1 < e2 \/ (e1 = e2 /\ m1 < m2))).

(** ** Test messages and configurations *)

(** A default-constructed message, as a caller passes for the output. *)
Definition blank : PointCloud2 := mkCloud 0 0 0 [] false 0 0 [] false.

(** One row of four points on the axes of the horizontal plane. *)
Definition cloud_1x4 : PointCloud2 :=
  mkCloud 7 1 4 xyz_fields false 32 128
    (record3 bits_1 bits_0 bits_0 8 x01 ++ record3 bits_0 bits_1 bits_0 8 x02
     ++ record3 bits_m1 bits_0 bits_0 8 x03
     ++ record3 bits_0 bits_m1 bits_0 8 x04)
    true.

(** A single point, [(1, 0, 0)]. *)
Definition cloud_1x1 : PointCloud2 :=
  mkCloud 7 1 1 xyz_fields false 32 32
    (record3 bits_1 bits_0 bits_0 8 x01) true.

(** A single point that is no return, [(0, 0, 0)]. *)
Definition cloud_1x1_empty : PointCloud2 :=
  mkCloud 7 1 1 xyz_fields false 32 32
    (record3 bits_0 bits_0 bits_0 8 x00) true.

(** Four rows of one point, records of 24 bytes: [(1, 0, 0)], [(2, 0, 0)]
    and two that are no return. *)
Definition cloud_4x1 : PointCloud2 :=
  mkCloud 7 4 1 xyz_fields false 24 24
    (record3 bits_1 bits_0 bits_0 0 x00 ++ record3 bits_2 bits_0 bits_0 0 x00
     ++ record3 bits_0 bits_0 bits_0 0 x00
     ++ record3 bits_0 bits_0 bits_0 0 x00)
    true.

(** Two rows of two points: [(0, 1, 0)] and [(0, 2, 0)], then [(1, 0, 0)]
    and a no return. *)
Definition cloud_2x2 : PointCloud2 :=
  mkCloud 7 2 2 xyz_fields false 32 64
    (record3 bits_0 bits_1 bits_0 8 x01 ++ record3 bits_0 bits_2 bits_0 8 x02
     ++ record3 bits_1 bits_0 bits_0 8 x03
     ++ record3 bits_0 bits_0 bits_0 8 x00)
    true.

(** The point [(1, 0, 0)] in a message that declares no field [x]. *)
Definition cloud_without_x : PointCloud2 :=
  mkCloud 7 1 1 [mkField "range"%string 0 8 1] false 32 32
    (record3 bits_1 bits_0 bits_0 8 x01) true.

(** Two points on the same ray, at ranges 1 and 2, in both orders. *)
Definition cloud_near_far : PointCloud2 :=
  mkCloud 7 1 2 xyz_fields false 32 64
    (record3 bits_1 bits_0 bits_0 8 x01 ++ record3 bits_2 bits_0 bits_0 8 x02)
    true.
Definition cloud_far_near : PointCloud2 :=
  mkCloud 7 1 2 xyz_fields false 32 64
    (record3 bits_2 bits_0 bits_0 8 x02 ++ record3 bits_1 bits_0 bits_0 8 x01)
    true.

(** A message that declares two points and holds the bytes of one. *)
Definition cloud_short : PointCloud2 :=
  mkCloud 7 1 2 xyz_fields false 32 64
    (record3 bits_1 bits_0 bits_0 8 x01) true.

(** A single point straight above the sensor, [(0, 0, 1)]. *)
Definition cloud_zenith : PointCloud2 :=
  mkCloud 7 1 1 xyz_fields false 32 32
    (record3 bits_0 bits_0 bits_1 8 x05) true.

(** An image one column wide, where every point of [cloud_1x4] collides. *)
Definition cfg_first : Projection :=
  mkProjection 0 1 nan nan nan nan KEEP_FIRST false.
Definition cfg_closest : Projection :=
  mkProjection 0 1 nan nan nan nan KEEP_CLOSEST false.
Definition cfg_farthest : Projection :=
  mkProjection 0 1 nan nan nan nan KEEP_FARTHEST false.
Definition cfg_azimuth_only : Projection :=
  mkProjection 9 0 nan nan nan nan KEEP_LAST true.

(** An image of [2^26 + 1] columns, [2^31 + 32] bytes with records of 32
    bytes, whose mapping sends azimuth 0 to the last column, and the
    policy that looks at the cell before it writes. *)
Definition cfg_first_at_edge : Projection :=
  mkProjection 0 (2 ^ 26 + 1) 1 nan 67108864 nan KEEP_FIRST false.

(** An image of [2^27 + 1] columns: with records of 32 bytes a row has
    [2^32 + 32] bytes and the buffer 32. *)
Definition cfg_wide_azimuth_only : Projection :=
  mkProjection 0 (2 ^ 27 + 1) nan nan nan nan KEEP_LAST true.

(** An image of 178956971 columns: with records of 24 bytes a row has
    [2^32 + 8] bytes. *)
Definition cfg_rows_of_8 : Projection :=
  mkProjection 0 178956971 1 nan 0 nan KEEP_LAST true.

(** An image of [2^27 + 1] columns: with records of 32 bytes a row has
    [2^32 + 32] bytes. *)
Definition cfg_rows_of_32 : Projection :=
  mkProjection 0 (2 ^ 27 + 1) 0.5 nan 0 nan KEEP_LAST true.

(** Negative configured heights. *)
Definition cfg_height_m1 : Projection :=
  mkProjection (-1) 0 nan nan nan nan KEEP_LAST false.
Definition cfg_height_negative : Projection :=
  mkProjection (- 2 ^ 31 + 1) 0 nan nan nan nan KEEP_LAST false.

(** The message a call returned ([blank] when it did not return). *)
Definition returned (r : result) : PointCloud2 :=
  match r with Returned o => o | _ => blank end.

(** The cases of a comparison of two keys. *)
Ltac key_cases :=
  eexists; split; [reflexivity|];
  unfold key_lt; repeat split; intros K; try discriminate K; try lia;
  try (inversion K; subst; try lia; try reflexivity; fail);
  try (exfalso; inversion K; lia).

(** Facts of the lexicographic order of keys. *)
Ltac key_order :=
  repeat match goal with
         | |- context [order_key ?f] =>
             let c := fresh "c" in let e := fresh "e" in let m := fresh "m" in
             destruct (order_key f) as ((c & e) & m)
         | H : context [order_key ?f] |- _ =>
             let c := fresh "c" in let e := fresh "e" in let m := fresh "m" in
             destruct (order_key f) as ((c & e) & m)
         end;
  unfold key_lt in *; lia.

(** Closed facts about the test data are decided by evaluation. *)
Ltac evaluate :=
  repeat match goal with
         | |- _ /\ _ => split
         | |- config_typed _ => unfold config_typed, is_int
         | |- cloud_typed _ => unfold cloud_typed, is_u32
         | |- well_formed _ _ => unfold well_formed
         end;
  try (vm_compute; first [reflexivity | discriminate]).

(** * Proofs *)

(** ** Doubles *)

Lemma digits2_pos_iter_xO (k p : positive) :
  digits2_pos (Pos.iter xO p k) = (digits2_pos p + k)%positive.
Proof.
  revert p. induction k using Pos.peano_ind; intros p.
  - simpl. lia.
  - rewrite Pos.iter_succ. simpl. rewrite IHk. lia.
Qed.

Lemma Zpos_iter_xO (k p : positive) :
  Zpos (Pos.iter xO p k) = Zpos p * 2 ^ Zpos k.
Proof.
  revert p. induction k using Pos.peano_ind; intros p.
  - simpl. lia.
  - rewrite Pos.iter_succ, Pos2Z.inj_xO, IHk, Pos2Z.inj_succ, Z.pow_succ_r; lia.
Qed.

Lemma digits2_pos_bounds (p : positive) :
  2 ^ (Zpos (digits2_pos p) - 1) <= Zpos p < 2 ^ Zpos (digits2_pos p).
Proof.
  induction p; simpl digits2_pos.
  - rewrite Pos2Z.inj_succ, Z.pow_succ_r by lia.
    replace (Z.succ (Zpos (digits2_pos p)) - 1) with (Z.succ (Zpos (digits2_pos p) - 1)) by lia.
    rewrite Z.pow_succ_r by lia. lia.
  - rewrite Pos2Z.inj_succ, Z.pow_succ_r by lia.
    replace (Z.succ (Zpos (digits2_pos p)) - 1) with (Z.succ (Zpos (digits2_pos p) - 1)) by lia.
    rewrite Z.pow_succ_r by lia. lia.
  - simpl. lia.
Qed.

Lemma Prim2SF_double_of_u32 (p : positive) :
  Zpos p < 2 ^ 32 ->
  Prim2SF (double_of_u32 (Zpos p)) =
  S754_finite false (Pos.iter xO p (Z.to_pos (53 - Zpos (digits2_pos p))))
              (Zpos (digits2_pos p) - 53).
Proof.
  intros Hp.
  pose proof (digits2_pos_bounds p) as [Hlo Hhi].
  assert (Hd : Zpos (digits2_pos p) <= 32).
  { destruct (Z_le_gt_dec (Zpos (digits2_pos p)) 32) as [|Hgt]; [easy|].
    assert (2 ^ 32 <= 2 ^ (Zpos (digits2_pos p) - 1)) by (apply Z.pow_le_mono_r; lia).
    lia. }
  unfold double_of_u32. rewrite of_uint63_spec, Uint63.of_Z_spec.
  rewrite Z.mod_small by (unfold wB; simpl; lia).
  unfold binary_normalize, binary_round, shl_align, fexp, SpecFloat.emin.
  cbn [prec emax].
  set (d := digits2_pos p) in *.
  change (IntDef.Z.max ?a ?b) with (Z.max a b).
  change prec with 53. change emax with 1024.
  replace (Z.max (Z.pos d + 0 - 53) (3 - 1024 - 53)) with (Z.pos d - 53) by lia.
  replace (Z.pos d - 53 - 0) with (Z.neg (Z.to_pos (53 - Z.pos d))) by lia.
  set (k := Z.to_pos (53 - Z.pos d)).
  assert (Hk : Z.pos k = 53 - Z.pos d) by (unfold k; lia).
  assert (Hdig : Z.pos (digits2_pos (Pos.iter xO p k)) = 53).
  { rewrite digits2_pos_iter_xO. fold d. lia. }
  unfold binary_round_aux, shr_fexp, Zdigits2, fexp, SpecFloat.emin.
  change (PosDef.Pos.iter xO p k) with (Pos.iter xO p k).
  change (IntDef.Z.max ?a ?b) with (Z.max a b).
  rewrite Hdig.
  replace (Z.max (53 + (Z.pos d - 53) - 53) (3 - 1024 - 53) - (Z.pos d - 53)) with 0 by lia.
  cbn [shr shr_record_of_loc shr_m loc_of_shr_record round_nearest_even].
  change (IntDef.Z.max ?a ?b) with (Z.max a b).
  rewrite Hdig.
  replace (Z.max (53 + (Z.pos d - 53) - 53) (3 - 1024 - 53) - (Z.pos d - 53)) with 0 by lia.
  cbn [shr shr_record_of_loc shr_m].
  replace (Z.pos d - 53 <=? 1024 - 53) with true by (symmetry; apply Z.leb_le; lia).
  reflexivity.
Qed.

Lemma Prim2SF_zero : Prim2SF 0%float = S754_zero false.
Proof. vm_compute. reflexivity. Qed.

Lemma isnan_spec (u : float) : isnan u = true <-> Prim2SF u = S754_nan.
Proof.
  unfold isnan, is_nan. rewrite FloatAxioms.eqb_spec, negb_true_iff.
  pose proof (Prim2SF_valid u) as Hv.
  destruct (Prim2SF u) as [s|s| |s m e]; unfold SFeqb, SFcompare.
  - split; discriminate.
  - destruct s; split; discriminate.
  - split; reflexivity.
  - rewrite Z.compare_refl, Pos.compare_cont_refl.
    destruct s; split; discriminate.
Qed.

Lemma finite_digits (s : bool) (m : positive) (e : Z) :
  valid_binary (S754_finite s m e) = true -> Zpos m < 2 ^ 53.
Proof.
  cbn [valid_binary]. unfold bounded, canonical_mantissa.
  intros H. apply andb_prop in H as [H _]. apply Z.eqb_eq in H.
  unfold fexp, SpecFloat.emin in H.
  change (IntDef.Z.max ?a ?b) with (Z.max a b) in H.
  change prec with 53 in H. change emax with 1024 in H.
  pose proof (digits2_pos_bounds m) as [_ Hhi].
  assert (Zpos (digits2_pos m) <= 53) by lia.
  assert (2 ^ Zpos (digits2_pos m) <= 2 ^ 53) by (apply Z.pow_le_mono_r; lia).
  lia.
Qed.

Lemma to_size_t_in_range (u : float) (n : Z) :
  1 <= n < 2 ^ 32 ->
  (u <? 0)%float = false -> fge u (double_of_u32 n) = false ->
  isnan u = false ->
  0 <= to_size_t u < n.
Proof.
  intros Hn Hlt Hge Hnan.
  unfold fge in Hge. rewrite FloatAxioms.ltb_spec, Prim2SF_zero in Hlt.
  rewrite FloatAxioms.leb_spec in Hge.
  destruct n as [|p|p]; try lia.
  rewrite Prim2SF_double_of_u32 in Hge by lia.
  assert (Hnn : Prim2SF u <> S754_nan).
  { intros E. apply isnan_spec in E. congruence. }
  pose proof (Prim2SF_valid u) as Hv.
  unfold to_size_t.
  destruct (Prim2SF u) as [s|s| |s m e].
  - lia.
  - destruct s; discriminate.
  - congruence.
  - destruct s; [discriminate|].
    pose proof (finite_digits _ _ _ Hv) as Hm.
    pose proof (digits2_pos_bounds p) as [Hlo Hhi].
    set (d := Zpos (digits2_pos p)) in *.
    assert (Hd : 1 <= d <= 32).
    { split; [unfold d; lia|].
      destruct (Z_le_gt_dec d 32) as [|Hgt]; [easy|].
      assert (2 ^ 32 <= 2 ^ (d - 1)) by (apply Z.pow_le_mono_r; lia). lia. }
    set (k := Z.to_pos (53 - d)) in *.
    assert (Hk : Zpos k = 53 - d) by (unfold k; lia).
    unfold SFleb, SFcompare in Hge.
    assert (He : e < d - 53 \/ (e = d - 53 /\ Zpos m < Zpos (Pos.iter xO p k))).
    { destruct (Z.compare_spec (d - 53) e) as [E|E|E]; try discriminate.
      - right. split; [lia|].
        change (PosDef.Pos.compare_cont Eq ?a ?b) with (Pos.compare a b) in Hge.
        destruct (Pos.compare_spec (Pos.iter xO p k) m) as [E2|E2|E2];
          try discriminate.
        lia.
      - left. lia. }
    rewrite Zpos_iter_xO, Hk in He.
    rewrite Z.shiftl_div_pow2 by lia.
    split; [apply Z.div_pos; lia|].
    apply Z.div_lt_upper_bound; [lia|].
    destruct He as [He|[He Hm2]].
    + assert (2 ^ (53 - d + 1) <= 2 ^ (- e)) by (apply Z.pow_le_mono_r; lia).
      assert (2 ^ 53 = 2 ^ (53 - d + 1) * 2 ^ (d - 1)).
      { rewrite <- Z.pow_add_r by lia. f_equal. lia. }
      assert (0 < 2 ^ (d - 1)) by lia.
      nia.
    + replace (- e) with (53 - d) by lia. lia.
Qed.

Lemma Prim2SF_infinity : Prim2SF infinity = S754_infinity false.
Proof. vm_compute. reflexivity. Qed.

Lemma is_infinity_spec (x : float) :
  is_infinity x = true <-> is_infinite_value x.
Proof.
  unfold is_infinity, is_infinite_value.
  rewrite FloatAxioms.eqb_spec, abs_spec, Prim2SF_infinity.
  destruct (Prim2SF x) as [s|s| |s m e]; cbn.
  - split; [discriminate | intros (? & ?); discriminate].
  - split; [eauto | reflexivity].
  - split; [discriminate | intros (? & ?); discriminate].
  - split; [discriminate | intros (? & ?); discriminate].
Qed.

Lemma isfinite_spec (x : float) : isfinite x = true <-> is_finite_value x.
Proof.
  unfold isfinite, is_finite, is_finite_value, is_nan_value.
  rewrite negb_true_iff, orb_false_iff.
  rewrite <- isnan_spec, <- is_infinity_spec. unfold isnan.
  destruct (is_nan x), (is_infinity x); intuition congruence.
Qed.

Lemma fne_zero_spec (x : float) : fne x 0 = false <-> is_zero_value x.
Proof.
  unfold fne, is_zero_value. rewrite negb_false_iff.
  rewrite FloatAxioms.eqb_spec, Prim2SF_zero.
  destruct (Prim2SF x) as [s|s| |s m e]; cbn.
  - split; [eauto | reflexivity].
  - destruct s; (split; [discriminate | intros (? & ?); discriminate]).
  - split; [discriminate | intros (? & ?); discriminate].
  - destruct s; (split; [discriminate | intros (? & ?); discriminate]).
Qed.

Lemma fge_refl (u : float) : isnan u = false -> fge u u = true.
Proof.
  intros Hn. assert (Hnn : Prim2SF u <> S754_nan).
  { intros E. apply isnan_spec in E. congruence. }
  unfold fge. rewrite FloatAxioms.leb_spec.
  destruct (Prim2SF u) as [s|s| |s m e]; unfold SFleb, SFcompare.
  - reflexivity.
  - destruct s; reflexivity.
  - congruence.
  - rewrite Z.compare_refl, Pos.compare_cont_refl. destruct s; reflexivity.
Qed.

Lemma to_size_t_floor (u : float) :
  (u <? 0)%float = false -> to_size_t u = floor_double u.
Proof.
  rewrite FloatAxioms.ltb_spec, Prim2SF_zero. unfold to_size_t, floor_double.
  destruct (Prim2SF u) as [s|s| |s m e]; try reflexivity.
  destruct s; [discriminate | reflexivity].
Qed.

Lemma floor_double_spec (u : float) (s : bool) (m : positive) (e : Z) :
  Prim2SF u = S754_finite s m e ->
  let v := if s then Zneg m else Zpos m in
  (0 <= e -> floor_double u = v * 2 ^ e) /\
  (e < 0 -> floor_double u * 2 ^ (- e) <= v
            < (floor_double u + 1) * 2 ^ (- e)).
Proof.
  intros E v. unfold floor_double. rewrite E. fold v. split; intros He.
  - now apply Z.shiftl_mul_pow2.
  - rewrite Z.shiftl_div_pow2 by lia.
    assert (Hp : 0 < 2 ^ (- e)) by (apply Z.pow_pos_nonneg; lia).
    pose proof (Z.div_mod v (2 ^ (- e)) ltac:(lia)).
    pose proof (Z.mod_pos_bound v (2 ^ (- e)) Hp).
    lia.
Qed.

(** ** Byte vectors *)

Lemma window_length (d : bytes) (a n : nat) :
  (a + n <= length d)%nat -> length (window d a n) = n.
Proof.
  intros H. unfold window. rewrite length_firstn, length_skipn. lia.
Qed.

Lemma window_nth (d : bytes) (a n i : nat) :
  (i < n)%nat -> nth i (window d a n) x00 = nth (a + i) d x00.
Proof.
  intros H. unfold window. rewrite nth_firstn, nth_skipn.
  destruct (Nat.ltb_spec i n); [reflexivity | lia].
Qed.

Lemma window_ext (d d' : bytes) (a a' n : nat) :
  (a + n <= length d)%nat -> (a' + n <= length d')%nat ->
  (forall i, (i < n)%nat -> nth (a + i) d x00 = nth (a' + i) d' x00) ->
  window d a n = window d' a' n.
Proof.
  intros H H' E. apply (nth_ext _ _ x00 x00).
  - rewrite !window_length; lia.
  - intros i Hi. rewrite window_length in Hi by lia.
    rewrite !window_nth by lia. auto.
Qed.

Lemma window_window (d : bytes) (a n b m : nat) :
  (a + n <= length d)%nat -> (b + m <= n)%nat ->
  window (window d a n) b m = window d (a + b) m.
Proof.
  intros H H'. apply window_ext.
  - rewrite window_length; lia.
  - lia.
  - intros i Hi. rewrite window_nth by lia. f_equal. lia.
Qed.

Lemma patch_length (d : bytes) (a : nat) (r : bytes) :
  (a + length r <= length d)%nat -> length (patch d a r) = length d.
Proof.
  intros H. unfold patch.
  rewrite !length_app, length_firstn, length_skipn. lia.
Qed.

Lemma patch_nth (d : bytes) (a : nat) (r : bytes) (i : nat) :
  (a + length r <= length d)%nat ->
  nth i (patch d a r) x00 =
  if (i <? a)%nat then nth i d x00
  else if (i <? a + length r)%nat then nth (i - a) r x00
  else nth i d x00.
Proof.
  intros H. unfold patch.
  assert (Hf : length (firstn a d) = a) by (rewrite length_firstn; lia).
  destruct (Nat.ltb_spec i a).
  - rewrite app_nth1 by lia. rewrite nth_firstn.
    destruct (Nat.ltb_spec i a); [reflexivity | lia].
  - rewrite app_nth2 by lia. rewrite Hf.
    destruct (Nat.ltb_spec i (a + length r)).
    + rewrite app_nth1 by lia. reflexivity.
    + rewrite app_nth2 by lia. rewrite nth_skipn. f_equal. lia.
Qed.

Lemma patch_window_same (d : bytes) (a : nat) (r : bytes) :
  (a + length r <= length d)%nat ->
  window (patch d a r) a (length r) = r.
Proof.
  intros H. apply (nth_ext _ _ x00 x00).
  - rewrite window_length; [reflexivity | rewrite patch_length; lia].
  - intros i Hi. rewrite window_length in Hi by (rewrite patch_length; lia).
    rewrite window_nth, patch_nth by lia.
    destruct (Nat.ltb_spec (a + i) a); [lia|].
    destruct (Nat.ltb_spec (a + i) (a + length r)); [|lia].
    f_equal. lia.
Qed.

Lemma patch_window_other (d : bytes) (a : nat) (r : bytes) (b n : nat) :
  (a + length r <= length d)%nat -> (b + n <= length d)%nat ->
  (b + n <= a \/ a + length r <= b)%nat ->
  window (patch d a r) b n = window d b n.
Proof.
  intros H Hb Hdis. apply window_ext.
  - rewrite patch_length; lia.
  - lia.
  - intros i Hi. rewrite patch_nth by lia.
    destruct (Nat.ltb_spec (b + i) a); [reflexivity|].
    destruct (Nat.ltb_spec (b + i) (a + length r)); [lia | reflexivity].
Qed.

Lemma slice_window (d : bytes) (off n : Z) :
  0 <= off -> 0 <= n -> off + n <= len d ->
  slice d off n = Some (window d (Z.to_nat off) (Z.to_nat n)).
Proof.
  intros H1 H2 H3. unfold slice.
  rewrite (proj2 (Z.leb_le 0 off) H1), (proj2 (Z.leb_le 0 n) H2),
    (proj2 (Z.leb_le _ _) H3).
  reflexivity.
Qed.

Lemma slice_some (d : bytes) (off n : Z) (r : bytes) :
  slice d off n = Some r ->
  0 <= off /\ 0 <= n /\ off + n <= len d /\
  r = window d (Z.to_nat off) (Z.to_nat n).
Proof.
  unfold slice.
  destruct (0 <=? off) eqn:E1; [|discriminate].
  destruct (0 <=? n) eqn:E2; [|discriminate].
  destruct (off + n <=? len d) eqn:E3; [|discriminate].
  cbn [andb]. intros [= <-].
  apply Z.leb_le in E1, E2, E3. auto.
Qed.

Lemma blit_patch (d : bytes) (off : Z) (r : bytes) :
  0 <= off -> off + len r <= len d ->
  blit d off r = Some (patch d (Z.to_nat off) r).
Proof.
  intros H1 H2. unfold blit.
  rewrite (proj2 (Z.leb_le 0 off) H1), (proj2 (Z.leb_le _ _) H2).
  cbn [andb]. unfold patch, len. do 3 f_equal.
  f_equal. rewrite Z2Nat.inj_add by lia. rewrite Nat2Z.id. reflexivity.
Qed.

Lemma zeros_length (n : Z) : 0 <= n -> len (zeros n) = n.
Proof. intros H. unfold len, zeros. rewrite repeat_length. lia. Qed.

Lemma window_zeros (N a n : nat) :
  (a + n <= N)%nat -> window (repeat x00 N) a n = repeat x00 n.
Proof.
  intros H. apply (nth_ext _ _ x00 x00).
  - rewrite window_length, repeat_length; rewrite ?repeat_length; lia.
  - intros i Hi. rewrite window_length in Hi by (rewrite repeat_length; lia).
    rewrite window_nth, !nth_repeat by lia. reflexivity.
Qed.

(** ** Loops *)

Lemma for_loop_inv {S : Type} (P : Z -> S -> Prop) (body : Z -> S -> option S)
    (n : nat) (i0 : Z) (s : S) :
  P i0 s ->
  (forall i s, i0 <= i < i0 + Z.of_nat n -> P i s ->
     exists s', body i s = Some s' /\ P (i + 1) s') ->
  exists s', for_loop n i0 body s = Some s' /\ P (i0 + Z.of_nat n) s'.
Proof.
  revert i0 s. induction n as [|n IH]; intros i0 s H0 Hstep.
  - exists s. split; [reflexivity|]. now replace (i0 + Z.of_nat 0) with i0 by lia.
  - destruct (Hstep i0 s ltac:(lia) H0) as (s1 & E1 & H1).
    destruct (IH (i0 + 1) s1 H1) as (s' & E' & H').
    { intros i t Hi. apply Hstep. lia. }
    exists s'. split.
    + cbn [for_loop]. rewrite E1. exact E'.
    + now replace (i0 + Z.of_nat (Datatypes.S n)) with (i0 + 1 + Z.of_nat n) by lia.
Qed.

(** ** Reading doubles *)

Lemma len_window (d : bytes) (a n : Z) :
  0 <= a -> 0 <= n -> a + n <= len d ->
  len (window d (Z.to_nat a) (Z.to_nat n)) = n.
Proof.
  intros Ha Hn H. unfold len in *. rewrite window_length; lia.
Qed.

Lemma read_T_window (d : bytes) (base n off : Z) :
  0 <= base -> 0 <= off -> off + sizeof_T <= n -> base + n <= len d ->
  read_T (window d (Z.to_nat base) (Z.to_nat n)) off = read_T d (base + off).
Proof.
  intros Hb Ho Hn Hd. unfold sizeof_T in *. unfold read_T, sizeof_T.
  rewrite !slice_window; try lia.
  - unfold len in Hd. rewrite window_window by lia.
    rewrite Z2Nat.inj_add by lia. reflexivity.
  - rewrite len_window; lia.
Qed.

Lemma read_xyz_window (d : bytes) (base n off : Z) :
  0 <= base -> 0 <= off -> off + 3 * sizeof_T <= n -> base + n <= len d ->
  read_xyz (window d (Z.to_nat base) (Z.to_nat n)) off = read_xyz d (base + off).
Proof.
  intros Hb Ho Hn Hd. unfold read_xyz.
  rewrite !read_T_window by (unfold sizeof_T in *; lia).
  now rewrite !Z.add_assoc.
Qed.

Lemma read_T_some (d : bytes) (off : Z) :
  0 <= off -> off + sizeof_T <= len d -> exists x, read_T d off = Some x.
Proof.
  intros H1 H2. unfold read_T. rewrite slice_window by (unfold sizeof_T in *; lia).
  eauto.
Qed.

Lemma read_xyz_some (d : bytes) (off : Z) :
  0 <= off -> off + 3 * sizeof_T <= len d -> exists p, read_xyz d off = Some p.
Proof.
  intros H1 H2. unfold read_xyz.
  destruct (read_T_some d off) as (x & ->); [unfold sizeof_T in *; lia ..|].
  destruct (read_T_some d (off + sizeof_T)) as (y & ->); [unfold sizeof_T in *; lia ..|].
  destruct (read_T_some d (off + 2 * sizeof_T)) as (z & ->); [unfold sizeof_T in *; lia ..|].
  eauto.
Qed.

Lemma le_value_zeros (n : nat) : le_value (repeat x00 n) = 0.
Proof. induction n as [|n IH]; cbn [repeat le_value]; [reflexivity|]. rewrite IH. reflexivity. Qed.

Lemma read_xyz_zeros (n off : Z) :
  0 <= off -> off + 3 * sizeof_T <= n ->
  read_xyz (zeros n) off = Some (0, 0, 0)%float.
Proof.
  intros H1 H2. unfold sizeof_T in *.
  assert (R : forall o, 0 <= o -> o + 8 <= n -> read_T (zeros n) o = Some 0%float).
  { intros o Ho Hn. unfold read_T, sizeof_T.
    rewrite slice_window by (rewrite ?zeros_length; lia).
    unfold zeros. rewrite window_zeros by lia.
    rewrite le_value_zeros. reflexivity. }
  unfold read_xyz, sizeof_T. rewrite !R by lia. reflexivity.
Qed.

(** ** Geometry of the output *)

Lemma row_step_set_data (o : PointCloud2) (d : bytes) :
  row_step (set_data o d) = row_step o.
Proof. reflexivity. Qed.

Lemma point_step_set_data (o : PointCloud2) (d : bytes) :
  point_step (set_data o d) = point_step o.
Proof. reflexivity. Qed.

Lemma data_set_data (o : PointCloud2) (d : bytes) : data (set_data o d) = d.
Proof. reflexivity. Qed.

Lemma wrap32_small (z : Z) : 0 <= z < 2 ^ 32 -> wrap32 z = z.
Proof. intros H. unfold wrap32. apply Z.mod_small. exact H. Qed.

Lemma wrap64_small (z : Z) : 0 <= z < 2 ^ 64 -> wrap64 z = z.
Proof. intros H. unfold wrap64. apply Z.mod_small. exact H. Qed.

Lemma to_int_small (z : Z) : 0 <= z < 2 ^ 31 -> to_int z = z.
Proof. intros H. unfold to_int. rewrite Z.mod_small; lia. Qed.

Lemma wrap32_int_nonzero (z : Z) :
  is_int z -> z <> 0 -> 1 <= wrap32 z < 2 ^ 32.
Proof.
  unfold is_int, wrap32. intros Hz Hnz.
  pose proof (Z.mod_pos_bound z (2 ^ 32) ltac:(lia)) as Hb.
  pose proof (Z.div_mod z (2 ^ 32) ltac:(lia)) as Hdm.
  assert (z mod 2 ^ 32 <> 0); [|lia].
  intros E. rewrite E in Hdm.
  assert (z / 2 ^ 32 = 0) by lia. lia.
Qed.

Lemma resolved_height_range (cfg : Projection) (input : PointCloud2) :
  config_typed cfg -> is_u32 (height input) -> 1 <= height input ->
  1 <= resolved_height cfg input < 2 ^ 32.
Proof.
  intros [Hh _] Hu H1. unfold resolved_height.
  destruct (azimuth_only_ cfg); cbn [orb]; [unfold is_u32 in Hu; lia|].
  destruct (Z.eqb_spec (height_ cfg) 0); [unfold is_u32 in Hu; lia|].
  now apply wrap32_int_nonzero.
Qed.

Lemma resolved_width_range (cfg : Projection) (input : PointCloud2) :
  config_typed cfg -> is_u32 (width input) -> 1 <= width input ->
  1 <= resolved_width cfg input < 2 ^ 32.
Proof.
  intros [_ Hw] Hu H1. unfold resolved_width.
  destruct (Z.eqb_spec (width_ cfg) 0); [unfold is_u32 in Hu; lia|].
  now apply wrap32_int_nonzero.
Qed.

Lemma input_checks_true (input : PointCloud2) :
  input_checks input = true ->
  1 <= height input /\ 1 <= width input /\
  row_step input = wrap32 (width input * point_step input).
Proof.
  unfold input_checks. intros H.
  apply andb_prop in H as [H H3]. apply andb_prop in H as [H1 H2].
  apply Z.leb_le in H1, H2. apply Z.eqb_eq in H3. auto.
Qed.

Lemma index_bounds (h w i j : Z) :
  0 <= i < h -> 0 <= j < w -> 0 <= i * w /\ i * w + j + 1 <= h * w.
Proof.
  intros Hi Hj.
  assert (0 <= i * w) by (apply Z.mul_nonneg_nonneg; lia).
  assert (i * w <= (h - 1) * w) by (apply Z.mul_le_mono_nonneg_r; lia).
  lia.
Qed.

Section Raster.
Variables (lm : Libm float) (cfg : Projection).
Variables (input output : PointCloud2) (xoff : Z).
Hypothesis Hcfg : config_typed cfg.
Hypothesis Hwf : well_formed input xoff.
Hypothesis Hin : input_checks input = true.
Hypothesis Hfit : output_size cfg input < 2 ^ 32.

#[local] Set Default Proof Using "All".

Local Abbreviation o := (init_output cfg input output).
Local Abbreviation Ho := (resolved_height cfg input).
Local Abbreviation Wo := (resolved_width cfg input).
Local Abbreviation PS := (point_step input).

Lemma geom_H : 1 <= Ho < 2 ^ 32.
Proof.
  destruct Hwf as ((Hh & _) & _).
pose proof (input_checks_true _ Hin) as (? & ? & ?).
  now apply resolved_height_range.
Qed.

Lemma geom_W : 1 <= Wo < 2 ^ 32.
Proof.
  destruct Hwf as ((_ & Hw & _) & _).
pose proof (input_checks_true _ Hin) as (? & ? & ?).
  now apply resolved_width_range.
Qed.

Lemma geom_PS : 24 <= PS < 2 ^ 32.
Proof.
  destruct Hwf as ((_ & _ & Hp & _) & _ & _ & _ & ? & ?).
  unfold is_u32, sizeof_T in *. lia.
Qed.

Lemma geom_HW : Ho * Wo * PS < 2 ^ 32.
Proof. exact Hfit. Qed.

Lemma geom_cells : Ho * Wo < 2 ^ 31.
Proof.
  pose proof geom_H. pose proof geom_W. pose proof geom_PS. pose proof geom_HW.
  assert (Ho * Wo * 24 <= Ho * Wo * PS) by (apply Z.mul_le_mono_nonneg_l; lia).
  lia.
Qed.

Lemma out_height : height o = Ho.
Proof. reflexivity. Qed.
Lemma out_width : width o = Wo.
Proof. reflexivity. Qed.
Lemma out_point_step : point_step o = PS.
Proof. reflexivity. Qed.

Lemma out_row_step : row_step o = Wo * PS.
Proof.
  cbn. apply wrap32_small.
  pose proof geom_H. pose proof geom_W. pose proof geom_PS. pose proof geom_HW.
  split; [lia|]. assert (1 * (Wo * PS) <= Ho * (Wo * PS)) by (apply Z.mul_le_mono_nonneg_r; lia). lia.
Qed.

Lemma out_data : data o = zeros (Ho * Wo * PS).
Proof.
  cbn. f_equal.
  pose proof geom_H. pose proof geom_W. pose proof geom_PS. pose proof geom_HW.
  pose proof geom_cells.
  rewrite (wrap32_small (Ho * Wo)) by lia. apply wrap32_small. lia.
Qed.

(** *** Points inside the image *)

Lemma outside_false (u : float) (n : Z) :
  1 <= n < 2 ^ 32 -> outside u n = false -> 0 <= to_size_t u < n.
Proof.
  intros Hn Hout. unfold outside in Hout.
  apply orb_false_elim in Hout as [Hout Hnan].
  apply orb_false_elim in Hout as [Hlt Hge].
  now apply to_size_t_in_range.
Qed.

Lemma project_some (i_in : Z) (p : xyz) (i_out j_out : Z) :
  0 <= i_in < height input ->
  project lm cfg o i_in p = Some (i_out, j_out) ->
  0 <= i_out < Ho /\ 0 <= j_out < Wo /\
  (let '(x, y, z) := p in is_point_valid x y z = true) /\
  (azimuth_only_ cfg = true -> i_out = i_in).
Proof.
  intros Hi. unfold project. destruct p as ((x & y) & z).
  destruct (is_point_valid x y z) eqn:Ev; cbn [negb]; [|discriminate].
  destruct (outside (column_u lm cfg o (x, y, z)) (width o)) eqn:Eu; [discriminate|].
  apply outside_false in Eu; [|exact geom_W].
  destruct (azimuth_only_ cfg) eqn:Ea.
  - assert (EH : Ho = height input)
      by (unfold resolved_height; rewrite Ea; reflexivity).
    intros [= <- <-]. cbn in Eu. repeat split; try tauto; lia.
  - destruct (outside (row_v lm cfg o (x, y, z)) (height o)) eqn:Erow; [discriminate|].
    apply outside_false in Erow; [|exact geom_H].
    intros [= <- <-]. cbn in Eu, Erow. repeat split; try lia; discriminate.
Qed.

Lemma cell_bound (i j : Z) :
  0 <= i < Ho -> 0 <= j < Wo ->
  0 <= (i * Wo + j) * PS /\ (i * Wo + j) * PS + PS <= Ho * Wo * PS.
Proof.
  intros Hi Hj. pose proof geom_PS.
  pose proof (index_bounds Ho Wo i j Hi Hj).
  split; [apply Z.mul_nonneg_nonneg; lia|].
  assert ((i * Wo + j + 1) * PS <= Ho * Wo * PS)
    by (apply Z.mul_le_mono_nonneg_r; lia).
  lia.
Qed.

Lemma dest_eq (i j : Z) :
  0 <= i < Ho -> 0 <= j < Wo -> dest o i j = (i * Wo + j) * PS.
Proof.
  intros Hi Hj. unfold dest. rewrite out_row_step, out_point_step.
  pose proof (cell_bound i j Hi Hj). pose proof geom_HW. pose proof geom_PS.
  replace (i * (Wo * PS) + j * PS) with ((i * Wo + j) * PS) by lia.
  apply wrap64_small. lia.
Qed.

Lemma out_cell (d : bytes) (i j : Z) :
  0 <= i < Ho -> 0 <= j < Wo -> len d = Ho * Wo * PS ->
  cell (set_data o d) i j =
  Some (window d (Z.to_nat ((i * Wo + j) * PS)) (Z.to_nat PS)).
Proof.
  intros Hi Hj Hd. unfold cell.
  rewrite row_step_set_data, point_step_set_data, data_set_data.
  rewrite out_row_step, out_point_step.
  pose proof (cell_bound i j Hi Hj). pose proof geom_PS.
  replace (i * (Wo * PS) + j * PS) with ((i * Wo + j) * PS) by lia.
  apply slice_window; lia.
Qed.

(** *** Records of the input *)

Lemma in_bound (i j : Z) :
  0 <= i < height input -> 0 <= j < width input ->
  0 <= (i * width input + j) * PS /\
  (i * width input + j) * PS + PS <= len (data input) /\
  len (data input) < 2 ^ 64.
Proof.
  intros Hi Hj. destruct Hwf as ((Hh & Hw & Hp & Hr) & Hrow & Hlen & _).
  pose proof geom_PS. rewrite Hlen, Hrow. unfold is_u32 in *.
  pose proof (index_bounds (height input) (width input) i j Hi Hj).
  split; [apply Z.mul_nonneg_nonneg; lia|]. split.
  - assert ((i * width input + j + 1) * PS <= height input * width input * PS)
      by (apply Z.mul_le_mono_nonneg_r; lia).
    lia.
  - assert (height input * (width input * PS) <= 2 ^ 32 * (width input * PS))
      by (apply Z.mul_le_mono_nonneg_r; lia).
    assert (width input * PS <= 2 ^ 32 * PS)
      by (apply Z.mul_le_mono_nonneg_r; lia).
    lia.
Qed.

Lemma in_cell (i j : Z) :
  0 <= i < height input -> 0 <= j < width input ->
  cell input i j =
  Some (window (data input) (Z.to_nat ((i * width input + j) * PS))
               (Z.to_nat PS)).
Proof.
  intros Hi Hj. unfold cell.
  destruct (in_bound i j Hi Hj) as (? & ? & ?).
  destruct Hwf as (_ & Hrow & _). rewrite Hrow. pose proof geom_PS.
  replace (i * (width input * PS) + j * PS)
    with ((i * width input + j) * PS) by lia.
  apply slice_window; lia.
Qed.

Lemma input_record_eq (i j : Z) :
  0 <= i < height input -> 0 <= j < width input ->
  input_record input i j = cell input i j.
Proof.
  intros Hi Hj. unfold input_record, cell.
  destruct (in_bound i j Hi Hj) as (? & ? & ?).
  destruct Hwf as (_ & Hrow & _). rewrite Hrow. pose proof geom_PS.
  replace (i * (width input * PS) + (j + 1) * PS)
    with ((i * width input + j) * PS + PS) by lia.
  replace (i * (width input * PS) + j * PS)
    with ((i * width input + j) * PS) by lia.
  rewrite !wrap64_small by lia. f_equal. lia.
Qed.

Lemma point_xyz_eq (i j : Z) :
  point_xyz input i j =
  read_xyz (data input) (xoff + (i * width input + j) * PS).
Proof.
  unfold point_xyz. destruct Hwf as (_ & _ & _ & -> & _). reflexivity.
Qed.

Lemma point_xyz_some (i j : Z) :
  0 <= i < height input -> 0 <= j < width input ->
  exists p, point_xyz input i j = Some p.
Proof.
  intros Hi Hj. rewrite point_xyz_eq.
  destruct (in_bound i j Hi Hj) as (? & ? & ?).
  destruct Hwf as (_ & _ & _ & _ & ? & ?).
  apply read_xyz_some; lia.
Qed.

(** The coordinates read in a record are those the iterator reads in the
    buffer that holds it. *)
Lemma point_xyz_record (i j : Z) (r : bytes) :
  0 <= i < height input -> 0 <= j < width input ->
  cell input i j = Some r -> read_xyz r xoff = point_xyz input i j.
Proof.
  intros Hi Hj. rewrite in_cell by assumption. intros [= <-].
  destruct (in_bound i j Hi Hj) as (? & ? & ?).
  destruct Hwf as (_ & _ & _ & _ & ? & ?). pose proof geom_PS.
  rewrite read_xyz_window by lia.
  rewrite point_xyz_eq. f_equal. lia.
Qed.

(** *** The collision tests *)

Lemma keep_skip_read (d : bytes) (i j : Z) (q p : xyz) :
  read_xyz d (x_out o xoff i j) = Some q ->
  keep_skip lm cfg o d xoff i j p = Some (held_skip lm cfg q p).
Proof.
  intros E. unfold keep_skip, first_closest_skip, farthest_skip, held_skip.
  rewrite E. destruct q as ((x & y) & z).
  destruct (keep_ cfg =? KEEP_FIRST).
  - destruct (is_point_valid x y z); [reflexivity|].
    destruct (keep_ cfg =? KEEP_FARTHEST); reflexivity.
  - destruct (keep_ cfg =? KEEP_CLOSEST).
    + destruct (is_point_valid x y z && (range lm (x, y, z) <=? range lm p)%float);
        [reflexivity|].
      destruct (keep_ cfg =? KEEP_FARTHEST); reflexivity.
    + destruct (keep_ cfg =? KEEP_FARTHEST); reflexivity.
Qed.

Lemma cells_disjoint (i j i' j' : Z) :
  0 <= i < Ho -> 0 <= j < Wo -> 0 <= i' < Ho -> 0 <= j' < Wo ->
  (i, j) <> (i', j') ->
  (i * Wo + j) * PS + PS <= (i' * Wo + j') * PS \/
  (i' * Wo + j') * PS + PS <= (i * Wo + j) * PS.
Proof.
  intros Hi Hj Hi' Hj' Hne. pose proof geom_PS.
  assert (C : i * Wo + j + 1 <= i' * Wo + j' \/ i' * Wo + j' + 1 <= i * Wo + j).
  { destruct (Z.lt_trichotomy i i') as [L|[E|L]].
    - left. pose proof (index_bounds i' Wo i j ltac:(lia) Hj). lia.
    - subst i'. assert (j <> j') by congruence. lia.
    - right. pose proof (index_bounds i Wo i' j' ltac:(lia) Hj'). lia. }
  destruct C as [C|C]; [left|right].
  - assert ((i * Wo + j + 1) * PS <= (i' * Wo + j') * PS)
      by (apply Z.mul_le_mono_nonneg_r; lia). lia.
  - assert ((i' * Wo + j' + 1) * PS <= (i * Wo + j) * PS)
      by (apply Z.mul_le_mono_nonneg_r; lia). lia.
Qed.

(** *** The copy stays inside both buffers *)

Lemma copy_point_some (d : bytes) (i_in j_in i_out j_out : Z) :
  0 <= i_in < height input -> 0 <= j_in < width input ->
  0 <= i_out < Ho -> 0 <= j_out < Wo -> len d = Ho * Wo * PS ->
  exists d', copy_point input o d i_in j_in i_out j_out = Some d' /\
             len d' = len d.
Proof.
  intros Hi Hj Hio Hjo Hlen.
  unfold copy_point. rewrite input_record_eq, in_cell by assumption.
  rewrite dest_eq by assumption.
  destruct (in_bound i_in j_in Hi Hj) as (Hi0 & Hi1 & _).
  pose proof (cell_bound i_out j_out Hio Hjo) as (Ho0 & Ho1).
  pose proof geom_PS as HPS.
  set (r := window (data input) (Z.to_nat ((i_in * width input + j_in) * PS))
                   (Z.to_nat PS)).
  assert (Hr : length r = Z.to_nat PS)
    by (apply window_length; unfold len in Hi1; lia).
  assert (Hrl : len r = PS) by (unfold len; lia).
  rewrite blit_patch by lia.
  eexists. split; [reflexivity|].
  unfold len in *. rewrite patch_length; lia.
Qed.



(** *** The two loops *)

Lemma grid_after_succ (i j : Z) :
  0 <= i < height input -> 0 <= j < width input ->
  grid_after lm cfg input output (Z.to_nat (i * width input + j + 1)) =
  grid_step lm cfg input output
    (grid_after lm cfg input output (Z.to_nat (i * width input + j))) i j.
Proof.
  intros Hi Hj.
  pose proof (index_bounds (height input) (width input) i j Hi Hj).
  replace (Z.to_nat (i * width input + j + 1))
    with (Datatypes.S (Z.to_nat (i * width input + j))) by lia.
  cbn [grid_after]. rewrite Z2Nat.id by lia.
  rewrite Z.div_add_l by lia. rewrite Z.div_small by lia.
  rewrite Z.add_comm, Z.mod_add by lia. rewrite Z.mod_small by lia.
  now rewrite Z.add_0_r.
Qed.

Lemma holds_initial : holds lm cfg input output (empty_grid) (data o).
Proof.
  pose proof geom_H. pose proof geom_W. pose proof geom_PS.
  assert (0 <= Ho * Wo * PS) by (repeat apply Z.mul_nonneg_nonneg; lia).
  split.
  - rewrite out_data. now apply zeros_length.
  - intros i j Hi Hj. unfold empty_grid.
    change (height o) with Ho in Hi. change (width o) with Wo in Hj.
    pose proof (cell_bound i j Hi Hj) as (? & ?).
    replace (set_data o (data o)) with (set_data o (zeros (Ho * Wo * PS)))
      by (now rewrite out_data).
    rewrite out_cell by (try assumption; now apply zeros_length).
    unfold zeros. rewrite window_zeros by lia. reflexivity.
Qed.

(** *** Outputs of fewer than [2^31] bytes

    The iterator of the output computes its positions in [int]s and the
    iterator of the input moves by an [int]: what follows needs the output
    size, and with it [point_step], below [2^31]. *)

Hypothesis Hint : output_size cfg input < 2 ^ 31.

Lemma geom_int : Ho * Wo * PS < 2 ^ 31.
Proof. exact Hint. Qed.

Lemma to_int_point_step : to_int PS = PS.
Proof.
  pose proof geom_H. pose proof geom_W. pose proof geom_PS. pose proof geom_int.
  assert (1 * PS <= Ho * Wo * PS) by (apply Z.mul_le_mono_nonneg_r; nia).
  apply to_int_small. lia.
Qed.

Lemma x_out_eq (i j : Z) :
  0 <= i < Ho -> 0 <= j < Wo ->
  x_out o xoff i j = xoff + (i * Wo + j) * PS.
Proof.
  intros Hi Hj. unfold x_out, iterator_plus.
  rewrite out_width, out_point_step, to_int_point_step.
  pose proof geom_cells. pose proof geom_PS. pose proof geom_int.
  pose proof (index_bounds Ho Wo i j Hi Hj).
  pose proof (cell_bound i j Hi Hj) as (Hc0 & Hc1).
  assert (0 <= i * Wo * PS) by (apply Z.mul_nonneg_nonneg; lia).
  assert (0 <= j * PS) by (apply Z.mul_nonneg_nonneg; lia).
  rewrite wrap64_small by lia.
  rewrite (to_int_small (i * Wo)) by lia.
  rewrite (to_int_small j) by lia.
  rewrite (to_int_small (i * Wo * PS)) by lia.
  rewrite (to_int_small (j * PS)) by lia.
  lia.
Qed.

Lemma x_out_record (d : bytes) (i j : Z) (r : bytes) :
  0 <= i < Ho -> 0 <= j < Wo -> len d = Ho * Wo * PS ->
  cell (set_data o d) i j = Some r ->
  read_xyz d (x_out o xoff i j) = read_xyz r xoff.
Proof.
  intros Hi Hj Hd. rewrite out_cell by assumption. intros [= <-].
  pose proof (cell_bound i j Hi Hj).
  destruct Hwf as (_ & _ & _ & _ & ? & ?). pose proof geom_PS.
  rewrite read_xyz_window by lia.
  rewrite x_out_eq by assumption. f_equal. lia.
Qed.

Lemma holds_read (g : grid) (d : bytes) (i j : Z) :
  holds lm cfg input output g d -> 0 <= i < Ho -> 0 <= j < Wo ->
  read_xyz d (x_out o xoff i j) = Some (held_xyz input g i j).
Proof.
  intros (Hlen & Hg) Hi Hj. specialize (Hg i j Hi Hj). unfold held_xyz.
  change (len d = Ho * Wo * PS) in Hlen.
  change (point_step o) with PS in *.
  destruct (g i j) as [(a & b)|].
  - destruct Hg as (Ha & Hb & _ & Hc).
    destruct (point_xyz_some a b Ha Hb) as (q & Eq). rewrite Eq.
    pose proof (in_cell a b Ha Hb) as Er. rewrite Hc in Er.
    rewrite (x_out_record d i j _ Hi Hj Hlen Er).
    rewrite <- Eq. apply point_xyz_record; try assumption.
    now rewrite Hc.
  - rewrite (x_out_record d i j _ Hi Hj Hlen Hg).
    destruct Hwf as (_ & _ & _ & _ & ? & ?).
    apply read_xyz_zeros; assumption.
Qed.

(** *** One round of the loop refines one step of the grid *)

Lemma body_refines (g : grid) (d : bytes) (i_in j_in : Z) :
  0 <= i_in < height input -> 0 <= j_in < width input ->
  holds lm cfg input output g d ->
  exists d',
    body lm cfg input o xoff i_in j_in
         (xoff + (i_in * width input + j_in) * PS, d)
    = Some (xoff + (i_in * width input + j_in) * PS + PS, d') /\
    holds lm cfg input output (grid_step lm cfg input output g i_in j_in) d'.
Proof.
  intros Hi Hj Hh. unfold body, grid_step, target.
  rewrite to_int_point_step, <- point_xyz_eq.
  destruct (point_xyz_some i_in j_in Hi Hj) as (p & Ep). rewrite Ep.
  destruct (project lm cfg o i_in p) as [(i_out & j_out)|] eqn:Eproj;
    [|exists d; split; [reflexivity | exact Hh]].
  destruct (project_some i_in p i_out j_out Hi Eproj) as (Hio & Hjo & _ & _).
  rewrite (keep_skip_read d i_out j_out _ p (holds_read g d i_out j_out Hh Hio Hjo)).
  destruct (held_skip lm cfg (held_xyz input g i_out j_out) p);
    [exists d; split; [reflexivity | exact Hh]|].
  unfold copy_point. rewrite input_record_eq, in_cell by assumption.
  rewrite dest_eq by assumption.
  destruct Hh as (Hlen & Hg).
  change (len d = Ho * Wo * PS) in Hlen.
  destruct (in_bound i_in j_in Hi Hj) as (Hi0 & Hi1 & _).
  pose proof (cell_bound i_out j_out Hio Hjo) as (Ho0 & Ho1).
  pose proof geom_PS as HPS.
  set (r := window (data input) (Z.to_nat ((i_in * width input + j_in) * PS))
                   (Z.to_nat PS)).
  assert (Hr : length r = Z.to_nat PS)
    by (apply window_length; unfold len in Hi1; lia).
  assert (Hrl : len r = PS) by (unfold len; lia).
  rewrite blit_patch by lia.
  eexists. split; [reflexivity|].
  assert (Hpl : (Z.to_nat ((i_out * Wo + j_out) * PS) + length r <= length d)%nat)
    by (unfold len in Hlen; lia).
  split.
  - change (len (patch d (Z.to_nat ((i_out * Wo + j_out) * PS)) r)
            = Ho * Wo * PS).
    unfold len in *. rewrite patch_length; lia.
  - intros i j Hi' Hj'. unfold grid_set.
    change (height o) with Ho in Hi'. change (width o) with Wo in Hj'.
    assert (Hlen' : len (patch d (Z.to_nat ((i_out * Wo + j_out) * PS)) r)
                    = Ho * Wo * PS)
      by (unfold len in *; rewrite patch_length; lia).
    destruct (Z.eqb_spec i i_out) as [->|Ni]; cbn [andb].
    + destruct (Z.eqb_spec j j_out) as [->|Nj].
      * repeat split; try lia.
        -- unfold target. rewrite Ep. exact Eproj.
        -- rewrite in_cell, out_cell by assumption. f_equal. fold r.
           rewrite <- Hr. symmetry. apply patch_window_same. exact Hpl.
      * specialize (Hg i_out j Hi' Hj').
        rewrite out_cell in Hg |- * by assumption.
        rewrite patch_window_other; [exact Hg | exact Hpl | |].
        -- pose proof (cell_bound i_out j Hio Hj'). unfold len in Hlen. lia.
        -- destruct (cells_disjoint i_out j i_out j_out) as [D|D];
             try assumption; [congruence | |];
             pose proof (cell_bound i_out j Hio Hj'); lia.
    + specialize (Hg i j Hi' Hj').
      rewrite out_cell in Hg |- * by assumption.
      rewrite patch_window_other; [exact Hg | exact Hpl | |].
      * pose proof (cell_bound i j Hi' Hj'). unfold len in Hlen. lia.
      * destruct (cells_disjoint i j i_out j_out) as [D|D];
          try assumption; [congruence | |];
          pose proof (cell_bound i j Hi' Hj'); lia.
Qed.

(** *** The two loops, and the call *)

Lemma scan_refines :
  exists x d,
    scan lm cfg input o xoff (xoff, data o) = Some (x, d) /\
    holds lm cfg input output
      (grid_after lm cfg input output
                  (Z.to_nat (height input * width input))) d.
Proof.
  pose proof (input_checks_true _ Hin) as (Hh1 & Hw1 & _).
  set (Inv := fun (k : Z) (s : Z * bytes) =>
    fst s = xoff + k * PS /\
    holds lm cfg input output (grid_after lm cfg input output (Z.to_nat k))
          (snd s)).
  destruct (for_loop_inv (fun i s => Inv (i * width input) s)
              (fun i_in s =>
                 for_loop (Z.to_nat (width input)) 0
                   (fun j_in s => body lm cfg input o xoff i_in j_in s) s)
              (Z.to_nat (height input)) 0 (xoff, data o))
    as ((x & d) & E & (_ & Hd)).
  - split; [cbn; lia | exact holds_initial].
  - intros i s Hi Hs. rewrite Z2Nat.id in Hi by lia.
    destruct (for_loop_inv (fun j s => Inv (i * width input + j) s)
                (fun j_in s => body lm cfg input o xoff i j_in s)
                (Z.to_nat (width input)) 0 s)
      as (s' & E' & Hs').
    + now rewrite Z.add_0_r.
    + intros j (x & d) Hj (Hx & Hd). cbn [fst snd] in Hx, Hd.
      rewrite Z2Nat.id in Hj by lia. subst x.
      destruct (body_refines _ d i j ltac:(lia) ltac:(lia) Hd) as (d' & Eb & Hd').
      exists (xoff + (i * width input + j) * PS + PS, d'). split; [exact Eb|].
      split; cbn [fst snd]; [lia|].
      replace (i * width input + (j + 1)) with (i * width input + j + 1) by lia.
      rewrite grid_after_succ by lia. exact Hd'.
    + exists s'. split; [exact E'|].
      rewrite Z2Nat.id in Hs' by lia.
      now replace ((i + 1) * width input) with (i * width input + (0 + width input)) by lia.
  - exists x, d. split; [exact E|].
    rewrite Z2Nat.id in Hd by lia. exact Hd.
Qed.

Lemma process_refines :
  exists d,
    process lm cfg input output = Returned (set_data o d) /\
    holds lm cfg input output
      (grid_after lm cfg input output
                  (Z.to_nat (height input * width input))) d.
Proof.
  destruct scan_refines as (x & d & E & Hd).
  exists d. split; [|exact Hd].
  unfold process.
  pose proof Hin as Hin'. unfold input_checks in Hin'.
  apply andb_prop in Hin' as [Hin' E3]. apply andb_prop in Hin' as [E1 E2].
  rewrite E1, E2, E3. cbn [negb].
  change (height (set_height (set_header output (header input)) Ho)) with Ho.
  change (width (set_width (set_height (set_header output (header input)) Ho) Wo))
    with Wo.
  rewrite (proj2 (Z.leb_le 1 Ho) (proj1 geom_H)).
  rewrite (proj2 (Z.leb_le 1 Wo) (proj1 geom_W)). cbn [negb].
  pose proof geom_PS as HP. pose proof geom_H as HH. pose proof geom_W as HW.
  pose proof (input_checks_true _ Hin) as (Hh1 & Hw1 & _).
  assert (Hi0 : (len (data input) =? 0) = false).
  { apply Z.eqb_neq.
    destruct (in_bound 0 0 ltac:(lia) ltac:(lia)) as (_ & Hb & _). lia. }
  assert (Ho0 : (len (data o) =? 0) = false).
  { apply Z.eqb_neq. rewrite out_data.
    pose proof (cell_bound 0 0 ltac:(lia) ltac:(lia)).
    rewrite zeros_length; lia. }
  destruct Hwf as (_ & _ & _ & -> & _).
  rewrite Hi0, Ho0. cbn [orb].
  rewrite E. reflexivity.
Qed.

End Raster.

(** ** The rasterizer on grids *)

Lemma is_point_valid_zero : is_point_valid 0 0 0 = false.
Proof. vm_compute. reflexivity. Qed.

Section Grid.
Variables (lm : Libm float) (cfg : Projection) (input output : PointCloud2).

#[local] Set Default Proof Using "All".

Local Abbreviation tg := (target lm cfg input output).
Local Abbreviation step := (grid_step lm cfg input output).
Local Abbreviation after := (grid_after lm cfg input output).

(** The [n]-th point of the scan. *)
Local Abbreviation row n := (Z.of_nat n / width input).
Local Abbreviation col n := (Z.of_nat n mod width input).

Lemma grid_step_other (g : grid) (a b i j : Z) :
  tg a b <> Some (i, j) -> step g a b i j = g i j.
Proof.
  intros Hne. unfold grid_step.
  destruct (point_xyz input a b) as [p|]; [|reflexivity].
  destruct (tg a b) as [(i' & j')|]; [|reflexivity].
  destruct (held_skip lm cfg (held_xyz input g i' j') p); [reflexivity|].
  unfold grid_set.
  destruct (Z.eqb_spec i i') as [->|]; [|reflexivity].
  destruct (Z.eqb_spec j j') as [->|]; [congruence | reflexivity].
Qed.

Lemma grid_step_same (g : grid) (a b i j : Z) (p : xyz) :
  tg a b = Some (i, j) -> point_xyz input a b = Some p ->
  step g a b i j =
  if held_skip lm cfg (held_xyz input g i j) p then g i j else Some (a, b).
Proof.
  intros Ht Ep. unfold grid_step. rewrite Ep, Ht.
  destruct (held_skip lm cfg (held_xyz input g i j) p); [reflexivity|].
  unfold grid_set. now rewrite !Z.eqb_refl.
Qed.

Lemma target_point (a b i j : Z) :
  tg a b = Some (i, j) ->
  exists x y z, point_xyz input a b = Some (x, y, z) /\
                is_point_valid x y z = true.
Proof.
  unfold target. destruct (point_xyz input a b) as [((x & y) & z)|]; [|discriminate].
  unfold project. destruct (is_point_valid x y z) eqn:Ev; [|discriminate].
  intros _. now exists x, y, z.
Qed.

Lemma grid_after_none (k : nat) (i j : Z) :
  (forall n, (n < k)%nat -> tg (row n) (col n) <> Some (i, j)) ->
  after k i j = None.
Proof.
  induction k as [|k IH]; intros Hn; [reflexivity|].
  cbn [grid_after]. rewrite grid_step_other by (apply Hn; lia).
  apply IH. intros n Hlt. apply Hn. lia.
Qed.

Lemma grid_after_some (k : nat) (i j a b : Z) :
  after k i j = Some (a, b) ->
  exists n, (n < k)%nat /\ a = row n /\ b = col n /\ tg a b = Some (i, j).
Proof.
  induction k as [|k IH]; [discriminate|].
  cbn [grid_after].
  assert (Dec : {tg (row k) (col k) = Some (i, j)}
               + {tg (row k) (col k) <> Some (i, j)})
    by (repeat decide equality).
  destruct Dec as [E|N].
  - destruct (target_point _ _ _ _ E) as (x & y & z & Ep & _).
    rewrite (grid_step_same _ _ _ _ _ _ E Ep).
    destruct (held_skip lm cfg _ _).
    + intros Hs. destruct (IH Hs) as (n & ? & ?). exists n. split; [lia | assumption].
    + intros [= <- <-]. exists k. repeat split; [lia | exact E].
  - rewrite grid_step_other by exact N.
    intros Hs. destruct (IH Hs) as (n & ? & ?). exists n. split; [lia | assumption].
Qed.

Lemma held_skip_first (x y z : float) (p : xyz) :
  keep_ cfg = KEEP_FIRST ->
  held_skip lm cfg (x, y, z) p = is_point_valid x y z.
Proof.
  intros E. unfold held_skip. rewrite E. cbn. apply orb_false_r.
Qed.

Lemma held_skip_last (q p : xyz) :
  keep_ cfg = KEEP_LAST -> held_skip lm cfg q p = false.
Proof.
  intros E. unfold held_skip. rewrite E. destruct q as ((x & y) & z).
  reflexivity.
Qed.

Lemma grid_after_first (k n : nat) (i j : Z) :
  keep_ cfg = KEEP_FIRST -> (n < k)%nat ->
  tg (row n) (col n) = Some (i, j) ->
  (forall m, (m < n)%nat -> tg (row m) (col m) <> Some (i, j)) ->
  after k i j = Some (row n, col n).
Proof.
  intros Hk Hlt Ht Hfirst. induction k as [|k IH]; [lia|].
  cbn [grid_after].
  destruct (Nat.eq_dec n k) as [->|Hne].
  - destruct (target_point _ _ _ _ Ht) as (x & y & z & Ep & _).
    rewrite (grid_step_same _ _ _ _ _ _ Ht Ep).
    unfold held_xyz. rewrite (grid_after_none _ _ _ Hfirst).
    rewrite held_skip_first by exact Hk.
    now rewrite is_point_valid_zero.
  - specialize (IH ltac:(lia)).
    assert (Dec : {tg (row k) (col k) = Some (i, j)}
                  + {tg (row k) (col k) <> Some (i, j)})
      by (repeat decide equality).
    destruct Dec as [E|N].
    + destruct (target_point _ _ _ _ E) as (x & y & z & Ep & _).
      rewrite (grid_step_same _ _ _ _ _ _ E Ep).
      unfold held_xyz. rewrite IH.
      destruct (target_point _ _ _ _ Ht) as (x' & y' & z' & Ep' & Ev').
      rewrite Ep', held_skip_first, Ev' by exact Hk. reflexivity.
    + now rewrite grid_step_other by exact N.
Qed.

Lemma grid_after_last (k n : nat) (i j : Z) :
  keep_ cfg = KEEP_LAST -> (n < k)%nat ->
  tg (row n) (col n) = Some (i, j) ->
  (forall m, (n < m < k)%nat -> tg (row m) (col m) <> Some (i, j)) ->
  after k i j = Some (row n, col n).
Proof.
  intros Hk Hlt Ht. induction k as [|k IH]; intros Hlast; [lia|].
  cbn [grid_after].
  destruct (Nat.eq_dec n k) as [->|Hne].
  - destruct (target_point _ _ _ _ Ht) as (x & y & z & Ep & _).
    rewrite (grid_step_same _ _ _ _ _ _ Ht Ep).
    now rewrite held_skip_last.
  - rewrite grid_step_other by (apply Hlast; lia).
    apply IH; [lia|]. intros m Hm. apply Hlast. lia.
Qed.
End Grid.

(** ** Properties of the specification *)

(** *** Auxiliary facts *)

Lemma target_in_image (lm : Libm float) (cfg : Projection)
    (input output : PointCloud2) (xoff a b i j : Z) :
  config_typed cfg -> well_formed input xoff -> input_checks input = true ->
  output_size cfg input < 2 ^ 32 ->
  0 <= a < height input ->
  target lm cfg input output a b = Some (i, j) ->
  0 <= i < resolved_height cfg input /\ 0 <= j < resolved_width cfg input.
Proof.
  intros Hc Hwf Hin Hfit Ha. unfold target.
  destruct (point_xyz input a b) as [p|]; [|discriminate].
  intros Hp.
  destruct (project_some lm cfg input output xoff Hc Hwf Hin Hfit a p i j Ha Hp)
    as (? & ? & _). auto.
Qed.

Lemma process_holds (lm : Libm float) (cfg : Projection)
    (input output : PointCloud2) (xoff : Z) :
  config_typed cfg -> well_formed input xoff -> input_checks input = true ->
  output_size cfg input < 2 ^ 31 ->
  exists d,
    process lm cfg input output
    = Returned (set_data (init_output cfg input output) d) /\
    holds lm cfg input output
      (grid_after lm cfg input output
                  (Z.to_nat (height input * width input))) d.
Proof.
  intros Hc Hwf Hin Hint.
  apply (process_refines lm cfg input output xoff); try assumption. lia.
Qed.

Lemma scan_point (h w a b : Z) :
  0 <= a < h -> 0 <= b < w ->
  Z.of_nat (Z.to_nat (a * w + b)) / w = a /\
  Z.of_nat (Z.to_nat (a * w + b)) mod w = b /\
  (Z.to_nat (a * w + b) < Z.to_nat (h * w))%nat.
Proof.
  intros Ha Hb. pose proof (index_bounds h w a b Ha Hb).
  rewrite Z2Nat.id by lia. repeat split.
  - rewrite Z.div_add_l by lia. rewrite Z.div_small by lia. lia.
  - rewrite Z.add_comm, Z.mod_add by lia. now apply Z.mod_small.
  - lia.
Qed.

Lemma scan_unpoint (h w : Z) (m : nat) :
  1 <= w -> (m < Z.to_nat (h * w))%nat ->
  0 <= Z.of_nat m / w < h /\ 0 <= Z.of_nat m mod w < w /\
  Z.of_nat m / w * w + Z.of_nat m mod w = Z.of_nat m.
Proof.
  intros Hw Hm.
  pose proof (Z.div_mod (Z.of_nat m) w ltac:(lia)).
  pose proof (Z.mod_pos_bound (Z.of_nat m) w ltac:(lia)).
  assert (0 <= Z.of_nat m / w) by (apply Z.div_pos; lia).
  repeat split; try lia.
  apply Z.div_lt_upper_bound; lia.
Qed.

Lemma process_past_checks (lm : Libm float) (cfg : Projection)
    (input output : PointCloud2) :
  config_typed cfg -> cloud_typed input -> input_checks input = true ->
  output_checks cfg input = true /\
  process lm cfg input output =
  match field_offset "x"%string (fields input) with
  | None => Thrown (init_output cfg input output)
  | Some xoff =>
      if (len (data input) =? 0)
         || (len (data (init_output cfg input output)) =? 0)
      then Undefined else
      match scan lm cfg input (init_output cfg input output) xoff
                 (xoff, data (init_output cfg input output)) with
      | Some (_, d) => Returned (set_data (init_output cfg input output) d)
      | None => Undefined
      end
  end.
Proof.
  intros Hc (Hh & Hw & _) Hin.
  pose proof (input_checks_true _ Hin) as (H1 & H2 & _).
  pose proof (resolved_height_range cfg input Hc Hh H1) as (Hr1 & _).
  pose proof (resolved_width_range cfg input Hc Hw H2) as (Hr2 & _).
  apply Z.leb_le in Hr1, Hr2.
  split; [unfold output_checks; now rewrite Hr1, Hr2|].
  unfold process. unfold input_checks in Hin.
  apply andb_prop in Hin as [Hin E3]. apply andb_prop in Hin as [E1 E2].
  rewrite E1, E2, E3. cbn [negb].
  change (height (set_height (set_header output (header input))
                             (resolved_height cfg input)))
    with (resolved_height cfg input).
  change (width (set_width (set_height (set_header output (header input))
                                       (resolved_height cfg input))
                           (resolved_width cfg input)))
    with (resolved_width cfg input).
  rewrite Hr1, Hr2. reflexivity.
Qed.

Lemma process_checks_fail (lm : Libm float) (cfg : Projection)
    (input output : PointCloud2) :
  input_checks input = false -> process lm cfg input output = Aborted output.
Proof.
  unfold input_checks, process. intros Hin.
  destruct (1 <=? height input); [|reflexivity].
  destruct (1 <=? width input); [|reflexivity].
  cbn [andb] in Hin. rewrite Hin. reflexivity.
Qed.

Lemma read_xyz_before (d : bytes) (off : Z) :
  off < 0 -> read_xyz d off = None.
Proof.
  intros H. unfold read_xyz, read_T, slice.
  destruct (Z.leb_spec 0 off) as [Hle|_]; [lia|]. reflexivity.
Qed.

Lemma scan_first_none (lm : Libm float) (cfg : Projection)
    (input o : PointCloud2) (xoff : Z) (d : bytes) :
  1 <= height input -> 1 <= width input ->
  body lm cfg input o xoff 0 0 (xoff, d) = None ->
  scan lm cfg input o xoff (xoff, d) = None.
Proof.
  intros Hh Hw Hb. unfold scan.
  destruct (Z.to_nat (height input)) as [|n] eqn:En; [lia|].
  destruct (Z.to_nat (width input)) as [|m] eqn:Em; [lia|].
  cbn [for_loop]. now rewrite Hb.
Qed.

(** [axis_libm] is a library as [c_library] describes. *)

Lemma positive_or_zero_sign (x : float) :
  positive_or_zero x -> get_sign x = false /\ isnan x = false.
Proof.
  intros [Hp|Hz].
  - rewrite FloatAxioms.ltb_spec, Prim2SF_zero in Hp.
    assert (En : isnan x = false).
    { destruct (isnan x) eqn:E; [|reflexivity].
      apply isnan_spec in E. rewrite E in Hp. discriminate. }
    split; [|exact En].
    unfold get_sign, PrimFloat.is_zero.
    rewrite FloatAxioms.eqb_spec.
    change (Prim2SF zero) with (Prim2SF 0%float). rewrite Prim2SF_zero.
    destruct (Prim2SF x) as [s|s| |s m e] eqn:Ex; try discriminate.
    + destruct s; [discriminate|]. cbn.
      rewrite FloatAxioms.ltb_spec, Ex.
      change (Prim2SF zero) with (Prim2SF 0%float). rewrite Prim2SF_zero.
      reflexivity.
    + destruct s; [discriminate|]. cbn.
      rewrite FloatAxioms.ltb_spec, Ex.
      change (Prim2SF zero) with (Prim2SF 0%float). rewrite Prim2SF_zero.
      reflexivity.
  - assert (Ex : x = 0%float).
    { rewrite <- (FloatAxioms.SF2Prim_Prim2SF x), Hz. reflexivity. }
    subst x. split; vm_compute; reflexivity.
Qed.

Lemma abs_positive_or_zero (x : float) :
  isnan (abs x) = true \/ positive_or_zero (abs x).
Proof.
  pose proof (FloatAxioms.abs_spec x) as Ea.
  destruct (Prim2SF x) as [s|s| |s m e]; cbn [SFabs] in Ea.
  - right. right. exact Ea.
  - right. left. rewrite FloatAxioms.ltb_spec, Prim2SF_zero, Ea. reflexivity.
  - left. now apply isnan_spec.
  - right. left. rewrite FloatAxioms.ltb_spec, Prim2SF_zero, Ea. reflexivity.
Qed.

Lemma axis_hypot_range (x y : float) :
  isnan (axis_hypot x y) = true \/ positive_or_zero (axis_hypot x y).
Proof.
  unfold axis_hypot.
  destruct (is_infinity x || is_infinity y).
  { right. left. vm_compute. reflexivity. }
  destruct (isnan x || isnan y); [left; vm_compute; reflexivity|].
  destruct (y =? 0)%float; [apply abs_positive_or_zero|].
  destruct (x =? 0)%float; [apply abs_positive_or_zero|].
  left. vm_compute. reflexivity.
Qed.

Lemma axis_atan2_right (y x : float) :
  positive_or_zero x -> nan_or_quarter_turn (axis_atan2 y x).
Proof.
  intros Hx. destruct (positive_or_zero_sign x Hx) as (Hs & Hn).
  unfold axis_atan2. rewrite Hs.
  destruct (isnan x || isnan y); [left; vm_compute; reflexivity|].
  destruct (y =? 0)%float eqn:Ey.
  - right.
    assert (Hz : is_zero_value y).
    { apply fne_zero_spec. unfold fne. now rewrite Ey. }
    destruct Hz as (s & Hz).
    split; rewrite FloatAxioms.leb_spec, Hz; vm_compute; reflexivity.
  - destruct (x =? 0)%float; [|left; vm_compute; reflexivity].
    right. destruct (get_sign y); split; vm_compute; reflexivity.
Qed.

Lemma axis_atan2_nan (y x : float) :
  isnan x = true -> isnan (axis_atan2 y x) = true.
Proof.
  intros E. unfold axis_atan2. rewrite E. vm_compute. reflexivity.
Qed.

Lemma axis_libm_c_library : c_library axis_libm.
Proof.
  split; [exact axis_hypot_range|].
  split; [exact axis_atan2_right|].
  split; [exact axis_atan2_nan|].
  split; vm_compute; reflexivity.
Qed.

Lemma set_data_complete (cfg : Projection) (input o : PointCloud2)
    (d : bytes) :
  header o = header input -> fields o = fields input ->
  is_bigendian o = is_bigendian input -> is_dense o = is_dense input ->
  point_step o = point_step input ->
  height o = resolved_height cfg input ->
  width o = resolved_width cfg input ->
  1 <= height o -> 1 <= width o ->
  row_step o = width o * point_step o ->
  len d = height o * row_step o ->
  complete_output cfg input (set_data o d).
Proof.
  intros. destruct o. unfold complete_output.
  cbn [set_data header fields is_bigendian is_dense point_step height width
       row_step data] in *.
  repeat split; assumption.
Qed.

(** *** C1 *)

(** C1, as amended. For a well-formed input cloud that passes the three
    assertions on the input, and a configuration whose output size
    [height * width * point_step] is below [2^31]: [process] returns, and
    every cell of the returned buffer holds either all-zero bytes or a
    byte-for-byte copy of the whole record of one input point, a point that
    projects to that cell. *)
Theorem output_cells (lm : Libm float) (cfg : Projection)
    (input output : PointCloud2) (xoff : Z) :
  config_typed cfg -> well_formed input xoff -> input_checks input = true ->
  output_size cfg input < 2 ^ 31 ->
  exists out,
    process lm cfg input output = Returned out /\
    forall i j, 0 <= i < height out -> 0 <= j < width out ->
      exists r,
        cell out i j = Some r /\
        (r = zeros (point_step out) \/
         exists a b,
           0 <= a < height input /\ 0 <= b < width input /\
           cell input a b = Some r /\
           target lm cfg input output a b = Some (i, j)).
Proof.
  intros Hc Hwf Hin Hint.
  assert (Hfit : output_size cfg input < 2 ^ 32) by lia.
  destruct (process_holds lm cfg input output xoff Hc Hwf Hin Hint)
    as (d & Ep & (Hlen & Hg)).
  eexists. split; [exact Ep|].
  intros i j Hi Hj.
  specialize (Hg i j Hi Hj).
  destruct (grid_after lm cfg input output _ i j) as [(a & b)|].
  - destruct Hg as (Ha & Hb & Ht & Hcell).
    pose proof (in_cell lm cfg input output xoff Hc Hwf Hin Hfit a b Ha Hb) as Er.
    eexists. split; [rewrite <- Hcell; exact Er|].
    right. exists a, b. auto.
  - eexists. split; [exact Hg|]. left. reflexivity.
Qed.

(** The hypotheses of C1 hold of [cloud_1x4] under the default
    configuration. *)
Lemma output_cells_witness :
  config_typed default_projection /\ well_formed cloud_1x4 0 /\
  input_checks cloud_1x4 = true /\
  output_size default_projection cloud_1x4 < 2 ^ 31 /\
  exists out,
    process axis_libm default_projection cloud_1x4 blank = Returned out /\
    forall i j, 0 <= i < height out -> 0 <= j < width out ->
      exists r,
        cell out i j = Some r /\
        (r = zeros (point_step out) \/
         exists a b,
           0 <= a < height cloud_1x4 /\ 0 <= b < width cloud_1x4 /\
           cell cloud_1x4 a b = Some r /\
           target axis_libm default_projection cloud_1x4 blank a b
           = Some (i, j)).
Proof.
  assert (H1 : config_typed default_projection) by evaluate.
  assert (H2 : well_formed cloud_1x4 0) by evaluate.
  assert (H3 : input_checks cloud_1x4 = true) by evaluate.
  assert (H4 : output_size default_projection cloud_1x4 < 2 ^ 31) by evaluate.
  repeat (split; [assumption|]).
  exact (output_cells axis_libm default_projection cloud_1x4 blank 0
                      H1 H2 H3 H4).
Defined.

(** C1 as stated fails once the output size reaches [2^32]. With 178956971
    columns of 24 bytes a row has [2^32 + 8] bytes and [row_step] is 8: the
    records of the points of rows 0 and 1 are copied to bytes 0 and 8, and
    cell [(0, 0)] ends as 8 bytes of the first followed by 16 of the second,
    which is neither zero nor the record of an input point. *)
Lemma mixed_cell_on_overflow :
  config_typed cfg_rows_of_8 /\ well_formed cloud_4x1 0 /\
  input_checks cloud_4x1 = true /\
  output_size cfg_rows_of_8 cloud_4x1 = 4 * (2 ^ 32 + 8) /\
  exists out r,
    process axis_libm cfg_rows_of_8 cloud_4x1 blank = Returned out /\
    0 < height out /\ 0 < width out /\
    cell out 0 0 = Some r /\
    r <> zeros (point_step out) /\
    forall a b, 0 <= a < height cloud_4x1 -> 0 <= b < width cloud_4x1 ->
                cell cloud_4x1 a b <> Some r.
Proof.
  evaluate.
  exists (returned (process axis_libm cfg_rows_of_8 cloud_4x1 blank)).
  exists (le_bytes 8 bits_1 ++ le_bytes 8 bits_2 ++ le_bytes 8 bits_0).
  evaluate.
  intros a b Ha Hb.
  change (height cloud_4x1) with 4 in Ha. change (width cloud_4x1) with 1 in Hb.
  assert (Eb : b = 0) by lia.
  assert (Ea : a = 0 \/ a = 1 \/ a = 2 \/ a = 3) by lia.
  subst b. destruct Ea as [->|[->|[->| ->]]]; vm_compute; discriminate.
Qed.

(** *** C2 *)



(** *** C3 *)

(** C3, as amended. Under the hypotheses of C1 (output size below [2^31]):
    with [KEEP_FIRST] an output cell holds the record of the first point of
    the row-major scan that projects to it, whatever the ranges; with
    [KEEP_LAST] it holds the record of the last one. *)
Theorem first_last_wins (lm : Libm float) (cfg : Projection)
    (input output : PointCloud2) (xoff : Z) :
  config_typed cfg -> well_formed input xoff -> input_checks input = true ->
  output_size cfg input < 2 ^ 31 ->
  exists out,
    process lm cfg input output = Returned out /\
    forall a b i j,
      0 <= a < height input -> 0 <= b < width input ->
      target lm cfg input output a b = Some (i, j) ->
      (keep_ cfg = KEEP_FIRST ->
       (forall a' b', 0 <= a' < height input -> 0 <= b' < width input ->
          scan_index input a' b' < scan_index input a b ->
          target lm cfg input output a' b' <> Some (i, j)) ->
       exists r, cell input a b = Some r /\ cell out i j = Some r) /\
      (keep_ cfg = KEEP_LAST ->
       (forall a' b', 0 <= a' < height input -> 0 <= b' < width input ->
          scan_index input a b < scan_index input a' b' ->
          target lm cfg input output a' b' <> Some (i, j)) ->
       exists r, cell input a b = Some r /\ cell out i j = Some r).
Proof.
  intros Hc Hwf Hin Hint.
  assert (Hfit : output_size cfg input < 2 ^ 32) by lia.
  destruct (process_holds lm cfg input output xoff Hc Hwf Hin Hint)
    as (d & Ep & (Hlen & Hg)).
  eexists. split; [exact Ep|].
  intros a b i j Ha Hb Ht.
  destruct (target_in_image lm cfg input output xoff a b i j Hc Hwf Hin Hfit Ha Ht)
    as (Hi & Hj).
  specialize (Hg i j Hi Hj).
  pose proof (input_checks_true _ Hin) as (_ & Hw1 & _).
  destruct (scan_point (height input) (width input) a b Ha Hb) as (Er & Ec & Hn).
  remember (Z.to_nat (a * width input + b)) as n eqn:En.
  pose proof (in_cell lm cfg input output xoff Hc Hwf Hin Hfit a b Ha Hb) as Ecell.
  assert (Hwin :
    grid_after lm cfg input output (Z.to_nat (height input * width input)) i j
    = Some (a, b) ->
    exists r, cell input a b = Some r /\
              cell (set_data (init_output cfg input output) d) i j = Some r).
  { intros Eg. rewrite Eg in Hg. destruct Hg as (_ & _ & _ & Hcell).
    eexists. split; [exact Ecell|]. rewrite <- Hcell. exact Ecell. }
  split; intros Hk Hothers; apply Hwin.
  - rewrite <- Er, <- Ec.
    apply grid_after_first; try assumption.
    + now rewrite Er, Ec.
    + intros m Hm.
      destruct (scan_unpoint (height input) (width input) m Hw1 ltac:(lia))
        as (Hr & Hcm & Hidx).
      apply Hothers; try assumption.
      unfold scan_index. rewrite Hidx.
      pose proof (index_bounds _ _ a b Ha Hb). lia.
  - rewrite <- Er, <- Ec.
    apply grid_after_last; try assumption.
    + now rewrite Er, Ec.
    + intros m Hm.
      destruct (scan_unpoint (height input) (width input) m Hw1 ltac:(lia))
        as (Hr & Hcm & Hidx).
      apply Hothers; try assumption.
      unfold scan_index. rewrite Hidx.
      pose proof (index_bounds _ _ a b Ha Hb). lia.
Qed.

(** The hypotheses of C3 hold of [cloud_1x4] and an image of one column,
    where all four points collide. *)
Lemma first_last_wins_witness :
  config_typed cfg_first /\ well_formed cloud_1x4 0 /\
  input_checks cloud_1x4 = true /\ output_size cfg_first cloud_1x4 < 2 ^ 31 /\
  exists out,
    process axis_libm cfg_first cloud_1x4 blank = Returned out /\
    forall a b i j,
      0 <= a < height cloud_1x4 -> 0 <= b < width cloud_1x4 ->
      target axis_libm cfg_first cloud_1x4 blank a b = Some (i, j) ->
      (keep_ cfg_first = KEEP_FIRST ->
       (forall a' b', 0 <= a' < height cloud_1x4 -> 0 <= b' < width cloud_1x4 ->
          scan_index cloud_1x4 a' b' < scan_index cloud_1x4 a b ->
          target axis_libm cfg_first cloud_1x4 blank a' b' <> Some (i, j)) ->
       exists r, cell cloud_1x4 a b = Some r /\ cell out i j = Some r) /\
      (keep_ cfg_first = KEEP_LAST ->
       (forall a' b', 0 <= a' < height cloud_1x4 -> 0 <= b' < width cloud_1x4 ->
          scan_index cloud_1x4 a b < scan_index cloud_1x4 a' b' ->
          target axis_libm cfg_first cloud_1x4 blank a' b' <> Some (i, j)) ->
       exists r, cell cloud_1x4 a b = Some r /\ cell out i j = Some r).
Proof.
  assert (H1 : config_typed cfg_first) by evaluate.
  assert (H2 : well_formed cloud_1x4 0) by evaluate.
  assert (H3 : input_checks cloud_1x4 = true) by evaluate.
  assert (H4 : output_size cfg_first cloud_1x4 < 2 ^ 31) by evaluate.
  repeat (split; [assumption|]).
  exact (first_last_wins axis_libm cfg_first cloud_1x4 blank 0 H1 H2 H3 H4).
Defined.

(** C3 as stated fails once the output size reaches [2^32]. With
    [2^27 + 1] columns of 32 bytes [row_step] is 32, so cells [(0, 1)] and
    [(1, 0)] are the same bytes: the two points of row 0 project to
    [(0, 1)], and under [KEEP_LAST] that cell ends with the record of the
    point of row 1, which projects to [(1, 0)]. *)
Lemma last_loses_on_overflow :
  config_typed cfg_rows_of_32 /\ well_formed cloud_2x2 0 /\
  input_checks cloud_2x2 = true /\ keep_ cfg_rows_of_32 = KEEP_LAST /\
  output_size cfg_rows_of_32 cloud_2x2 = 2 * (2 ^ 32 + 32) /\
  target axis_libm cfg_rows_of_32 cloud_2x2 blank 0 0 = Some (0, 1) /\
  target axis_libm cfg_rows_of_32 cloud_2x2 blank 0 1 = Some (0, 1) /\
  target axis_libm cfg_rows_of_32 cloud_2x2 blank 1 0 = Some (1, 0) /\
  target axis_libm cfg_rows_of_32 cloud_2x2 blank 1 1 = None /\
  exists out,
    process axis_libm cfg_rows_of_32 cloud_2x2 blank = Returned out /\
    cell out 0 1 <> cell cloud_2x2 0 1 /\
    cell out 0 1 = cell cloud_2x2 1 0.
Proof.
  evaluate.
  exists (returned (process axis_libm cfg_rows_of_32 cloud_2x2 blank)).
  evaluate.
Qed.

(** *** C4 *)

(** C4, at a negative configured height. The claim takes the configured
    height as the resolved one, and a resolved height below 1 is refused by
    the assertion of line 57. The code evaluates that assertion on the
    [uint32] that the [int] was converted to, where it cannot fail: a
    configured height of [-2^31 + 1] passes it and the call returns an image
    that declares [2^31 + 1] rows (and holds 32 bytes, the 32-bit size);
    [-1] resolves to [2^32 - 1]. *)
Lemma negative_height_wraps :
  config_typed cfg_height_negative /\ well_formed cloud_1x1_empty 0 /\
  input_checks cloud_1x1_empty = true /\
  height_ cfg_height_negative = - 2 ^ 31 + 1 /\
  (exists out,
     process axis_libm cfg_height_negative cloud_1x1_empty blank
     = Returned out /\
     height out = 2 ^ 31 + 1 /\ height out <> height_ cfg_height_negative /\
     len (data out) = 32) /\
  resolved_height cfg_height_m1 cloud_1x1 = 2 ^ 32 - 1.
Proof.
  evaluate.
  exists (returned (process axis_libm cfg_height_negative cloud_1x1_empty
                            blank)).
  evaluate.
Qed.

(** *** C5 *)

(** C5. [f_azimuth] is the configured azimuth scale when that is finite and
    not zero, and [-T(width) / (2 * M_PI)] otherwise; [f_elevation]
    likewise with [-T(height) / (M_PI / 2)]; [c_azimuth] is the configured
    azimuth offset when that is finite, zero included, and
    [T(width) / 2 - 0.5] otherwise; [c_elevation] likewise with
    [T(height) / 2 - 0.5]. The same four constants map every point of a
    call. *)
Theorem mapping_constants (cfg : Projection) (w h : Z) :
  (is_finite_value (f_azimuth_ cfg) /\ ~ is_zero_value (f_azimuth_ cfg) ->
   f_azimuth cfg w = f_azimuth_ cfg) /\
  (~ (is_finite_value (f_azimuth_ cfg) /\ ~ is_zero_value (f_azimuth_ cfg)) ->
   f_azimuth cfg w = (- double_of_u32 w / (2 * M_PI))%float) /\
  (is_finite_value (f_elevation_ cfg) /\ ~ is_zero_value (f_elevation_ cfg) ->
   f_elevation cfg h = f_elevation_ cfg) /\
  (~ (is_finite_value (f_elevation_ cfg)
      /\ ~ is_zero_value (f_elevation_ cfg)) ->
   f_elevation cfg h = (- double_of_u32 h / (M_PI / 2))%float) /\
  (is_finite_value (c_azimuth_ cfg) -> c_azimuth cfg w = c_azimuth_ cfg) /\
  (~ is_finite_value (c_azimuth_ cfg) ->
   c_azimuth cfg w = (double_of_u32 w / 2 - 0.5)%float) /\
  (is_finite_value (c_elevation_ cfg) ->
   c_elevation cfg h = c_elevation_ cfg) /\
  (~ is_finite_value (c_elevation_ cfg) ->
   c_elevation cfg h = (double_of_u32 h / 2 - 0.5)%float) /\
  (forall (lm : Libm float) (o : PointCloud2) (x y z : float),
     column_u lm cfg o (x, y, z)
     = (f_azimuth cfg (width o) * atan2 lm y x
        + c_azimuth cfg (width o) + 0.5)%float /\
     row_v lm cfg o (x, y, z)
     = (f_elevation cfg (height o) * atan2 lm z (hypot lm x y)
        + c_elevation cfg (height o) + 0.5)%float).
Proof.
  assert (Hs : forall f, isfinite f && fne f 0 = true <->
                         is_finite_value f /\ ~ is_zero_value f).
  { intros f. rewrite andb_true_iff, isfinite_spec, <- fne_zero_spec.
    destruct (fne f 0); intuition congruence. }
  assert (Hn : forall (b : bool) (P : Prop), (b = true <-> P) -> ~ P -> b = false).
  { intros b P Hb HP. destruct b; [|reflexivity]. exfalso. apply HP, Hb. reflexivity. }
  unfold f_azimuth, f_elevation, c_azimuth, c_elevation.
  repeat split.
  - intros Hf. apply Hs in Hf. now rewrite Hf.
  - intros Hf. now rewrite (Hn _ _ (Hs _) Hf).
  - intros Hf. apply Hs in Hf. now rewrite Hf.
  - intros Hf. now rewrite (Hn _ _ (Hs _) Hf).
  - intros Hf. apply isfinite_spec in Hf. now rewrite Hf.
  - intros Hf. now rewrite (Hn _ _ (isfinite_spec _) Hf).
  - intros Hf. apply isfinite_spec in Hf. now rewrite Hf.
  - intros Hf. now rewrite (Hn _ _ (isfinite_spec _) Hf).
Qed.

(** *** C6 *)



(** *** C7 *)

(** C7. [is_point_valid x y z] is true exactly when the three coordinates
    are finite (neither NaN nor infinite) and at least one of them is not
    a zero; [(0, 0, 0)] and every triple with a NaN or an infinity are
    invalid. *)
Theorem is_point_valid_spec (x y z : float) :
  (is_point_valid x y z = true <->
   (is_finite_value x /\ is_finite_value y /\ is_finite_value z) /\
   (~ is_zero_value x \/ ~ is_zero_value y \/ ~ is_zero_value z)) /\
  is_point_valid 0 0 0 = false /\
  (~ is_finite_value x \/ ~ is_finite_value y \/ ~ is_finite_value z ->
   is_point_valid x y z = false).
Proof.
  assert (Hz : forall f, fne f 0 = true <-> ~ is_zero_value f).
  { intros f. rewrite <- fne_zero_spec. destruct (fne f 0); intuition congruence. }
  assert (Hiff : is_point_valid x y z = true <->
    (is_finite_value x /\ is_finite_value y /\ is_finite_value z) /\
    (~ is_zero_value x \/ ~ is_zero_value y \/ ~ is_zero_value z)).
  { unfold is_point_valid.
    rewrite !andb_true_iff, !orb_true_iff, !isfinite_spec, !Hz. tauto. }
  split; [exact Hiff|]. split; [apply is_point_valid_zero|].
  intros Hnf. apply not_true_is_false. intros E.
  apply Hiff in E. tauto.
Qed.

(** *** C8 *)

(** C8, as amended. [elevation x y z] is [atan2 z (hypot x y)]. With a C
    library as [c_library] describes, its value is NaN (as when a
    coordinate is NaN) or lies in the closed range from [-M_PI/2] to
    [M_PI/2], and the lower end is reached: the elevation of the valid
    point [(0, 0, -1)] is [-M_PI/2], which is not above [-M_PI/2]. *)
Theorem elevation_range (lm : Libm float) (x y z : float) :
  c_library lm ->
  elevation lm x y z = atan2 lm z (hypot lm x y) /\
  nan_or_quarter_turn (elevation lm x y z) /\
  elevation lm 0%float 0%float (-1)%float = (- (M_PI / 2))%float /\
  is_point_valid 0 0 (-1) = true /\
  (- (M_PI / 2) <? elevation lm 0%float 0%float (-1)%float)%float = false.
Proof.
  intros (Hh & Ha & Hn & H0 & H1).
  assert (E : elevation lm 0%float 0%float (-1)%float = (- (M_PI / 2))%float).
  { unfold elevation. now rewrite H0, H1. }
  split; [reflexivity|]. split.
  - unfold elevation. destruct (Hh x y) as [En|Hp].
    + left. now apply Hn.
    + now apply Ha.
  - split; [exact E|]. split; [vm_compute; reflexivity|].
    rewrite E. vm_compute. reflexivity.
Qed.

(** [axis_libm] is such a library; the point [(1, 0, 0)]. *)
Lemma elevation_range_witness :
  c_library axis_libm /\
  nan_or_quarter_turn (elevation axis_libm 1%float 0%float 0%float) /\
  elevation axis_libm 0%float 0%float (-1)%float = (- (M_PI / 2))%float.
Proof.
  split; [exact axis_libm_c_library|].
  destruct (elevation_range axis_libm 1 0 0 axis_libm_c_library)
    as (_ & Hr & He & _).
  split; [exact Hr | exact He].
Defined.

(** C8 as stated fails at the valid point [(0, 0, -1)]: with the values
    C fixes for [hypot(0, 0)] and [atan2(-1, +0)] its elevation is the
    double [-M_PI/2], the lower end that the half-open range leaves out.
    And a triple with a NaN coordinate has a NaN elevation, which lies in
    no range. *)
Lemma elevation_reaches_lower_bound :
  c_library axis_libm /\
  is_point_valid 0 0 (-1) = true /\
  elevation axis_libm 0%float 0%float (-1)%float = (- (M_PI / 2))%float /\
  (- (M_PI / 2) <? elevation axis_libm 0%float 0%float (-1)%float)%float
  = false /\
  isnan (elevation axis_libm nan 0%float 0%float) = true.
Proof.
  split; [exact axis_libm_c_library|]. evaluate.
Qed.

(** *** C9 *)

(** C9, as amended. When one of the three assertions on the input fails the
    call aborts with the output message untouched, and an aborted call has
    always failed one of these three: once they hold, the assertions on the
    resolved height and width hold too. When they hold, the input cloud is
    well formed and the output size [height * width * point_step] is below
    [2^31], the call returns a complete output: the input's header, fields
    and flags, the resolved sizes, [row_step = width * point_step] and a
    buffer of [height * row_step] bytes. *)
Theorem process_all_or_nothing (lm : Libm float) (cfg : Projection)
    (input output : PointCloud2) :
  config_typed cfg -> cloud_typed input ->
  (input_checks input = false ->
   process lm cfg input output = Aborted output) /\
  (forall o, process lm cfg input output = Aborted o ->
             o = output /\ input_checks input = false) /\
  (input_checks input = true -> output_checks cfg input = true) /\
  (output_checks cfg input = false ->
   process lm cfg input output = Aborted output) /\
  (forall xoff,
     input_checks input = true -> well_formed input xoff ->
     output_size cfg input < 2 ^ 31 ->
     exists out, process lm cfg input output = Returned out /\
                 complete_output cfg input out).
Proof.
  intros Hc Ht.
  assert (Hab : forall o, process lm cfg input output = Aborted o ->
                          input_checks input = false).
  { intros o Ho. destruct (input_checks input) eqn:Hin; [|reflexivity].
    destruct (process_past_checks lm cfg input output Hc Ht Hin) as (_ & E).
    rewrite E in Ho.
    destruct (field_offset "x"%string (fields input)); [|discriminate].
    destruct ((len (data input) =? 0) || _); [discriminate|].
    destruct (scan _ _ _ _ _ _) as [(? & ?)|]; discriminate. }
  split; [apply process_checks_fail|].
  split.
  { intros o Ho. split; [|now apply (Hab o)].
    rewrite process_checks_fail in Ho by now apply (Hab o). congruence. }
  split; [intros Hin; now apply (process_past_checks lm cfg input output)|].
  split.
  { intros Hout. apply process_checks_fail.
    destruct (input_checks input) eqn:Hin; [|reflexivity].
    destruct (process_past_checks lm cfg input output Hc Ht Hin) as (E & _).
    congruence. }
  intros xoff Hin Hwf Hint.
  assert (Hfit : output_size cfg input < 2 ^ 32) by lia.
  destruct (process_holds lm cfg input output xoff Hc Hwf Hin Hint)
    as (d & Ep & (Hlen & _)).
  eexists. split; [exact Ep|].
  pose proof (geom_H lm cfg input output xoff Hc Hwf Hin Hfit) as (? & _).
  pose proof (geom_W lm cfg input output xoff Hc Hwf Hin Hfit) as (? & _).
  pose proof (out_row_step lm cfg input output xoff Hc Hwf Hin Hfit) as Hrow.
  apply set_data_complete; try reflexivity.
  - rewrite (out_height lm cfg input output xoff Hc Hwf Hin Hfit). assumption.
  - rewrite (out_width lm cfg input output xoff Hc Hwf Hin Hfit). assumption.
  - rewrite Hrow. reflexivity.
  - rewrite Hrow, Hlen.
    rewrite (out_height lm cfg input output xoff Hc Hwf Hin Hfit).
    rewrite (out_width lm cfg input output xoff Hc Hwf Hin Hfit).
    rewrite (out_point_step lm cfg input output xoff Hc Hwf Hin Hfit).
    lia.
Qed.

(** [cloud_1x4] under the default configuration. *)
Lemma process_all_or_nothing_witness :
  config_typed default_projection /\ cloud_typed cloud_1x4 /\
  exists out,
    process axis_libm default_projection cloud_1x4 blank = Returned out /\
    complete_output default_projection cloud_1x4 out.
Proof.
  assert (H1 : config_typed default_projection) by evaluate.
  assert (H2 : cloud_typed cloud_1x4) by evaluate.
  repeat (split; [assumption|]).
  apply (proj2 (proj2 (proj2 (proj2
           (process_all_or_nothing axis_libm default_projection cloud_1x4 blank
                                   H1 H2)))) 0); evaluate.
Defined.

(** C9 as stated fails from an output size of [2^31] on. With
    [2^26 + 1] columns of 32 bytes every assertion holds and the size,
    [2^31 + 32], fits 32 bits. The point [(1, 0, 0)] goes to the last
    column; [KEEP_FIRST] looks at that cell through the iterator, whose
    [int] product [2^26 * 32] is [-2^31], and reads [2^31] bytes before
    the buffer. The call neither succeeds nor leaves the output as it
    was. *)
Lemma process_undefined_on_int_overflow :
  config_typed cfg_first_at_edge /\ well_formed cloud_1x1 0 /\
  input_checks cloud_1x1 = true /\
  output_checks cfg_first_at_edge cloud_1x1 = true /\
  output_size cfg_first_at_edge cloud_1x1 = 2 ^ 31 + 32 /\
  project axis_libm cfg_first_at_edge
          (init_output cfg_first_at_edge cloud_1x1 blank) 0 (1, 0, 0)%float
  = Some (0, 2 ^ 26) /\
  x_out (init_output cfg_first_at_edge cloud_1x1 blank) 0 0 (2 ^ 26)
  = - 2 ^ 31 /\
  process axis_libm cfg_first_at_edge cloud_1x1 blank = Undefined.
Proof.
  assert (H1 : config_typed cfg_first_at_edge) by evaluate.
  assert (H2 : well_formed cloud_1x1 0) by evaluate.
  assert (H3 : input_checks cloud_1x1 = true) by evaluate.
  assert (Hp : project axis_libm cfg_first_at_edge
                 (init_output cfg_first_at_edge cloud_1x1 blank) 0
                 (1, 0, 0)%float = Some (0, 2 ^ 26))
    by (lazy; reflexivity).
  assert (Hx : x_out (init_output cfg_first_at_edge cloud_1x1 blank) 0 0
                     (2 ^ 26) = - 2 ^ 31)
    by (lazy; reflexivity).
  split; [exact H1|]. split; [exact H2|]. split; [exact H3|].
  split; [lazy; reflexivity|]. split; [lazy; reflexivity|].
  split; [exact Hp|]. split; [exact Hx|].
  destruct (process_past_checks axis_libm cfg_first_at_edge cloud_1x1 blank
              H1 (proj1 H2) H3) as (_ & ->).
  assert (Hf : field_offset "x"%string (fields cloud_1x1) = Some 0)
    by (vm_compute; reflexivity).
  rewrite Hf.
  destruct ((len (data cloud_1x1) =? 0) || _); [reflexivity|].
  assert (Hh : 1 <= height cloud_1x1) by (vm_compute; discriminate).
  assert (Hw : 1 <= width cloud_1x1) by (vm_compute; discriminate).
  assert (Hb : forall d,
             body axis_libm cfg_first_at_edge cloud_1x1
                  (init_output cfg_first_at_edge cloud_1x1 blank) 0 0 0 (0, d)
             = None).
  { intros d. unfold body.
    assert (Hr : read_xyz (data cloud_1x1) 0 = Some (1, 0, 0)%float)
      by (vm_compute; reflexivity).
    rewrite Hr, Hp.
    unfold keep_skip, first_closest_skip.
    change (keep_ cfg_first_at_edge =? KEEP_FIRST) with true.
    cbv iota. rewrite Hx.
    rewrite read_xyz_before by (vm_compute; reflexivity).
    reflexivity. }
  rewrite (scan_first_none _ _ _ _ _ _ Hh Hw (Hb _)). reflexivity.
Qed.

(** A message without a field [x] passes every assertion; the iterator's
    exception then leaves an output that is initialised and holds no
    point. *)
Lemma process_throws_without_x :
  input_checks cloud_without_x = true /\
  process axis_libm default_projection cloud_without_x blank
  = Thrown (init_output default_projection cloud_without_x blank) /\
  init_output default_projection cloud_without_x blank <> blank.
Proof. evaluate. Qed.

(** *** C10 *)

(** C10, as amended. In azimuth-only mode the output has the input's height
    whatever height is configured; a point of input row [i_in] that is
    placed goes to row [i_out = i_in < output.height] and to a column below
    [output.width]; when the output size [height * width * point_step] is
    below [2^32], the copy of its record stays inside the output buffer;
    and when it is below [2^31] the call returns. *)
Theorem azimuth_only_in_bounds (lm : Libm float) (cfg : Projection)
    (input output : PointCloud2) (xoff : Z) :
  azimuth_only_ cfg = true ->
  config_typed cfg -> well_formed input xoff -> input_checks input = true ->
  output_size cfg input < 2 ^ 32 ->
  height (init_output cfg input output) = height input /\
  (forall i_in j_in p i_out j_out d,
     0 <= i_in < height input -> 0 <= j_in < width input ->
     project lm cfg (init_output cfg input output) i_in p
     = Some (i_out, j_out) ->
     len d = len (data (init_output cfg input output)) ->
     i_out = i_in /\
     0 <= i_out < height (init_output cfg input output) /\
     0 <= j_out < width (init_output cfg input output) /\
     exists d',
       copy_point input (init_output cfg input output) d i_in j_in i_out j_out
       = Some d' /\ len d' = len d) /\
  (output_size cfg input < 2 ^ 31 ->
   exists out, process lm cfg input output = Returned out).
Proof.
  intros Ha Hc Hwf Hin Hfit. split; [|split].
  - cbn. unfold resolved_height. now rewrite Ha.
  - intros i_in j_in p i_out j_out d Hi Hj Hp Hd.
    destruct (project_some lm cfg input output xoff Hc Hwf Hin Hfit
                           i_in p i_out j_out Hi Hp) as (Hio & Hjo & _ & Haz).
    repeat split; try (cbn; lia); [auto|].
    apply (copy_point_some lm cfg input output xoff Hc Hwf Hin Hfit);
      try assumption.
    rewrite Hd, (out_data lm cfg input output xoff Hc Hwf Hin Hfit).
    apply zeros_length.
    pose proof (geom_H lm cfg input output xoff Hc Hwf Hin Hfit).
    pose proof (geom_W lm cfg input output xoff Hc Hwf Hin Hfit).
    pose proof (geom_PS lm cfg input output xoff Hc Hwf Hin Hfit).
    repeat apply Z.mul_nonneg_nonneg; lia.
  - intros Hint.
    destruct (process_holds lm cfg input output xoff Hc Hwf Hin Hint)
      as (d & Ep & _).
    eauto.
Qed.

(** Azimuth-only mode with a configured height of 9 on [cloud_1x4]. *)
Lemma azimuth_only_in_bounds_witness :
  azimuth_only_ cfg_azimuth_only = true /\
  config_typed cfg_azimuth_only /\ well_formed cloud_1x4 0 /\
  input_checks cloud_1x4 = true /\
  output_size cfg_azimuth_only cloud_1x4 < 2 ^ 32 /\
  output_size cfg_azimuth_only cloud_1x4 < 2 ^ 31 /\
  height (init_output cfg_azimuth_only cloud_1x4 blank) = height cloud_1x4 /\
  exists out, process axis_libm cfg_azimuth_only cloud_1x4 blank = Returned out.
Proof.
  assert (H0 : azimuth_only_ cfg_azimuth_only = true) by reflexivity.
  assert (H1 : config_typed cfg_azimuth_only) by evaluate.
  assert (H2 : well_formed cloud_1x4 0) by evaluate.
  assert (H3 : input_checks cloud_1x4 = true) by evaluate.
  assert (H4 : output_size cfg_azimuth_only cloud_1x4 < 2 ^ 32) by evaluate.
  assert (H5 : output_size cfg_azimuth_only cloud_1x4 < 2 ^ 31) by evaluate.
  split; [exact H0|]. split; [exact H1|]. split; [exact H2|].
  split; [exact H3|]. split; [exact H4|]. split; [exact H5|].
  destruct (azimuth_only_in_bounds axis_libm cfg_azimuth_only cloud_1x4 blank 0
                                   H0 H1 H2 H3 H4) as (Hh & _ & Hr).
  split; [exact Hh | exact (Hr H5)].
Defined.

(** C10 as stated fails once the output size reaches [2^32]: in
    azimuth-only mode with [2^27 + 1] columns of 32 bytes the buffer has
    32 bytes and the record of the point [(1, 0, 0)], which goes to column
    [2^26], is copied to byte [2^31]. *)
Lemma azimuth_only_out_of_bounds :
  azimuth_only_ cfg_wide_azimuth_only = true /\
  config_typed cfg_wide_azimuth_only /\ well_formed cloud_1x1 0 /\
  input_checks cloud_1x1 = true /\
  output_size cfg_wide_azimuth_only cloud_1x1 = 2 ^ 32 + 32 /\
  point_xyz cloud_1x1 0 0 = Some (1, 0, 0)%float /\
  project axis_libm cfg_wide_azimuth_only
          (init_output cfg_wide_azimuth_only cloud_1x1 blank) 0 (1, 0, 0)%float
  = Some (0, 2 ^ 26) /\
  len (data (init_output cfg_wide_azimuth_only cloud_1x1 blank)) = 32 /\
  dest (init_output cfg_wide_azimuth_only cloud_1x1 blank) 0 (2 ^ 26) = 2 ^ 31 /\
  copy_point cloud_1x1 (init_output cfg_wide_azimuth_only cloud_1x1 blank)
             (data (init_output cfg_wide_azimuth_only cloud_1x1 blank))
             0 0 0 (2 ^ 26) = None /\
  process axis_libm cfg_wide_azimuth_only cloud_1x1 blank = Undefined.
Proof. evaluate. Qed.

(** ** Scenarios of the specification, run on the embedding *)

(** One row of four points, output width 4, [KEEP_LAST]: every point lands
    in a column of its own. *)
Example scenario_end_to_end :
  exists out,
    process axis_libm default_projection cloud_1x4 blank = Returned out /\
    height out = 1 /\ width out = 4 /\
    cell out 0 2 = cell cloud_1x4 0 0 /\ cell out 0 1 = cell cloud_1x4 0 1 /\
    cell out 0 0 = cell cloud_1x4 0 2 /\ cell out 0 3 = cell cloud_1x4 0 3.
Proof.
  exists (returned (process axis_libm default_projection cloud_1x4 blank)).
  evaluate.
Qed.

(** Two points of one cell: [KEEP_CLOSEST] keeps the nearer and
    [KEEP_FARTHEST] the farther, in whichever order they come. *)
Example scenario_collision :
  cell (returned (process axis_libm cfg_closest cloud_near_far blank)) 0 0
  = cell cloud_near_far 0 0 /\
  cell (returned (process axis_libm cfg_closest cloud_far_near blank)) 0 0
  = cell cloud_near_far 0 0 /\
  cell (returned (process axis_libm cfg_farthest cloud_near_far blank)) 0 0
  = cell cloud_near_far 0 1 /\
  cell (returned (process axis_libm cfg_farthest cloud_far_near blank)) 0 0
  = cell cloud_near_far 0 1 /\
  cell cloud_near_far 0 0 <> cell cloud_near_far 0 1.
Proof. evaluate. Qed.

(** A point whose elevation falls outside the image is dropped in full
    mode and kept, in the row of its input, in azimuth-only mode. *)
Example scenario_azimuth_only :
  target axis_libm default_projection cloud_zenith blank 0 0 = None /\
  target axis_libm cfg_azimuth_only cloud_zenith blank 0 0 = Some (0, 0) /\
  cell (returned (process axis_libm cfg_azimuth_only cloud_zenith blank)) 0 0
  = cell cloud_zenith 0 0.
Proof. evaluate. Qed.

(** * Further properties of the code *)

(** ** The order of doubles *)

Lemma SFcompare_key (a b : spec_float) :
  a <> S754_nan -> b <> S754_nan ->
  exists c, SFcompare a b = Some c /\
    (c = Lt <-> key_lt (order_key a) (order_key b)) /\
    (c = Gt <-> key_lt (order_key b) (order_key a)) /\
    (c = Eq <-> order_key a = order_key b).
Proof.
  intros Ha Hb.
  destruct a as [sa|sa| |sa ma ea], b as [sb|sb| |sb mb eb];
    try congruence; cbn [SFcompare order_key key_lt].
  all: try (destruct sa); try (destruct sb).
  all: try change (PosDef.Pos.compare_cont Eq ma mb) with (Pos.compare ma mb).
  all: try (destruct (Z.compare_spec ea eb); destruct (Pos.compare_spec ma mb);
            cbn [CompOpp]).
  all: key_cases.
Qed.

Lemma isnan_false (u : float) : isnan u = false -> Prim2SF u <> S754_nan.
Proof. intros E N. apply isnan_spec in N. congruence. Qed.

Lemma SFcompare_some (a b : spec_float) (c : comparison) :
  SFcompare a b = Some c -> a <> S754_nan /\ b <> S754_nan.
Proof.
  destruct a as [sa|sa| |sa ma ea], b as [sb|sb| |sb mb eb];
    cbn [SFcompare]; try discriminate; intros _; split; discriminate.
Qed.

Lemma ltb_key (a b : float) :
  (a <? b)%float = true <->
  isnan a = false /\ isnan b = false /\
  key_lt (order_key (Prim2SF a)) (order_key (Prim2SF b)).
Proof.
  rewrite FloatAxioms.ltb_spec. unfold SFltb. split.
  - destruct (SFcompare (Prim2SF a) (Prim2SF b)) as [c|] eqn:E; [|discriminate].
    destruct (SFcompare_some _ _ _ E) as (Na & Nb).
    destruct (SFcompare_key _ _ Na Nb) as (c' & E' & Hlt & _).
    rewrite E in E'. injection E' as <-.
    intros Hc. repeat split.
    + destruct (isnan a) eqn:I; [|reflexivity]. apply isnan_spec in I. congruence.
    + destruct (isnan b) eqn:I; [|reflexivity]. apply isnan_spec in I. congruence.
    + apply Hlt. destruct c; congruence.
  - intros (Na & Nb & K). apply isnan_false in Na, Nb.
    destruct (SFcompare_key _ _ Na Nb) as (c & -> & Hlt & _).
    apply Hlt in K. now subst c.
Qed.

Lemma leb_key (a b : float) :
  (a <=? b)%float = true <->
  isnan a = false /\ isnan b = false /\
  ~ key_lt (order_key (Prim2SF b)) (order_key (Prim2SF a)).
Proof.
  rewrite FloatAxioms.leb_spec. unfold SFleb. split.
  - destruct (SFcompare (Prim2SF a) (Prim2SF b)) as [c|] eqn:E; [|discriminate].
    destruct (SFcompare_some _ _ _ E) as (Na & Nb).
    destruct (SFcompare_key _ _ Na Nb) as (c' & E' & _ & Hgt & _).
    rewrite E in E'. injection E' as <-.
    intros Hc. repeat split.
    + destruct (isnan a) eqn:I; [|reflexivity]. apply isnan_spec in I. congruence.
    + destruct (isnan b) eqn:I; [|reflexivity]. apply isnan_spec in I. congruence.
    + intros K. apply Hgt in K. subst c. discriminate.
  - intros (Na & Nb & K). apply isnan_false in Na, Nb.
    destruct (SFcompare_key _ _ Na Nb) as (c & -> & _ & Hgt & _).
    destruct c; try reflexivity. exfalso. apply K, Hgt. reflexivity.
Qed.

(** The order of doubles that are not NaN is total and transitive. *)
Lemma float_le_total (a b : float) :
  isnan a = false -> isnan b = false ->
  (a <=? b)%float = false -> (b <? a)%float = true.
Proof.
  intros Na Nb E. apply ltb_key. repeat split; try assumption.
  assert (K : ~ ~ key_lt (order_key (Prim2SF b)) (order_key (Prim2SF a))).
  { intros K. assert (T : (a <=? b)%float = true) by (apply leb_key; auto).
    congruence. }
  key_order.
Qed.

Lemma float_lt_le_trans (a b c : float) :
  (a <? b)%float = true -> (b <=? c)%float = true -> (a <? c)%float = true.
Proof.
  rewrite !ltb_key, leb_key. intros (? & ? & ?) (? & ? & ?).
  repeat split; try assumption. key_order.
Qed.

Lemma float_le_lt_trans (a b c : float) :
  (a <=? b)%float = true -> (b <? c)%float = true -> (a <? c)%float = true.
Proof.
  rewrite !ltb_key, leb_key. intros (? & ? & ?) (? & ? & ?).
  repeat split; try assumption. key_order.
Qed.

Lemma float_le_trans (a b c : float) :
  (a <=? b)%float = true -> (b <=? c)%float = true -> (a <=? c)%float = true.
Proof.
  rewrite !leb_key. intros (? & ? & ?) (? & ? & ?).
  repeat split; try assumption. key_order.
Qed.

Lemma float_lt_le (a b : float) :
  (a <? b)%float = true -> (a <=? b)%float = true.
Proof.
  rewrite ltb_key, leb_key. intros (? & ? & ?).
  repeat split; try assumption. key_order.
Qed.

(** ** The closest and the farthest point of a cell *)

Lemma held_skip_empty (lm : Libm float) (cfg : Projection) (p : xyz) :
  held_skip lm cfg (0, 0, 0)%float p = false.
Proof.
  unfold held_skip. rewrite is_point_valid_zero. cbn [andb].
  destruct (keep_ cfg =? KEEP_FIRST), (keep_ cfg =? KEEP_CLOSEST),
    (keep_ cfg =? KEEP_FARTHEST); reflexivity.
Qed.

Section Extremum.
Variables (lm : Libm float) (cfg : Projection) (input output : PointCloud2).
Variables (pol spol : float -> float -> bool).
Variables (i j : Z) (K : nat).

Local Abbreviation tg := (target lm cfg input output).
Local Abbreviation after := (grid_after lm cfg input output).
Local Abbreviation row n := (Z.of_nat n / width input).
Local Abbreviation col n := (Z.of_nat n mod width input).

Hypothesis Hskip : forall x y z p,
  is_point_valid x y z = true ->
  held_skip lm cfg (x, y, z) p = pol (range lm (x, y, z)) (range lm p).
Hypothesis pol_total : forall a b,
  isnan a = false -> isnan b = false -> pol a b = false -> spol b a = true.
Hypothesis spol_pol_trans : forall a b c,
  spol a b = true -> pol b c = true -> spol a c = true.
Hypothesis spol_pol : forall a b, spol a b = true -> pol a b = true.
Hypothesis pol_refl : forall a, isnan a = false -> pol a a = true.
Hypothesis Hnan : forall n p,
  (n < K)%nat -> tg (row n) (col n) = Some (i, j) ->
  point_xyz input (row n) (col n) = Some p -> isnan (range lm p) = false.

#[local] Set Default Proof Using "All".

Lemma extremum_inv (k : nat) :
  (k <= K)%nat ->
  (after k i j = None /\
   forall n, (n < k)%nat -> tg (row n) (col n) <> Some (i, j)) \/
  exists m pm,
    (m < k)%nat /\ after k i j = Some (row m, col m) /\
    tg (row m) (col m) = Some (i, j) /\
    point_xyz input (row m) (col m) = Some pm /\
    forall n pn,
      (n < k)%nat -> tg (row n) (col n) = Some (i, j) ->
      point_xyz input (row n) (col n) = Some pn ->
      pol (range lm pm) (range lm pn) = true /\
      ((n < m)%nat -> spol (range lm pm) (range lm pn) = true).
Proof.
  induction k as [|k IH]; intros Hk.
  { left. split; [reflexivity | intros n Hn; lia]. }
  specialize (IH ltac:(lia)). cbn [grid_after].
  assert (Dec : {tg (row k) (col k) = Some (i, j)}
                + {tg (row k) (col k) <> Some (i, j)})
    by (repeat decide equality).
  destruct Dec as [E|N].
  - destruct (target_point _ _ _ _ _ _ _ _ E) as (x & y & z & Ep & Ev).
    rewrite (grid_step_same _ _ _ _ _ _ _ _ _ _ E Ep).
    pose proof (Hnan k _ ltac:(lia) E Ep) as Nk.
    destruct IH as [(En & Hnone)|(m & pm & Hm & Em & Etm & Epm & Hall)].
    + unfold held_xyz. rewrite En, held_skip_empty.
      right. exists k, (x, y, z).
      split; [lia|]. split; [reflexivity|]. split; [exact E|].
      split; [exact Ep|].
      intros n pn Hn Htn Epn.
      assert (n = k).
      { destruct (Nat.eq_dec n k); [assumption|].
        exfalso. apply (Hnone n); [lia | assumption]. }
      subst n. rewrite Ep in Epn. injection Epn as <-.
      split; [now apply pol_refl | lia].
    + destruct (target_point _ _ _ _ _ _ _ _ Etm) as (x' & y' & z' & Epm' & Ev').
      rewrite Epm in Epm'. injection Epm' as ->.
      unfold held_xyz. rewrite Em, Epm, (Hskip _ _ _ _ Ev').
      pose proof (Hnan m _ ltac:(lia) Etm Epm) as Nm.
      destruct (pol (range lm (x', y', z')) (range lm (x, y, z))) eqn:Epol.
      * right. exists m, (x', y', z').
        split; [lia|]. split; [reflexivity|]. split; [exact Etm|].
        split; [exact Epm|].
        intros n pn Hn Htn Epn.
        destruct (Nat.eq_dec n k) as [->|Hne].
        -- rewrite Ep in Epn. injection Epn as <-. split; [exact Epol | lia].
        -- apply (Hall n pn); [lia | assumption | assumption].
      * apply pol_total in Epol; try assumption.
        right. exists k, (x, y, z).
        split; [lia|]. split; [reflexivity|]. split; [exact E|].
        split; [exact Ep|].
        intros n pn Hn Htn Epn.
        destruct (Nat.eq_dec n k) as [->|Hne].
        -- rewrite Ep in Epn. injection Epn as <-.
           split; [now apply pol_refl | lia].
        -- assert (S : spol (range lm (x, y, z)) (range lm pn) = true).
           { apply (spol_pol_trans _ _ _ Epol).
             apply (Hall n pn); [lia | assumption | assumption]. }
           split; [now apply spol_pol | intros _; exact S].
  - rewrite grid_step_other by exact N.
    destruct IH as [(En & Hnone)|(m & pm & Hm & Em & Etm & Epm & Hall)].
    + left. split; [exact En|]. intros n Hn.
      destruct (Nat.eq_dec n k) as [->|Hne]; [exact N | apply Hnone; lia].
    + right. exists m, pm.
      split; [lia|]. split; [exact Em|]. split; [exact Etm|].
      split; [exact Epm|].
      intros n pn Hn Htn Epn.
      destruct (Nat.eq_dec n k) as [->|Hne]; [contradiction|].
      apply (Hall n pn); [lia | assumption | assumption].
Qed.
End Extremum.

Lemma extremum_wins (lm : Libm float) (cfg : Projection)
    (input output : PointCloud2) (xoff : Z)
    (pol spol : float -> float -> bool) :
  config_typed cfg -> well_formed input xoff -> input_checks input = true ->
  output_size cfg input < 2 ^ 31 ->
  (forall x y z p, is_point_valid x y z = true ->
     held_skip lm cfg (x, y, z) p = pol (range lm (x, y, z)) (range lm p)) ->
  (forall a b, isnan a = false -> isnan b = false ->
     pol a b = false -> spol b a = true) ->
  (forall a b c, spol a b = true -> pol b c = true -> spol a c = true) ->
  (forall a b, spol a b = true -> pol a b = true) ->
  (forall a, isnan a = false -> pol a a = true) ->
  (forall a b x y z, 0 <= a < height input -> 0 <= b < width input ->
     point_xyz input a b = Some (x, y, z) -> is_point_valid x y z = true ->
     isnan (range lm (x, y, z)) = false) ->
  exists out,
    process lm cfg input output = Returned out /\
    forall i j a b,
      0 <= a < height input -> 0 <= b < width input ->
      target lm cfg input output a b = Some (i, j) ->
      exists a' b' r q,
        0 <= a' < height input /\ 0 <= b' < width input /\
        target lm cfg input output a' b' = Some (i, j) /\
        cell input a' b' = Some r /\ cell out i j = Some r /\
        point_xyz input a' b' = Some q /\
        forall a2 b2 p,
          0 <= a2 < height input -> 0 <= b2 < width input ->
          target lm cfg input output a2 b2 = Some (i, j) ->
          point_xyz input a2 b2 = Some p ->
          pol (range lm q) (range lm p) = true /\
          (scan_index input a2 b2 < scan_index input a' b' ->
           spol (range lm q) (range lm p) = true).
Proof.
  intros Hc Hwf Hin Hint Hskip Htot Htrans Hsp Hrefl Hnan.
  assert (Hfit : output_size cfg input < 2 ^ 32) by lia.
  destruct (process_holds lm cfg input output xoff Hc Hwf Hin Hint)
    as (d & Ep & (Hlen & Hg)).
  eexists. split; [exact Ep|].
  intros i j a b Ha Hb Ht.
  destruct (target_in_image lm cfg input output xoff a b i j Hc Hwf Hin Hfit Ha Ht)
    as (Hi & Hj).
  specialize (Hg i j Hi Hj).
  pose proof (input_checks_true _ Hin) as (_ & Hw1 & _).
  set (K := Z.to_nat (height input * width input)) in *.
  assert (Hnan' : forall n p, (n < K)%nat ->
            target lm cfg input output (Z.of_nat n / width input)
                   (Z.of_nat n mod width input) = Some (i, j) ->
            point_xyz input (Z.of_nat n / width input)
                      (Z.of_nat n mod width input) = Some p ->
            isnan (range lm p) = false).
  { intros n p Hn Htn Epn.
    destruct (scan_unpoint (height input) (width input) n Hw1 Hn)
      as (Hr & Hcn & _).
    destruct (target_point _ _ _ _ _ _ _ _ Htn) as (x & y & z & Ep' & Ev).
    rewrite Epn in Ep'. injection Ep' as ->.
    now apply (Hnan _ _ x y z Hr Hcn). }
  destruct (extremum_inv lm cfg input output pol spol i j K
              Hskip Htot Htrans Hsp Hrefl Hnan' K (le_n K))
    as [(_ & Hnone)|(m & pm & Hm & Em & Etm & Epm & Hall)].
  - exfalso.
    destruct (scan_point (height input) (width input) a b Ha Hb) as (Er & Ec & Hn).
    apply (Hnone _ Hn). now rewrite Er, Ec.
  - destruct (scan_unpoint (height input) (width input) m Hw1 Hm)
      as (Hr & Hcm & Hidx).
    rewrite Em in Hg. destruct Hg as (_ & _ & _ & Hcell).
    pose proof (in_cell lm cfg input output xoff Hc Hwf Hin Hfit _ _ Hr Hcm) as Ecell.
    exists (Z.of_nat m / width input), (Z.of_nat m mod width input).
    eexists. exists pm.
    split; [exact Hr|]. split; [exact Hcm|]. split; [exact Etm|].
    split; [exact Ecell|]. split; [rewrite <- Hcell; exact Ecell|].
    split; [exact Epm|].
    intros a2 b2 p Ha2 Hb2 Ht2 Ep2.
    destruct (scan_point (height input) (width input) a2 b2 Ha2 Hb2)
      as (Er & Ec & Hn).
    remember (Z.to_nat (a2 * width input + b2)) as n eqn:En.
    rewrite <- Er, <- Ec in Ht2, Ep2.
    destruct (Hall n p Hn Ht2 Ep2) as (Hle & Hlt).
    split; [exact Hle|].
    intros Hs. apply Hlt. unfold scan_index in Hs. rewrite Hidx in Hs.
    pose proof (index_bounds _ _ a2 b2 Ha2 Hb2). lia.
Qed.

Lemma held_skip_closest (lm : Libm float) (cfg : Projection)
    (x y z : float) (p : xyz) :
  keep_ cfg = KEEP_CLOSEST -> is_point_valid x y z = true ->
  held_skip lm cfg (x, y, z) p = (range lm (x, y, z) <=? range lm p)%float.
Proof.
  intros E Ev. unfold held_skip. rewrite E, Ev. cbn. apply orb_false_r.
Qed.

Lemma held_skip_farthest (lm : Libm float) (cfg : Projection)
    (x y z : float) (p : xyz) :
  keep_ cfg = KEEP_FARTHEST -> is_point_valid x y z = true ->
  held_skip lm cfg (x, y, z) p = fge (range lm (x, y, z)) (range lm p).
Proof.
  intros E Ev. unfold held_skip. rewrite E, Ev. reflexivity.
Qed.

(** X2. The range of a point is [hypot (hypot x y) z]. Under
    [KEEP_CLOSEST], when no valid input point has a NaN range and the
    output size is below [2^31]: the cell a point projects to holds the
    record of a point [q] that projects to it, whose range is at most the
    range of every point that projects to the cell and strictly below the
    range of every such point that comes before [q] in the scan: the first
    of the closest. *)
Theorem closest_wins (lm : Libm float) (cfg : Projection)
    (input output : PointCloud2) (xoff : Z) :
  config_typed cfg -> well_formed input xoff -> input_checks input = true ->
  output_size cfg input < 2 ^ 31 ->
  keep_ cfg = KEEP_CLOSEST ->
  (forall a b x y z, 0 <= a < height input -> 0 <= b < width input ->
     point_xyz input a b = Some (x, y, z) -> is_point_valid x y z = true ->
     isnan (range lm (x, y, z)) = false) ->
  (forall x y z, range lm (x, y, z) = hypot lm (hypot lm x y) z) /\
  exists out,
    process lm cfg input output = Returned out /\
    forall i j a b,
      0 <= a < height input -> 0 <= b < width input ->
      target lm cfg input output a b = Some (i, j) ->
      exists a' b' r q,
        0 <= a' < height input /\ 0 <= b' < width input /\
        target lm cfg input output a' b' = Some (i, j) /\
        cell input a' b' = Some r /\ cell out i j = Some r /\
        point_xyz input a' b' = Some q /\
        forall a2 b2 p,
          0 <= a2 < height input -> 0 <= b2 < width input ->
          target lm cfg input output a2 b2 = Some (i, j) ->
          point_xyz input a2 b2 = Some p ->
          (range lm q <=? range lm p)%float = true /\
          (scan_index input a2 b2 < scan_index input a' b' ->
           (range lm q <? range lm p)%float = true).
Proof.
  intros Hc Hwf Hin Hfit Hk Hnan.
  split; [intros x y z; reflexivity|].
  apply (extremum_wins lm cfg input output xoff
           (fun a b => (a <=? b)%float) (fun a b => (a <? b)%float));
    try assumption.
  - intros x y z p Ev. now apply held_skip_closest.
  - intros a b Na Nb E. now apply float_le_total.
  - intros a b c. apply float_lt_le_trans.
  - intros a b. apply float_lt_le.
  - intros a Na. now apply (fge_refl a).
Qed.

Lemma closest_wins_witness :
  config_typed cfg_closest /\ well_formed cloud_far_near 0 /\
  input_checks cloud_far_near = true /\
  output_size cfg_closest cloud_far_near < 2 ^ 31 /\
  keep_ cfg_closest = KEEP_CLOSEST /\
  exists out,
    process axis_libm cfg_closest cloud_far_near blank = Returned out.
Proof.
  assert (H1 : config_typed cfg_closest) by evaluate.
  assert (H2 : well_formed cloud_far_near 0) by evaluate.
  assert (H3 : input_checks cloud_far_near = true) by evaluate.
  assert (H4 : output_size cfg_closest cloud_far_near < 2 ^ 31) by evaluate.
  assert (H5 : keep_ cfg_closest = KEEP_CLOSEST) by reflexivity.
  assert (H6 : forall a b x y z,
             0 <= a < height cloud_far_near -> 0 <= b < width cloud_far_near ->
             point_xyz cloud_far_near a b = Some (x, y, z) ->
             is_point_valid x y z = true ->
             isnan (range axis_libm (x, y, z)) = false).
  { intros a b x y z Ha Hb Ep _.
    change (height cloud_far_near) with 1 in Ha.
    change (width cloud_far_near) with 2 in Hb.
    assert (Ea : a = 0) by lia. assert (Eb : b = 0 \/ b = 1) by lia.
    subst a. destruct Eb as [-> | ->]; vm_compute in Ep;
      injection Ep as <- <- <-; vm_compute; reflexivity. }
  repeat (split; [assumption|]).
  destruct (closest_wins axis_libm cfg_closest cloud_far_near blank 0
                         H1 H2 H3 H4 H5 H6) as (_ & out & Hr & _).
  exists out. exact Hr.
Defined.

(** X3. Under [KEEP_FARTHEST], in the same conditions (ranges that are
    [hypot (hypot x y) z] and not NaN, output size below [2^31]), the cell
    holds the first of the farthest points that project to it. *)
Theorem farthest_wins (lm : Libm float) (cfg : Projection)
    (input output : PointCloud2) (xoff : Z) :
  config_typed cfg -> well_formed input xoff -> input_checks input = true ->
  output_size cfg input < 2 ^ 31 ->
  keep_ cfg = KEEP_FARTHEST ->
  (forall a b x y z, 0 <= a < height input -> 0 <= b < width input ->
     point_xyz input a b = Some (x, y, z) -> is_point_valid x y z = true ->
     isnan (range lm (x, y, z)) = false) ->
  (forall x y z, range lm (x, y, z) = hypot lm (hypot lm x y) z) /\
  exists out,
    process lm cfg input output = Returned out /\
    forall i j a b,
      0 <= a < height input -> 0 <= b < width input ->
      target lm cfg input output a b = Some (i, j) ->
      exists a' b' r q,
        0 <= a' < height input /\ 0 <= b' < width input /\
        target lm cfg input output a' b' = Some (i, j) /\
        cell input a' b' = Some r /\ cell out i j = Some r /\
        point_xyz input a' b' = Some q /\
        forall a2 b2 p,
          0 <= a2 < height input -> 0 <= b2 < width input ->
          target lm cfg input output a2 b2 = Some (i, j) ->
          point_xyz input a2 b2 = Some p ->
          (range lm p <=? range lm q)%float = true /\
          (scan_index input a2 b2 < scan_index input a' b' ->
           (range lm p <? range lm q)%float = true).
Proof.
  intros Hc Hwf Hin Hfit Hk Hnan.
  split; [intros x y z; reflexivity|].
  apply (extremum_wins lm cfg input output xoff
           (fun a b => (b <=? a)%float) (fun a b => (b <? a)%float));
    try assumption.
  - intros x y z p Ev. now apply held_skip_farthest.
  - intros a b Na Nb E. now apply float_le_total.
  - intros a b c Hab Hbc. now apply (float_le_lt_trans c b a).
  - intros a b. apply float_lt_le.
  - intros a Na. now apply (fge_refl a).
Qed.

Lemma farthest_wins_witness :
  config_typed cfg_farthest /\ well_formed cloud_near_far 0 /\
  input_checks cloud_near_far = true /\
  output_size cfg_farthest cloud_near_far < 2 ^ 31 /\
  keep_ cfg_farthest = KEEP_FARTHEST /\
  exists out,
    process axis_libm cfg_farthest cloud_near_far blank = Returned out.
Proof.
  assert (H1 : config_typed cfg_farthest) by evaluate.
  assert (H2 : well_formed cloud_near_far 0) by evaluate.
  assert (H3 : input_checks cloud_near_far = true) by evaluate.
  assert (H4 : output_size cfg_farthest cloud_near_far < 2 ^ 31) by evaluate.
  assert (H5 : keep_ cfg_farthest = KEEP_FARTHEST) by reflexivity.
  assert (H6 : forall a b x y z,
             0 <= a < height cloud_near_far -> 0 <= b < width cloud_near_far ->
             point_xyz cloud_near_far a b = Some (x, y, z) ->
             is_point_valid x y z = true ->
             isnan (range axis_libm (x, y, z)) = false).
  { intros a b x y z Ha Hb Ep _.
    change (height cloud_near_far) with 1 in Ha.
    change (width cloud_near_far) with 2 in Hb.
    assert (Ea : a = 0) by lia. assert (Eb : b = 0 \/ b = 1) by lia.
    subst a. destruct Eb as [-> | ->]; vm_compute in Ep;
      injection Ep as <- <- <-; vm_compute; reflexivity. }
  repeat (split; [assumption|]).
  destruct (farthest_wins axis_libm cfg_farthest cloud_near_far blank 0
                          H1 H2 H3 H4 H5 H6) as (_ & out & Hr & _).
  exists out. exact Hr.
Defined.

(** ** Occupied cells *)

(** A cell that a point of the scan projects to is never empty again. *)
Lemma grid_after_occupied (lm : Libm float) (cfg : Projection)
    (input output : PointCloud2) (k n : nat) (i j : Z) :
  (n < k)%nat ->
  target lm cfg input output (Z.of_nat n / width input)
         (Z.of_nat n mod width input) = Some (i, j) ->
  grid_after lm cfg input output k i j <> None.
Proof.
  intros Hlt Ht. induction k as [|k IH]; [lia|].
  cbn [grid_after].
  assert (Dec : {target lm cfg input output (Z.of_nat k / width input)
                        (Z.of_nat k mod width input) = Some (i, j)}
                + {target lm cfg input output (Z.of_nat k / width input)
                          (Z.of_nat k mod width input) <> Some (i, j)})
    by (repeat decide equality).
  destruct Dec as [E|N].
  - destruct (target_point _ _ _ _ _ _ _ _ E) as (x & y & z & Ep & _).
    rewrite (grid_step_same _ _ _ _ _ _ _ _ _ _ E Ep).
    destruct (held_skip lm cfg _ _) eqn:Es; [|discriminate].
    intros En. unfold held_xyz in Es. rewrite En in Es.
    rewrite held_skip_empty in Es. discriminate.
  - rewrite grid_step_other by exact N.
    apply IH. destruct (Nat.eq_dec n k) as [->|]; [contradiction | lia].
Qed.

(** The coordinates the iterator reads in a cell of the output are those
    of the point the grid records for the cell. *)
Lemma out_point_xyz (lm : Libm float) (cfg : Projection)
    (input output : PointCloud2) (xoff : Z) (g : grid) (d : bytes) (i j : Z) :
  config_typed cfg -> well_formed input xoff -> input_checks input = true ->
  output_size cfg input < 2 ^ 31 ->
  holds lm cfg input output g d ->
  0 <= i < resolved_height cfg input -> 0 <= j < resolved_width cfg input ->
  point_xyz (set_data (init_output cfg input output) d) i j
  = Some (held_xyz input g i j).
Proof.
  intros Hc Hwf Hin Hint Hh Hi Hj.
  assert (Hfit : output_size cfg input < 2 ^ 32) by lia.
  rewrite <- (holds_read lm cfg input output xoff Hc Hwf Hin Hfit Hint
                         g d i j Hh Hi Hj).
  rewrite (x_out_eq lm cfg input output xoff Hc Hwf Hin Hfit Hint i j Hi Hj).
  unfold point_xyz.
  change (fields (set_data (init_output cfg input output) d)) with (fields input).
  destruct Hwf as (_ & _ & _ & -> & _). reflexivity.
Qed.

(** X4. When the output size is below [2^31], a cell of the returned image
    reads as a valid point exactly when some input point projects to it: a
    cell no point projects to is zero bytes and reads [(0, 0, 0)], and a
    cell some point projects to reads valid coordinates, under every
    policy. *)
Theorem occupancy (lm : Libm float) (cfg : Projection)
    (input output : PointCloud2) (xoff : Z) :
  config_typed cfg -> well_formed input xoff -> input_checks input = true ->
  output_size cfg input < 2 ^ 31 ->
  exists out,
    process lm cfg input output = Returned out /\
    forall i j, 0 <= i < height out -> 0 <= j < width out ->
      ((forall a b, 0 <= a < height input -> 0 <= b < width input ->
          target lm cfg input output a b <> Some (i, j)) ->
       cell out i j = Some (zeros (point_step out)) /\
       point_xyz out i j = Some (0, 0, 0)%float) /\
      (forall a b, 0 <= a < height input -> 0 <= b < width input ->
         target lm cfg input output a b = Some (i, j) ->
         exists x y z, point_xyz out i j = Some (x, y, z) /\
                       is_point_valid x y z = true).
Proof.
  intros Hc Hwf Hin Hint.
  assert (Hfit : output_size cfg input < 2 ^ 32) by lia.
  destruct (process_holds lm cfg input output xoff Hc Hwf Hin Hint)
    as (d & Ep & Hh).
  eexists. split; [exact Ep|].
  intros i j Hi Hj.
  pose proof (out_point_xyz lm cfg input output xoff _ d i j Hc Hwf Hin Hint Hh Hi Hj)
    as Exyz.
  destruct Hh as (Hlen & Hg). specialize (Hg i j Hi Hj).
  pose proof (input_checks_true _ Hin) as (_ & Hw1 & _).
  split.
  - intros Hnone.
    assert (En : grid_after lm cfg input output
                   (Z.to_nat (height input * width input)) i j = None).
    { apply grid_after_none. intros n Hn.
      destruct (scan_unpoint (height input) (width input) n Hw1 Hn)
        as (Hr & Hcn & _).
      now apply Hnone. }
    rewrite En in Hg. split; [rewrite point_step_set_data; exact Hg|].
    rewrite Exyz. unfold held_xyz. now rewrite En.
  - intros a b Ha Hb Ht.
    destruct (scan_point (height input) (width input) a b Ha Hb) as (Er & Ec & Hn).
    remember (Z.to_nat (a * width input + b)) as n eqn:En.
    rewrite <- Er, <- Ec in Ht.
    pose proof (grid_after_occupied lm cfg input output _ _ i j Hn Ht) as Hocc.
    destruct (grid_after lm cfg input output _ i j) as [(a' & b')|] eqn:Eg;
      [|contradiction].
    destruct Hg as (Ha' & Hb' & Ht' & _).
    destruct (target_point _ _ _ _ _ _ _ _ Ht') as (x & y & z & Ep' & Ev).
    exists x, y, z. split; [|exact Ev].
    rewrite Exyz. unfold held_xyz. now rewrite Eg, Ep'.
Qed.

Lemma occupancy_witness :
  config_typed default_projection /\ well_formed cloud_1x4 0 /\
  input_checks cloud_1x4 = true /\
  output_size default_projection cloud_1x4 < 2 ^ 31 /\
  exists out,
    process axis_libm default_projection cloud_1x4 blank = Returned out.
Proof.
  assert (H1 : config_typed default_projection) by evaluate.
  assert (H2 : well_formed cloud_1x4 0) by evaluate.
  assert (H3 : input_checks cloud_1x4 = true) by evaluate.
  assert (H4 : output_size default_projection cloud_1x4 < 2 ^ 31) by evaluate.
  repeat (split; [assumption|]).
  destruct (occupancy axis_libm default_projection cloud_1x4 blank 0
                      H1 H2 H3 H4) as (out & Hr & _).
  exists out. exact Hr.
Defined.

(** X5. When the output size is below [2^31], a point that is alone in
    projecting to its cell is in the output, whatever the policy: without a
    collision no point is lost. *)
Theorem lone_point_kept (lm : Libm float) (cfg : Projection)
    (input output : PointCloud2) (xoff : Z) :
  config_typed cfg -> well_formed input xoff -> input_checks input = true ->
  output_size cfg input < 2 ^ 31 ->
  exists out,
    process lm cfg input output = Returned out /\
    forall a b i j,
      0 <= a < height input -> 0 <= b < width input ->
      target lm cfg input output a b = Some (i, j) ->
      (forall a' b', 0 <= a' < height input -> 0 <= b' < width input ->
         target lm cfg input output a' b' = Some (i, j) -> a' = a /\ b' = b) ->
      exists r, cell input a b = Some r /\ cell out i j = Some r.
Proof.
  intros Hc Hwf Hin Hint.
  assert (Hfit : output_size cfg input < 2 ^ 32) by lia.
  destruct (process_holds lm cfg input output xoff Hc Hwf Hin Hint)
    as (d & Ep & (Hlen & Hg)).
  eexists. split; [exact Ep|].
  intros a b i j Ha Hb Ht Hlone.
  destruct (target_in_image lm cfg input output xoff a b i j Hc Hwf Hin Hfit Ha Ht)
    as (Hi & Hj).
  specialize (Hg i j Hi Hj).
  destruct (scan_point (height input) (width input) a b Ha Hb) as (Er & Ec & Hn).
  remember (Z.to_nat (a * width input + b)) as n eqn:En.
  pose proof Ht as Ht0. rewrite <- Er, <- Ec in Ht0.
  pose proof (grid_after_occupied lm cfg input output _ _ i j Hn Ht0) as Hocc.
  destruct (grid_after lm cfg input output _ i j) as [(a' & b')|] eqn:Eg;
    [|contradiction].
  destruct Hg as (Ha' & Hb' & Ht' & Hcell).
  destruct (Hlone a' b' Ha' Hb' Ht') as (-> & ->).
  pose proof (in_cell lm cfg input output xoff Hc Hwf Hin Hfit a b Ha Hb) as Ecell.
  eexists. split; [exact Ecell|]. rewrite <- Hcell. exact Ecell.
Qed.

Lemma lone_point_kept_witness :
  config_typed default_projection /\ well_formed cloud_1x4 0 /\
  input_checks cloud_1x4 = true /\
  output_size default_projection cloud_1x4 < 2 ^ 31 /\
  exists out,
    process axis_libm default_projection cloud_1x4 blank = Returned out.
Proof.
  assert (H1 : config_typed default_projection) by evaluate.
  assert (H2 : well_formed cloud_1x4 0) by evaluate.
  assert (H3 : input_checks cloud_1x4 = true) by evaluate.
  assert (H4 : output_size default_projection cloud_1x4 < 2 ^ 31) by evaluate.
  repeat (split; [assumption|]).
  destruct (lone_point_kept axis_libm default_projection cloud_1x4 blank 0
                            H1 H2 H3 H4) as (out & Hr & _).
  exists out. exact Hr.
Defined.

(** X6. In azimuth-only mode, when the output size is below [2^31], every
    row of the output is made of points of the same row of the input: a
    cell of row [i] is zero bytes or the record of a point of input row
    [i]. *)
Theorem azimuth_only_keeps_rows (lm : Libm float) (cfg : Projection)
    (input output : PointCloud2) (xoff : Z) :
  azimuth_only_ cfg = true ->
  config_typed cfg -> well_formed input xoff -> input_checks input = true ->
  output_size cfg input < 2 ^ 31 ->
  exists out,
    process lm cfg input output = Returned out /\
    height out = height input /\
    forall i j, 0 <= i < height out -> 0 <= j < width out ->
      exists r,
        cell out i j = Some r /\
        (r = zeros (point_step out) \/
         exists b, 0 <= b < width input /\ cell input i b = Some r /\
                   target lm cfg input output i b = Some (i, j)).
Proof.
  intros Haz Hc Hwf Hin Hint.
  assert (Hfit : output_size cfg input < 2 ^ 32) by lia.
  destruct (process_holds lm cfg input output xoff Hc Hwf Hin Hint)
    as (d & Ep & (Hlen & Hg)).
  eexists. split; [exact Ep|].
  split; [cbn; unfold resolved_height; now rewrite Haz|].
  intros i j Hi Hj. specialize (Hg i j Hi Hj).
  destruct (grid_after lm cfg input output _ i j) as [(a & b)|].
  - destruct Hg as (Ha & Hb & Ht & Hcell).
    assert (a = i).
    { unfold target in Ht.
      destruct (point_xyz input a b) as [p|]; [|discriminate].
      destruct (project_some lm cfg input output xoff Hc Hwf Hin Hfit
                             a p i j Ha Ht) as (_ & _ & _ & Hrow).
      symmetry. now apply Hrow. }
    subst a.
    pose proof (in_cell lm cfg input output xoff Hc Hwf Hin Hfit i b Ha Hb) as Er.
    eexists. split; [rewrite <- Hcell; exact Er|].
    right. exists b. auto.
  - eexists. split; [exact Hg|]. now left.
Qed.

Lemma azimuth_only_keeps_rows_witness :
  azimuth_only_ cfg_azimuth_only = true /\
  config_typed cfg_azimuth_only /\ well_formed cloud_2x2 0 /\
  input_checks cloud_2x2 = true /\
  output_size cfg_azimuth_only cloud_2x2 < 2 ^ 31 /\
  exists out,
    process axis_libm cfg_azimuth_only cloud_2x2 blank = Returned out /\
    height out = height cloud_2x2.
Proof.
  assert (H0 : azimuth_only_ cfg_azimuth_only = true) by reflexivity.
  assert (H1 : config_typed cfg_azimuth_only) by evaluate.
  assert (H2 : well_formed cloud_2x2 0) by evaluate.
  assert (H3 : input_checks cloud_2x2 = true) by evaluate.
  assert (H4 : output_size cfg_azimuth_only cloud_2x2 < 2 ^ 31) by evaluate.
  repeat (split; [assumption|]).
  destruct (azimuth_only_keeps_rows axis_libm cfg_azimuth_only cloud_2x2 blank 0
              H0 H1 H2 H3 H4) as (out & Hr & Hh & _).
  exists out. split; assumption.
Defined.

(** ** What a call does not depend on *)

Lemma for_loop_ext {S : Type} (f g : Z -> S -> option S) (n : nat) (i0 : Z)
    (s : S) :
  (forall i t, f i t = g i t) -> for_loop n i0 f s = for_loop n i0 g s.
Proof.
  intros E. revert i0 s. induction n as [|n IH]; intros i0 s; [reflexivity|].
  cbn [for_loop]. rewrite E. destruct (g i0 s); [apply IH | reflexivity].
Qed.

(** Two configurations that resolve the same sizes and run the same round
    of the loop make the same call. *)
Lemma process_congruence (lm : Libm float) (cfg cfg' : Projection)
    (input output : PointCloud2) :
  resolved_height cfg input = resolved_height cfg' input ->
  resolved_width cfg input = resolved_width cfg' input ->
  (forall o xoff i j s,
     body lm cfg input o xoff i j s = body lm cfg' input o xoff i j s) ->
  process lm cfg input output = process lm cfg' input output.
Proof.
  intros Eh Ew Eb.
  assert (Ei : init_output cfg input output = init_output cfg' input output).
  { unfold init_output. now rewrite Eh, Ew. }
  assert (Es : forall o xoff s,
             scan lm cfg input o xoff s = scan lm cfg' input o xoff s).
  { intros o xoff s. unfold scan. apply for_loop_ext. intros i t.
    apply for_loop_ext. intros j t'. apply Eb. }
  unfold process. rewrite Eh, Ew, Ei.
  destruct (field_offset "x"%string (fields input)); [|reflexivity].
  now rewrite Es.
Qed.

(** X7. A value of [keep_] that is none of [KEEP_FIRST], [KEEP_CLOSEST] and
    [KEEP_FARTHEST] makes the call that [KEEP_LAST] makes. *)
Theorem other_keep_overwrites (lm : Libm float) (cfg : Projection)
    (input output : PointCloud2) :
  keep_ cfg <> KEEP_FIRST -> keep_ cfg <> KEEP_CLOSEST ->
  keep_ cfg <> KEEP_FARTHEST ->
  process lm cfg input output
  = process lm (mkProjection (height_ cfg) (width_ cfg) (f_azimuth_ cfg)
                  (f_elevation_ cfg) (c_azimuth_ cfg) (c_elevation_ cfg)
                  KEEP_LAST (azimuth_only_ cfg))
            input output.
Proof.
  intros H0 H2 H3. destruct cfg as [h w fa fe ca ce k ao].
  cbn [height_ width_ f_azimuth_ f_elevation_ c_azimuth_ c_elevation_ keep_
       azimuth_only_] in *.
  apply process_congruence; try reflexivity.
  intros o xoff i j (x_in & d). unfold body.
  destruct (read_xyz (data input) x_in) as [p|]; [|reflexivity].
  change (project lm (mkProjection h w fa fe ca ce KEEP_LAST ao) o i p)
    with (project lm (mkProjection h w fa fe ca ce k ao) o i p).
  destruct (project lm (mkProjection h w fa fe ca ce k ao) o i p)
    as [(i_out & j_out)|]; [|reflexivity].
  assert (E : forall c, keep_skip lm (mkProjection h w fa fe ca ce c ao)
                           o d xoff i_out j_out p = Some false \/
                        c = KEEP_FIRST \/ c = KEEP_CLOSEST \/ c = KEEP_FARTHEST).
  { intros c. unfold keep_skip, first_closest_skip, farthest_skip.
    cbn [keep_].
    destruct (Z.eqb_spec c KEEP_FIRST); [auto|].
    destruct (Z.eqb_spec c KEEP_CLOSEST); [auto|].
    destruct (Z.eqb_spec c KEEP_FARTHEST); auto. }
  destruct (E k) as [-> | [? | [? | ?]]]; try contradiction.
  destruct (E KEEP_LAST) as [-> | [? | [? | ?]]]; try discriminate.
  reflexivity.
Qed.

Lemma other_keep_overwrites_witness :
  7 <> KEEP_FIRST /\ 7 <> KEEP_CLOSEST /\ 7 <> KEEP_FARTHEST /\
  process axis_libm (mkProjection 0 1 nan nan nan nan 7 false) cloud_1x4 blank
  = process axis_libm (mkProjection 0 1 nan nan nan nan KEEP_LAST false)
            cloud_1x4 blank.
Proof.
  assert (H0 : 7 <> KEEP_FIRST) by discriminate.
  assert (H2 : 7 <> KEEP_CLOSEST) by discriminate.
  assert (H3 : 7 <> KEEP_FARTHEST) by discriminate.
  split; [exact H0|]. split; [exact H2|]. split; [exact H3|].
  exact (other_keep_overwrites axis_libm
           (mkProjection 0 1 nan nan nan nan 7 false) cloud_1x4 blank
           H0 H2 H3).
Defined.

(** X8. In azimuth-only mode the configured height and the elevation scale
    and offset have no effect on the call. *)
Theorem azimuth_only_ignores_elevation (lm : Libm float) (cfg : Projection)
    (input output : PointCloud2) (h' : Z) (fe' ce' : float) :
  azimuth_only_ cfg = true ->
  process lm cfg input output
  = process lm (mkProjection h' (width_ cfg) (f_azimuth_ cfg) fe'
                  (c_azimuth_ cfg) ce' (keep_ cfg) true)
            input output.
Proof.
  intros Ha. destruct cfg as [h w fa fe ca ce k ao].
  cbn [height_ width_ f_azimuth_ f_elevation_ c_azimuth_ c_elevation_ keep_
       azimuth_only_] in *.
  subst ao.
  apply process_congruence; reflexivity.
Qed.

Lemma azimuth_only_ignores_elevation_witness :
  azimuth_only_ cfg_azimuth_only = true /\
  process axis_libm cfg_azimuth_only cloud_zenith blank
  = process axis_libm (mkProjection 3 0 nan 1 nan 0 KEEP_LAST true)
            cloud_zenith blank.
Proof.
  assert (H0 : azimuth_only_ cfg_azimuth_only = true) by reflexivity.
  split; [assumption|].
  exact (azimuth_only_ignores_elevation axis_libm cfg_azimuth_only
           cloud_zenith blank 3 1%float 0%float H0).
Defined.

(** X9. Once the assertions on the input hold, nothing of what the output
    message held before the call is left in the result: two calls that
    differ only in the message passed for the output (an object other than
    the input) end the same. *)
Theorem stale_output_overwritten (lm : Libm float) (cfg : Projection)
    (input o1 o2 : PointCloud2) :
  config_typed cfg -> cloud_typed input -> input_checks input = true ->
  process lm cfg input o1 = process lm cfg input o2.
Proof.
  intros Hc Ht Hin.
  destruct (process_past_checks lm cfg input o1 Hc Ht Hin) as (_ & ->).
  destruct (process_past_checks lm cfg input o2 Hc Ht Hin) as (_ & ->).
  assert (E : init_output cfg input o1 = init_output cfg input o2).
  { destruct o1, o2. reflexivity. }
  now rewrite E.
Qed.

Lemma stale_output_overwritten_witness :
  config_typed cfg_first /\ cloud_typed cloud_1x4 /\
  input_checks cloud_1x4 = true /\
  process axis_libm cfg_first cloud_1x4 blank
  = process axis_libm cfg_first cloud_1x4 cloud_2x2.
Proof.
  assert (H1 : config_typed cfg_first) by evaluate.
  assert (H2 : cloud_typed cloud_1x4) by evaluate.
  assert (H3 : input_checks cloud_1x4 = true) by evaluate.
  split; [exact H1|]. split; [exact H2|]. split; [exact H3|].
  exact (stale_output_overwritten axis_libm cfg_first cloud_1x4 blank cloud_2x2
           H1 H2 H3).
Defined.

(** ** The row of a point *)

(** X1. The row of a valid point whose column is inside the image. In
    azimuth-only mode the elevation is not looked at: the point goes to the
    row of its input. Otherwise, with
    [v = f_elevation * elevation + c_elevation + 0.5], the point is
    dropped and the round writes nothing when [v] is NaN, [v < 0] or
    [v >= height], in particular when [v] equals [height]; and it is
    placed in row [floor v], which is below [height], when not. *)
Theorem row_test (lm : Libm float) (cfg : Projection)
    (input o : PointCloud2) (xoff i_in j_in x_in : Z) (d : bytes)
    (x y z : float) :
  is_point_valid x y z = true ->
  read_xyz (data input) x_in = Some (x, y, z) ->
  outside (column_u lm cfg o (x, y, z)) (width o) = false ->
  let u := column_u lm cfg o (x, y, z) in
  let v := row_v lm cfg o (x, y, z) in
  (azimuth_only_ cfg = true ->
   project lm cfg o i_in (x, y, z) = Some (i_in, floor_double u)) /\
  (azimuth_only_ cfg = false ->
   (outside v (height o) = true <->
    isnan v = true \/ (v <? 0)%float = true
    \/ fge v (double_of_u32 (height o)) = true) /\
   (outside v (height o) = true ->
    project lm cfg o i_in (x, y, z) = None /\
    body lm cfg input o xoff i_in j_in (x_in, d)
    = Some (x_in + to_int (point_step input), d)) /\
   (v = double_of_u32 (height o) ->
    project lm cfg o i_in (x, y, z) = None) /\
   (outside v (height o) = false ->
    project lm cfg o i_in (x, y, z)
    = Some (floor_double v, floor_double u) /\
    (1 <= height o < 2 ^ 32 -> 0 <= floor_double v < height o))).
Proof.
  intros Hv Ep Eu u v. fold u in Eu.
  assert (Eju : to_size_t u = floor_double u).
  { apply to_size_t_floor. unfold outside in Eu.
    apply orb_false_elim in Eu as [Eu _].
    now apply orb_false_elim in Eu as [Eu _]. }
  split.
  { intros Ha. unfold project. rewrite Hv. cbn [negb]. fold u.
    now rewrite Eu, Ha, Eju. }
  intros Ha.
  assert (Hdrop : outside v (height o) = true ->
                  project lm cfg o i_in (x, y, z) = None).
  { intros Eo. unfold project. rewrite Hv. cbn [negb]. fold u v.
    now rewrite Eu, Ha, Eo. }
  split; [unfold outside; rewrite !orb_true_iff; tauto|].
  split.
  { intros Eo. split; [now apply Hdrop|].
    unfold body. rewrite Ep, (Hdrop Eo). reflexivity. }
  split.
  { intros Ev. apply Hdrop. unfold outside.
    destruct (isnan v) eqn:En; [now rewrite orb_true_r|].
    rewrite <- Ev. rewrite (fge_refl v En). now rewrite orb_true_r. }
  intros Eo.
  assert (Elt : (v <? 0)%float = false).
  { unfold outside in Eo. apply orb_false_elim in Eo as [Eo _].
    now apply orb_false_elim in Eo as [Eo _]. }
  split.
  - unfold project. rewrite Hv. cbn [negb]. fold u v.
    rewrite Eu, Ha, Eo, Eju. now rewrite (to_size_t_floor v Elt).
  - intros Hh. rewrite <- (to_size_t_floor v Elt).
    unfold outside in Eo. apply orb_false_elim in Eo as [Eo En].
    apply orb_false_elim in Eo as [_ Ege].
    now apply to_size_t_in_range.
Qed.

(** The point [(0, 0, 1)] of [cloud_zenith]: its column is inside the
    image of the default configuration and its row is not. *)
Lemma row_test_witness :
  is_point_valid 0 0 1 = true /\
  read_xyz (data cloud_zenith) 0 = Some (0, 0, 1)%float /\
  outside (column_u axis_libm default_projection
             (init_output default_projection cloud_zenith blank)
             (0, 0, 1)%float)
          (width (init_output default_projection cloud_zenith blank))
  = false /\
  azimuth_only_ default_projection = false /\
  outside (row_v axis_libm default_projection
             (init_output default_projection cloud_zenith blank)
             (0, 0, 1)%float)
          (height (init_output default_projection cloud_zenith blank))
  = true /\
  project axis_libm default_projection
          (init_output default_projection cloud_zenith blank) 0 (0, 0, 1)%float
  = None.
Proof.
  assert (H1 : is_point_valid 0 0 1 = true) by evaluate.
  assert (H2 : read_xyz (data cloud_zenith) 0 = Some (0, 0, 1)%float)
    by evaluate.
  assert (H3 : outside (column_u axis_libm default_projection
                          (init_output default_projection cloud_zenith blank)
                          (0, 0, 1)%float)
                       (width (init_output default_projection cloud_zenith blank))
               = false) by evaluate.
  assert (H4 : azimuth_only_ default_projection = false) by reflexivity.
  assert (H5 : outside (row_v axis_libm default_projection
                          (init_output default_projection cloud_zenith blank)
                          (0, 0, 1)%float)
                       (height (init_output default_projection cloud_zenith blank))
               = true) by evaluate.
  repeat (split; [assumption|]).
  exact (proj1 (proj1 (proj2 (proj2
           (row_test axis_libm default_projection cloud_zenith
              (init_output default_projection cloud_zenith blank) 0 0 0 0
              (data (init_output default_projection cloud_zenith blank))
              0 0 1 H1 H2 H3) H4)) H5)).
Defined.

(** ** Messages without a field [x] *)

Lemma field_offset_none (nm : string) (fs : list PointField) :
  field_offset nm fs = None <-> forall f, In f fs -> name f <> nm.
Proof.
  induction fs as [|f fs IH]; cbn [field_offset].
  - split; [intros _ f [] | reflexivity].
  - destruct (String.eqb_spec (name f) nm) as [E|N].
    + split; [discriminate|]. intros H. exfalso. apply (H f); [now left | exact E].
    + rewrite IH. split.
      * intros H g [<-|Hg]; [exact N | now apply H].
      * intros H g Hg. apply H. now right.
Qed.

(** X10. A message that passes the assertions throws at the construction of
    the iterator exactly when none of its fields is named [x]; by then the
    output message has been overwritten: it has the input's header and
    fields, the resolved sizes and a buffer of zero bytes. *)
Theorem missing_x_throws (lm : Libm float) (cfg : Projection)
    (input output : PointCloud2) :
  config_typed cfg -> cloud_typed input -> input_checks input = true ->
  ((forall f, In f (fields input) -> name f <> "x"%string) <->
   exists o, process lm cfg input output = Thrown o) /\
  (forall o, process lm cfg input output = Thrown o ->
     header o = header input /\ fields o = fields input /\
     height o = resolved_height cfg input /\
     width o = resolved_width cfg input /\
     point_step o = point_step input /\
     forall b, In b (data o) -> b = x00).
Proof.
  intros Hc Ht Hin.
  destruct (process_past_checks lm cfg input output Hc Ht Hin) as (_ & ->).
  rewrite <- field_offset_none.
  destruct (field_offset "x"%string (fields input)) as [xoff|].
  - split.
    + split; [discriminate|]. intros (o & E).
      destruct ((len (data input) =? 0) || _); [discriminate|].
      destruct (scan _ _ _ _ _ _) as [(? & ?)|]; discriminate.
    + intros o E.
      destruct ((len (data input) =? 0) || _); [discriminate|].
      destruct (scan _ _ _ _ _ _) as [(? & ?)|]; discriminate.
  - split; [split; eauto|].
    intros o [= <-]. repeat split.
    intros b Hb. cbn in Hb. unfold zeros in Hb.
    now apply repeat_spec in Hb.
Qed.

Lemma missing_x_throws_witness :
  config_typed default_projection /\ cloud_typed cloud_without_x /\
  input_checks cloud_without_x = true /\
  forall o,
    process axis_libm default_projection cloud_without_x blank = Thrown o ->
    header o = header cloud_without_x /\ fields o = fields cloud_without_x /\
    height o = resolved_height default_projection cloud_without_x /\
    width o = resolved_width default_projection cloud_without_x /\
    point_step o = point_step cloud_without_x /\
    forall b, In b (data o) -> b = x00.
Proof.
  assert (H1 : config_typed default_projection) by evaluate.
  assert (H2 : cloud_typed cloud_without_x) by evaluate.
  assert (H3 : input_checks cloud_without_x = true) by evaluate.
  repeat (split; [assumption|]).
  exact (proj2 (missing_x_throws axis_libm default_projection cloud_without_x
                  blank H1 H2 H3)).
Defined.

(** ** Calls in sequence *)

(** X12. The image a call returns is a well-formed input: it passes the
    three assertions on the input and has its coordinates where the input
    has them, so that a second call on it, with any configuration whose
    output size is below [2^31], returns as well. *)
Theorem output_reusable (lm : Libm float) (cfg : Projection)
    (input output : PointCloud2) (xoff : Z) :
  config_typed cfg -> well_formed input xoff -> input_checks input = true ->
  output_size cfg input < 2 ^ 31 ->
  exists out,
    process lm cfg input output = Returned out /\
    well_formed out xoff /\ input_checks out = true /\
    forall (cfg2 : Projection) (output2 : PointCloud2),
      config_typed cfg2 -> output_size cfg2 out < 2 ^ 31 ->
      exists out2, process lm cfg2 out output2 = Returned out2.
Proof.
  intros Hc Hwf Hin Hint.
  assert (Hfit : output_size cfg input < 2 ^ 32) by lia.
  destruct (process_holds lm cfg input output xoff Hc Hwf Hin Hint)
    as (d & Ep & (Hlen & _)).
  pose proof (geom_H lm cfg input output xoff Hc Hwf Hin Hfit) as HH.
  pose proof (geom_W lm cfg input output xoff Hc Hwf Hin Hfit) as HW.
  pose proof (geom_PS lm cfg input output xoff Hc Hwf Hin Hfit) as HP.
  pose proof (out_row_step lm cfg input output xoff Hc Hwf Hin Hfit) as HR.
  assert (HWP : 0 <= resolved_width cfg input * point_step input < 2 ^ 32).
  { unfold output_size in Hfit.
    assert (1 * (resolved_width cfg input * point_step input)
            <= resolved_height cfg input
               * (resolved_width cfg input * point_step input))
      by (apply Z.mul_le_mono_nonneg_r; lia).
    lia. }
  assert (Eh : height (set_data (init_output cfg input output) d)
               = resolved_height cfg input) by reflexivity.
  assert (Ew : width (set_data (init_output cfg input output) d)
               = resolved_width cfg input) by reflexivity.
  assert (Es : point_step (set_data (init_output cfg input output) d)
               = point_step input) by reflexivity.
  assert (Ef : fields (set_data (init_output cfg input output) d)
               = fields input) by reflexivity.
  assert (Er : row_step (set_data (init_output cfg input output) d)
               = resolved_width cfg input * point_step input)
    by (rewrite row_step_set_data; exact HR).
  assert (Hwf2 : well_formed (set_data (init_output cfg input output) d) xoff).
  { destruct Hwf as (_ & _ & _ & Hf & Hx0 & Hx1).
    unfold well_formed, cloud_typed, is_u32.
    rewrite Eh, Ew, Es, Ef, Er, data_set_data.
    repeat split; try lia; try assumption.
    rewrite Hlen.
    assert (El : height (init_output cfg input output)
                 * width (init_output cfg input output)
                 * point_step (init_output cfg input output)
                 = resolved_height cfg input * resolved_width cfg input
                   * point_step input) by reflexivity.
    rewrite El. lia. }
  assert (Hin2 : input_checks (set_data (init_output cfg input output) d)
                 = true).
  { unfold input_checks. rewrite Eh, Ew, Es, Er.
    rewrite wrap32_small by lia.
    rewrite (proj2 (Z.leb_le 1 _) (proj1 HH)), (proj2 (Z.leb_le 1 _) (proj1 HW)).
    now rewrite Z.eqb_refl. }
  eexists. split; [exact Ep|]. split; [exact Hwf2|]. split; [exact Hin2|].
  intros cfg2 output2 Hc2 Hfit2.
  destruct (process_holds lm cfg2 _ output2 xoff Hc2 Hwf2 Hin2 Hfit2)
    as (d2 & Ep2 & _).
  eauto.
Qed.

Lemma output_reusable_witness :
  config_typed cfg_first /\ well_formed cloud_1x4 0 /\
  input_checks cloud_1x4 = true /\ output_size cfg_first cloud_1x4 < 2 ^ 31 /\
  exists out,
    process axis_libm cfg_first cloud_1x4 blank = Returned out /\
    well_formed out 0 /\ input_checks out = true.
Proof.
  assert (H1 : config_typed cfg_first) by evaluate.
  assert (H2 : well_formed cloud_1x4 0) by evaluate.
  assert (H3 : input_checks cloud_1x4 = true) by evaluate.
  assert (H4 : output_size cfg_first cloud_1x4 < 2 ^ 31) by evaluate.
  repeat (split; [assumption|]).
  destruct (output_reusable axis_libm cfg_first cloud_1x4 blank 0 H1 H2 H3 H4)
    as (out & Hr & Hw & Hi & _).
  exists out. split; [exact Hr|]. split; [exact Hw | exact Hi].
Defined.

(** ** Buffers that are too short *)

Lemma for_loop_weak {S : Type} (P : Z -> S -> Prop)
    (body : Z -> S -> option S) (n : nat) (i0 : Z) (s s' : S) :
  P i0 s ->
  (forall i t t', i0 <= i < i0 + Z.of_nat n -> P i t ->
     body i t = Some t' -> P (i + 1) t') ->
  for_loop n i0 body s = Some s' -> P (i0 + Z.of_nat n) s'.
Proof.
  revert i0 s. induction n as [|n IH]; intros i0 s H0 Hstep.
  - cbn [for_loop]. intros [= <-].
    now replace (i0 + Z.of_nat 0) with i0 by lia.
  - cbn [for_loop]. destruct (body i0 s) as [s1|] eqn:E1; [|discriminate].
    intros E.
    replace (i0 + Z.of_nat (Datatypes.S n)) with (i0 + 1 + Z.of_nat n) by lia.
    apply (IH (i0 + 1) s1); [apply (Hstep i0 s s1); [lia | assumption ..] | | exact E].
    intros i t t' Hi. apply Hstep. lia.
Qed.

Lemma for_loop_none {S : Type} (P : Z -> S -> Prop)
    (body : Z -> S -> option S) (n : nat) (i0 k : Z) (s : S) :
  P i0 s ->
  (forall i t t', i0 <= i < i0 + Z.of_nat n -> P i t ->
     body i t = Some t' -> P (i + 1) t') ->
  i0 <= k < i0 + Z.of_nat n ->
  (forall t, P k t -> body k t = None) ->
  for_loop n i0 body s = None.
Proof.
  revert i0 s. induction n as [|n IH]; intros i0 s H0 Hstep Hk Hfail; [lia|].
  cbn [for_loop]. destruct (body i0 s) as [s1|] eqn:E1; [|reflexivity].
  destruct (Z.eq_dec k i0) as [->|Hne].
  - rewrite (Hfail s H0) in E1. discriminate.
  - apply (IH (i0 + 1) s1); [apply (Hstep i0 s s1); [lia | assumption ..] | | lia | exact Hfail].
    intros i t t' Hi. apply Hstep. lia.
Qed.

Lemma read_xyz_short (d : bytes) (off : Z) :
  len d < off + 3 * sizeof_T -> read_xyz d off = None.
Proof.
  intros H. unfold read_xyz.
  assert (E : read_T d (off + 2 * sizeof_T) = None).
  { unfold read_T, slice, sizeof_T in *.
    destruct (Z.leb_spec (off + 2 * 8 + 8) (len d)); [lia|].
    now rewrite andb_false_r. }
  rewrite E. destruct (read_T d off); [|reflexivity].
  destruct (read_T d (off + sizeof_T)); reflexivity.
Qed.

Lemma body_advances (lm : Libm float) (cfg : Projection)
    (input o : PointCloud2) (xoff i j x_in : Z) (d : bytes) (s' : Z * bytes) :
  body lm cfg input o xoff i j (x_in, d) = Some s' ->
  fst s' = x_in + to_int (point_step input).
Proof.
  unfold body.
  destruct (read_xyz (data input) x_in) as [p|]; [|discriminate].
  destruct (project lm cfg o i p) as [(i_out & j_out)|];
    [|now intros [= <-]].
  destruct (keep_skip lm cfg o d xoff i_out j_out p) as [[|]|];
    [now intros [= <-] | | discriminate].
  destruct (copy_point input o d i j i_out j_out); [|discriminate].
  now intros [= <-].
Qed.

(** X11. The size of the input buffer is never checked: for records of
    fewer than [2^31] bytes (so that the iterator moves forward), when the
    coordinates of one point of the declared [height x width] grid lie
    past the end of [data], a call that passes the assertions reads
    outside the buffer. *)
Theorem short_input_undefined (lm : Libm float) (cfg : Projection)
    (input output : PointCloud2) (xoff a b : Z) :
  config_typed cfg -> cloud_typed input -> input_checks input = true ->
  point_step input < 2 ^ 31 ->
  field_offset "x"%string (fields input) = Some xoff ->
  0 <= a < height input -> 0 <= b < width input ->
  len (data input)
  < xoff + (a * width input + b) * point_step input + 3 * sizeof_T ->
  process lm cfg input output = Undefined.
Proof.
  intros Hc Ht Hin Hps Hf Ha Hb Hshort.
  pose proof (input_checks_true _ Hin) as (Hh1 & Hw1 & _).
  assert (Eps : to_int (point_step input) = point_step input).
  { destruct Ht as (_ & _ & Hp & _). unfold is_u32 in Hp.
    apply to_int_small. lia. }
  destruct (process_past_checks lm cfg input output Hc Ht Hin) as (_ & ->).
  rewrite Hf.
  destruct ((len (data input) =? 0) || _); [reflexivity|].
  set (o := init_output cfg input output).
  set (inner := fun i_in (s : Z * bytes) =>
         for_loop (Z.to_nat (width input)) 0
           (fun j_in s => body lm cfg input o xoff i_in j_in s) s).
  assert (Hinner : forall i t t',
            fst t = xoff + i * width input * point_step input ->
            inner i t = Some t' ->
            fst t' = xoff + (i + 1) * width input * point_step input).
  { intros i t t' Hi E. unfold inner in E.
    pose proof (for_loop_weak
                  (fun j (s : Z * bytes) =>
                     fst s = xoff + (i * width input + j) * point_step input)
                  (fun j_in s => body lm cfg input o xoff i j_in s)
                  (Z.to_nat (width input)) 0 t t') as L.
    cbn beta in L. rewrite Z2Nat.id in L by lia.
    replace ((i + 1) * width input) with (i * width input + (0 + width input))
      by lia.
    apply L; [rewrite Hi; f_equal; lia | | exact E].
    intros j (x & d) u Hj Hx Eb. cbn [fst] in Hx.
    rewrite (body_advances _ _ _ _ _ _ _ _ _ _ Eb), Eps, Hx. lia. }
  assert (Es : scan lm cfg input o xoff (xoff, data o) = None).
  { unfold scan. fold inner.
    apply (for_loop_none
             (fun i (s : Z * bytes) =>
                fst s = xoff + i * width input * point_step input)
             inner (Z.to_nat (height input)) 0 a).
    - cbn [fst]. lia.
    - intros i t t' _ Hi E. now apply (Hinner i t t').
    - rewrite Z2Nat.id by lia. lia.
    - intros t Hi. unfold inner.
      apply (for_loop_none
               (fun j (s : Z * bytes) =>
                  fst s = xoff + (a * width input + j) * point_step input)
               (fun j_in s => body lm cfg input o xoff a j_in s)
               (Z.to_nat (width input)) 0 b).
      + rewrite Hi. f_equal. lia.
      + intros j (x & d) u Hj Hx Eb. cbn [fst] in Hx.
        rewrite (body_advances _ _ _ _ _ _ _ _ _ _ Eb), Eps, Hx. lia.
      + rewrite Z2Nat.id by lia. lia.
      + intros (x & d) Hx. cbn [fst] in Hx. subst x.
        unfold body. now rewrite read_xyz_short. }
  now rewrite Es.
Qed.

(** [cloud_short] declares a second point that its buffer does not hold. *)
Lemma short_input_undefined_witness :
  config_typed default_projection /\ cloud_typed cloud_short /\
  input_checks cloud_short = true /\
  point_step cloud_short < 2 ^ 31 /\
  field_offset "x"%string (fields cloud_short) = Some 0 /\
  0 <= 0 < height cloud_short /\ 0 <= 1 < width cloud_short /\
  len (data cloud_short)
  < 0 + (0 * width cloud_short + 1) * point_step cloud_short + 3 * sizeof_T /\
  process axis_libm default_projection cloud_short blank = Undefined.
Proof.
  assert (H1 : config_typed default_projection) by evaluate.
  assert (H2 : cloud_typed cloud_short) by evaluate.
  assert (H3 : input_checks cloud_short = true) by evaluate.
  assert (Hs : point_step cloud_short < 2 ^ 31) by evaluate.
  assert (H4 : field_offset "x"%string (fields cloud_short) = Some 0)
    by evaluate.
  assert (H5 : 0 <= 0 < height cloud_short) by (vm_compute; split; congruence).
  assert (H6 : 0 <= 1 < width cloud_short)
    by (vm_compute; split; [discriminate | reflexivity]).
  assert (H7 : len (data cloud_short)
               < 0 + (0 * width cloud_short + 1) * point_step cloud_short
                 + 3 * sizeof_T) by (vm_compute; reflexivity).
  repeat (split; [assumption|]).
  exact (short_input_undefined axis_libm default_projection cloud_short blank
           0 0 1 H1 H2 H3 Hs H4 H5 H6 H7).
Defined.

(** ** Inputs without a point in the image *)

Lemma input_point_read (input : PointCloud2) (xoff a b : Z) :
  well_formed input xoff ->
  0 <= a < height input -> 0 <= b < width input ->
  exists p,
    read_xyz (data input) (xoff + (a * width input + b) * point_step input)
    = Some p /\
    point_xyz input a b = Some p.
Proof.
  intros (Ht & Hrow & Hlen & Hf & Hx0 & Hx1) Ha Hb.
  pose proof (index_bounds (height input) (width input) a b Ha Hb) as (? & ?).
  assert (0 <= point_step input) by (unfold sizeof_T in Hx1; lia).
  assert (0 <= (a * width input + b) * point_step input)
    by (apply Z.mul_nonneg_nonneg; lia).
  assert ((a * width input + b + 1) * point_step input
          <= height input * width input * point_step input)
    by (apply Z.mul_le_mono_nonneg_r; lia).
  destruct (read_xyz_some (data input)
              (xoff + (a * width input + b) * point_step input))
    as (p & Ep); [lia | rewrite Hlen, Hrow; lia |].
  exists p. split; [exact Ep|]. unfold point_xyz. now rewrite Hf.
Qed.

Lemma set_data_data (o : PointCloud2) : set_data o (data o) = o.
Proof. destruct o. reflexivity. Qed.

(** X15. An input none of whose points projects into the image (every
    point is invalid or falls outside) returns the blank image: the
    initialised output, whose buffer is all zero bytes. Nothing is copied,
    so the output size need not be bounded: it is enough that a record has
    fewer than [2^31] bytes (the iterator moves forward) and that the
    output buffer, of the 32-bit size, is not empty (the iterator's
    constructor takes the address of its first byte). *)
Theorem no_projection_blank_image (lm : Libm float) (cfg : Projection)
    (input output : PointCloud2) (xoff : Z) :
  config_typed cfg -> well_formed input xoff -> input_checks input = true ->
  point_step input < 2 ^ 31 ->
  len (data (init_output cfg input output)) <> 0 ->
  (forall a b, 0 <= a < height input -> 0 <= b < width input ->
     target lm cfg input output a b = None) ->
  process lm cfg input output = Returned (init_output cfg input output) /\
  forall b, In b (data (init_output cfg input output)) -> b = x00.
Proof.
  intros Hc Hwf Hin Hps Hne Hnone.
  split; [|intros b Hb; cbn in Hb; unfold zeros in Hb;
           now apply repeat_spec in Hb].
  pose proof (input_checks_true _ Hin) as (Hh1 & Hw1 & _).
  assert (Eps : to_int (point_step input) = point_step input).
  { destruct Hwf as ((_ & _ & Hp & _) & _). unfold is_u32 in Hp.
    apply to_int_small. lia. }
  assert (Hi0 : (len (data input) =? 0) = false).
  { apply Z.eqb_neq.
    destruct (input_point_read input xoff 0 0 Hwf ltac:(lia) ltac:(lia))
      as (p & Ep & _).
    intros E0. rewrite read_xyz_short in Ep; [discriminate|].
    destruct Hwf as (_ & _ & _ & _ & Hx0 & _).
    unfold sizeof_T. lia. }
  destruct (process_past_checks lm cfg input output Hc (proj1 Hwf) Hin)
    as (_ & ->).
  pose proof Hwf as (_ & _ & _ & Hf & _). rewrite Hf, Hi0.
  rewrite (proj2 (Z.eqb_neq _ _) Hne). cbn [orb].
  set (o := init_output cfg input output).
  set (Inv := fun (k : Z) (s : Z * bytes) =>
    fst s = xoff + k * point_step input /\ snd s = data o).
  destruct (for_loop_inv (fun i s => Inv (i * width input) s)
              (fun i_in s =>
                 for_loop (Z.to_nat (width input)) 0
                   (fun j_in s => body lm cfg input o xoff i_in j_in s) s)
              (Z.to_nat (height input)) 0 (xoff, data o))
    as ((x & d) & E & (_ & Hd)).
  - split; [cbn; lia | reflexivity].
  - intros i s Hi Hs. rewrite Z2Nat.id in Hi by lia.
    destruct (for_loop_inv (fun j s => Inv (i * width input + j) s)
                (fun j_in s => body lm cfg input o xoff i j_in s)
                (Z.to_nat (width input)) 0 s)
      as (s' & E' & Hs').
    + now rewrite Z.add_0_r.
    + intros j (x & d) Hj (Hx & Hd). cbn [fst snd] in Hx, Hd.
      rewrite Z2Nat.id in Hj by lia. subst x d.
      destruct (input_point_read input xoff i j Hwf ltac:(lia) ltac:(lia))
        as (p & Ep & Epp).
      pose proof (Hnone i j ltac:(lia) ltac:(lia)) as Ht.
      unfold target in Ht. rewrite Epp in Ht. fold o in Ht.
      eexists. split.
      * unfold body. rewrite Ep, Ht, Eps. reflexivity.
      * split; cbn [fst snd]; [lia | reflexivity].
    + exists s'. split; [exact E'|].
      rewrite Z2Nat.id in Hs' by lia.
      now replace ((i + 1) * width input)
        with (i * width input + (0 + width input)) by lia.
  - unfold scan. rewrite E. cbn [snd] in Hd. subst d.
    now rewrite set_data_data.
Qed.

Lemma no_projection_blank_image_witness :
  config_typed default_projection /\ well_formed cloud_1x1_empty 0 /\
  input_checks cloud_1x1_empty = true /\
  point_step cloud_1x1_empty < 2 ^ 31 /\
  len (data (init_output default_projection cloud_1x1_empty blank)) <> 0 /\
  process axis_libm default_projection cloud_1x1_empty blank
  = Returned (init_output default_projection cloud_1x1_empty blank).
Proof.
  assert (H1 : config_typed default_projection) by evaluate.
  assert (H2 : well_formed cloud_1x1_empty 0) by evaluate.
  assert (H3 : input_checks cloud_1x1_empty = true) by evaluate.
  assert (H4 : forall a b,
             0 <= a < height cloud_1x1_empty ->
             0 <= b < width cloud_1x1_empty ->
             target axis_libm default_projection cloud_1x1_empty blank a b
             = None).
  { intros a b Ha Hb.
    change (height cloud_1x1_empty) with 1 in Ha.
    change (width cloud_1x1_empty) with 1 in Hb.
    assert (Ea : a = 0) by lia. assert (Eb : b = 0) by lia.
    subst a b. vm_compute. reflexivity. }
  assert (H5 : point_step cloud_1x1_empty < 2 ^ 31) by evaluate.
  assert (H6 : len (data (init_output default_projection cloud_1x1_empty
                                      blank)) <> 0)
    by (vm_compute; discriminate).
  split; [exact H1|]. split; [exact H2|]. split; [exact H3|].
  split; [exact H5|]. split; [exact H6|].
  exact (proj1 (no_projection_blank_image axis_libm default_projection
                  cloud_1x1_empty blank 0 H1 H2 H3 H5 H6 H4)).
Defined.

(** ** The cell tested and the cell written *)

(** X16. When the output size is below [2^31], the coordinates that the
    collision tests read for cell [(i, j)] (at
    [x_out_begin + i * width + j]) are those of the record that the copy
    writes for that cell (at [i * row_step + j * point_step]): the cell
    tested is the cell written. *)
Theorem tested_cell_is_written_cell (lm : Libm float) (cfg : Projection)
    (input output : PointCloud2) (xoff i j : Z) :
  config_typed cfg -> well_formed input xoff -> input_checks input = true ->
  output_size cfg input < 2 ^ 31 ->
  0 <= i < resolved_height cfg input -> 0 <= j < resolved_width cfg input ->
  x_out (init_output cfg input output) xoff i j
  = dest (init_output cfg input output) i j + xoff /\
  0 <= dest (init_output cfg input output) i j /\
  dest (init_output cfg input output) i j + point_step input
  <= len (data (init_output cfg input output)).
Proof.
  intros Hc Hwf Hin Hint Hi Hj.
  assert (Hfit : output_size cfg input < 2 ^ 32) by lia.
  rewrite (x_out_eq lm cfg input output xoff Hc Hwf Hin Hfit Hint i j Hi Hj).
  rewrite (dest_eq lm cfg input output xoff Hc Hwf Hin Hfit i j Hi Hj).
  rewrite (out_data lm cfg input output xoff Hc Hwf Hin Hfit).
  pose proof (cell_bound lm cfg input output xoff Hc Hwf Hin Hfit i j Hi Hj)
    as (H0 & H1).
  pose proof (geom_PS lm cfg input output xoff Hc Hwf Hin Hfit) as HP.
  rewrite zeros_length by lia.
  repeat split; lia.
Qed.

Lemma tested_cell_is_written_cell_witness :
  config_typed default_projection /\ well_formed cloud_1x4 0 /\
  input_checks cloud_1x4 = true /\
  output_size default_projection cloud_1x4 < 2 ^ 31 /\
  0 <= 0 < resolved_height default_projection cloud_1x4 /\
  0 <= 3 < resolved_width default_projection cloud_1x4 /\
  x_out (init_output default_projection cloud_1x4 blank) 0 0 3
  = dest (init_output default_projection cloud_1x4 blank) 0 3 + 0.
Proof.
  assert (H1 : config_typed default_projection) by evaluate.
  assert (H2 : well_formed cloud_1x4 0) by evaluate.
  assert (H3 : input_checks cloud_1x4 = true) by evaluate.
  assert (H4 : output_size default_projection cloud_1x4 < 2 ^ 31) by evaluate.
  assert (H5 : 0 <= 0 < resolved_height default_projection cloud_1x4)
    by (vm_compute; split; [discriminate | reflexivity]).
  assert (H6 : 0 <= 3 < resolved_width default_projection cloud_1x4)
    by (vm_compute; split; [discriminate | reflexivity]).
  split; [exact H1|]. split; [exact H2|]. split; [exact H3|].
  split; [exact H4|]. split; [exact H5|]. split; [exact H6|].
  exact (proj1 (tested_cell_is_written_cell axis_libm default_projection
                  cloud_1x4 blank 0 0 3 H1 H2 H3 H4 H5 H6)).
Defined.

(** ** Configured sizes *)

(** X17. For configured sizes that are not negative, the message a call
    returns has the sizes the configuration asks for: [height] is the
    input's when azimuth-only mode is set or the configured height is 0 and
    the configured height otherwise, and [width] is the input's when the
    configured width is 0 and the configured width otherwise. *)
Theorem resolved_geometry (lm : Libm float) (cfg : Projection)
    (input output out : PointCloud2) :
  config_typed cfg -> 0 <= height_ cfg -> 0 <= width_ cfg ->
  process lm cfg input output = Returned out ->
  height out = (if azimuth_only_ cfg || (height_ cfg =? 0) then height input
                else height_ cfg) /\
  width out = (if width_ cfg =? 0 then width input else width_ cfg).
Proof.
  intros ((Hh & Hh') & (Hw & Hw')) Hh0 Hw0 E.
  assert (Eo : exists d, out = set_data (init_output cfg input output) d).
  { unfold process in E.
    destruct (negb (1 <=? height input)); [discriminate|].
    destruct (negb (1 <=? width input)); [discriminate|].
    destruct (negb (row_step input =? _)); [discriminate|].
    destruct (negb (1 <=? height _)); [discriminate|].
    destruct (negb (1 <=? width _)); [discriminate|].
    destruct (field_offset "x"%string (fields input)); [|discriminate].
    destruct ((len (data input) =? 0) || _); [discriminate|].
    destruct (scan _ _ _ _ _ _) as [(x & d)|]; [|discriminate].
    injection E as <-. now exists d. }
  destruct Eo as (d & ->).
  assert (Eh : height (set_data (init_output cfg input output) d)
               = resolved_height cfg input) by reflexivity.
  assert (Ew : width (set_data (init_output cfg input output) d)
               = resolved_width cfg input) by reflexivity.
  rewrite Eh, Ew. unfold resolved_height, resolved_width.
  rewrite !wrap32_small by lia. split; reflexivity.
Qed.

(** Azimuth-only mode with a configured height of 9 on a cloud of one
    row. *)
Lemma resolved_geometry_witness :
  config_typed cfg_azimuth_only /\
  0 <= height_ cfg_azimuth_only /\ 0 <= width_ cfg_azimuth_only /\
  process axis_libm cfg_azimuth_only cloud_1x4 blank
  = Returned (returned (process axis_libm cfg_azimuth_only cloud_1x4 blank)) /\
  height (returned (process axis_libm cfg_azimuth_only cloud_1x4 blank))
  = height cloud_1x4 /\
  width (returned (process axis_libm cfg_azimuth_only cloud_1x4 blank))
  = width cloud_1x4.
Proof.
  assert (H1 : config_typed cfg_azimuth_only) by evaluate.
  assert (H2 : 0 <= height_ cfg_azimuth_only) by (vm_compute; discriminate).
  assert (H3 : 0 <= width_ cfg_azimuth_only) by (vm_compute; discriminate).
  assert (H4 : process axis_libm cfg_azimuth_only cloud_1x4 blank
               = Returned (returned (process axis_libm cfg_azimuth_only
                                             cloud_1x4 blank)))
    by evaluate.
  split; [exact H1|]. split; [exact H2|]. split; [exact H3|].
  split; [exact H4|].
  destruct (resolved_geometry axis_libm cfg_azimuth_only cloud_1x4 blank _
                              H1 H2 H3 H4) as (Hh & Hw).
  split; assumption.
Defined.
